(** * GoalShock: the live goal-event listener

    A shallow embedding of [backend/bot/websocket_goal_listener.py]:
    the stream listener ([WebSocketGoalListener]), its reconnection policy,
    goal de-duplication, callback fan-out, and the polling fallback of
    [HybridGoalListener]; and of the callback the trading engine registers
    with it, [UnifiedTradingEngine._on_goal_event] of
    [backend/engine_unified.py].

    Modelling conventions.
    - JSON payloads are Python values ([pyval]); field accesses are the
      source's [.get] and subscript operations and may raise.
    - Exceptions are instances of Python's [Exception]; a [try]/[except
      Exception] block is [try_except].  Interpreter-exit signals
      (KeyboardInterrupt, SystemExit, task cancellation) are not modelled.
    - Mutable attributes are fields of a record that is threaded through the
      calls; a mutation done before an exception is raised is kept.
    - Logging is not modelled.  The [timestamp] field of [GoalEventWS]
      (wall-clock [datetime.now()]) is not modelled either.
    - The jitter of the reconnect delay is computed over the rationals. *)

From Stdlib Require Import ZArith QArith List String Ascii Bool Lia Lqa.
From Stdlib Require Import Permutation DecimalString PrimFloat FloatOps SpecFloat.
From Stdlib Require DecimalPos DecimalZ.
Import ListNotations.

Set Warnings "-register-all".

Local Open Scope string_scope.
Local Open Scope Z_scope.
Local Open Scope list_scope.

(** ** Python values and built-in operations *)

Module Py.

(** Exceptions raised by the modelled code (all subclasses of [Exception]). *)
Inductive exn : Type :=
| AttributeError
| TypeError
| KeyError
| JSONDecodeError
| ConnectionClosed
| ExceptionOf (cls : string).

Inductive result (A : Type) : Type :=
| Ok (a : A)
| Raise (e : exn).
Arguments Ok {A} a.
Arguments Raise {A} e.

Definition bind {A B : Type} (m : result A) (k : A -> result B) : result B :=
  match m with
  | Ok a => k a
  | Raise e => Raise e
  end.

(** [try: body / except Exception as e: handler e]. *)
Definition try_except {A : Type} (body : result A) (handler : exn -> result A)
  : result A :=
  match body with
  | Ok a => Ok a
  | Raise e => handler e
  end.

Definition is_ok {A : Type} (m : result A) : bool :=
  match m with
  | Ok _ => true
  | Raise _ => false
  end.

(** The values [json.loads] produces. A dict is kept as an association
    list; the first binding of a key is the one the dict holds. *)
Inductive pyval : Type :=
| PNone
| PBool (b : bool)
| PInt (z : Z)
| PFloat (f : float)
| PStr (s : string)
| PList (l : list pyval)
| PDict (kvs : list (string * pyval)).

Fixpoint assoc {A : Type} (k : string) (kvs : list (string * A)) : option A :=
  match kvs with
  | [] => None
  | (k', v) :: rest => if String.eqb k k' then Some v else assoc k rest
  end.

(** [v.get(key, default)]: only a dict has the method. *)
Definition get (v : pyval) (key : string) (default : pyval) : result pyval :=
  match v with
  | PDict kvs =>
      match assoc key kvs with
      | Some x => Ok x
      | None => Ok default
      end
  | _ => Raise AttributeError
  end.

(** [v[key]] for a string key. *)
Definition getitem (v : pyval) (key : string) : result pyval :=
  match v with
  | PDict kvs =>
      match assoc key kvs with
      | Some x => Ok x
      | None => Raise KeyError
      end
  | _ => Raise TypeError
  end.

Definition hashable (v : pyval) : bool :=
  match v with
  | PList _ | PDict _ => false
  | _ => true
  end.

(** Exact comparison of an integer with a binary64 float, as Python does
    it (no rounding of the integer). *)
Definition Z_compare_float (z : Z) (f : float) : option comparison :=
  match Prim2SF f with
  | S754_nan => None
  | S754_zero _ => Some (z ?= 0)
  | S754_infinity s => Some (if s then Gt else Lt)
  | S754_finite s m e =>
      let v := if s then Z.neg m else Z.pos m in
      Some (if 0 <=? e then z ?= v * 2 ^ e else z * 2 ^ (- e) ?= v)
  end.

(** The numeric value of a value of type bool, int or float. *)
Definition num (v : pyval) : option (Z + float) :=
  match v with
  | PBool b => Some (inl (if b then 1 else 0))
  | PInt z => Some (inl z)
  | PFloat f => Some (inr f)
  | _ => None
  end.

Definition num_compare (a b : Z + float) : option comparison :=
  match a, b with
  | inl x, inl y => Some (x ?= y)
  | inl x, inr g => Z_compare_float x g
  | inr f, inl y => option_map CompOpp (Z_compare_float y f)
  | inr f, inr g =>
      match PrimFloat.compare f g with
      | FEq => Some Eq
      | FLt => Some Lt
      | FGt => Some Gt
      | FNotComparable => None
      end
  end.

(** [a == b] on hashable values (numbers compare by value across bool,
    int and float). *)
Definition key_eqb (a b : pyval) : bool :=
  match num a, num b with
  | Some x, Some y =>
      match num_compare x y with
      | Some Eq => true
      | _ => false
      end
  | None, None =>
      match a, b with
      | PNone, PNone => true
      | PStr s, PStr t => String.eqb s t
      | _, _ => false
      end
  | _, _ => false
  end.

(** [v == "literal"]. *)
Definition is_str (v : pyval) (s : string) : bool :=
  match v with
  | PStr t => String.eqb t s
  | _ => false
  end.

Definition truthy (v : pyval) : bool :=
  match v with
  | PNone => false
  | PBool b => b
  | PInt z => negb (z =? 0)
  | PFloat f => negb (PrimFloat.eqb f 0%float)
  | PStr s => negb (String.eqb s "")
  | PList l => match l with [] => false | _ => true end
  | PDict kvs => match kvs with [] => false | _ => true end
  end.

(** [a or b]. *)
Definition or_else (a b : pyval) : pyval := if truthy a then a else b.

Definition str_of_Z (z : Z) : string := NilZero.string_of_int (Z.to_int z).

(** A dict keyed by hashable values, in insertion order. *)
Definition dict (V : Type) : Type := list (pyval * V).

Fixpoint dict_get {V : Type} (d : dict V) (k : pyval) : option V :=
  match d with
  | [] => None
  | (k', v) :: rest => if key_eqb k' k then Some v else dict_get rest k
  end.

(** [d[k] = v]: the binding of an equal key is replaced in place, a new
    key goes last. *)
Fixpoint dict_set {V : Type} (d : dict V) (k : pyval) (v : V) : dict V :=
  match d with
  | [] => [(k, v)]
  | (k', v') :: rest =>
      if key_eqb k' k then (k', v) :: rest else (k', v') :: dict_set rest k v
  end.

(** [l[-n:]]. *)
Definition last_n {A : Type} (n : nat) (l : list A) : list A :=
  skipn (List.length l - n)%nat l.

(** [random.uniform(a, b)] from the generator's draw [r] in [0, 1]. *)
Definition uniform (a b r : Q) : Q := (a + (b - a) * r)%Q.

End Py.

Import Py.

Notation "x <- m ;; k" := (Py.bind m (fun x => k))
  (at level 61, m at next level, right associativity).

(** ** The built-in [set] of strings

    Python fixes what a set contains, not the order in which it is
    iterated: [list(s)] follows the hash table's slots.  The interface
    below is what the language guarantees; the listener is verified against
    every implementation of it. *)

Class PySet : Type := {
  pyset : Type;
  (** [set()] *)
  set_empty : pyset;
  (** [s.add(k)] *)
  set_add : pyset -> string -> pyset;
  (** [set(l)] *)
  set_of_list : list string -> pyset;
  (** [list(s)]: the elements in iteration order *)
  set_to_list : pyset -> list string;
  set_to_list_NoDup : forall s, NoDup (set_to_list s);
  set_empty_spec : set_to_list set_empty = [];
  set_add_spec : forall s k x,
    In x (set_to_list (set_add s k)) <-> x = k \/ In x (set_to_list s);
  set_of_list_spec : forall l x,
    In x (set_to_list (set_of_list l)) <-> In x l
}.

(** [k in s] *)
Definition set_mem {PS : PySet} (k : string) (s : pyset) : bool :=
  existsb (String.eqb k) (set_to_list s).

(** [len(s)] *)
Definition set_len {PS : PySet} (s : pyset) : Z :=
  Z.of_nat (List.length (set_to_list s)).

(** ** The goal event *)

(** [GoalEventWS].  The constructor is called with whatever the payload
    holds, so every field carries a Python value. *)
Record GoalEventWS : Type := {
  fixture_id : pyval;
  league_id : pyval;
  league_name : pyval;
  home_team : pyval;
  away_team : pyval;
  team : pyval;
  player : pyval;
  minute : pyval;
  home_score : pyval;
  away_score : pyval;
  goal_type : pyval
}.

(** [WebSocketGoalListener.SUPPORTED_LEAGUES] *)
Definition SUPPORTED_LEAGUES : list Z := [39; 140; 78; 135; 61; 2; 3; 848].

(** [v in SUPPORTED_LEAGUES]: hashing an unhashable value raises. *)
Definition in_supported_leagues (v : pyval) : result bool :=
  if hashable v
  then Ok (existsb (fun z => key_eqb v (PInt z)) SUPPORTED_LEAGUES)
  else Raise TypeError.

(** Configuration set in [WebSocketGoalListener.__init__] and never
    assigned again. *)
Definition max_reconnect_attempts : Z := 10.
Definition base_reconnect_delay : Z := 2.
Definition max_reconnect_delay : Z := 60.

Section Listener.

(** [repr] of floats and containers, and the ordering of lists, are
    Python's own and are taken as given. *)
Variable py_repr : pyval -> string.
Variable py_list_gt : list pyval -> list pyval -> result bool.
(** [json.loads] *)
Variable json_loads : string -> result pyval.
(** The state of the consumers, on which the callbacks act. *)
Variable W : Type.
Context {PS : PySet}.

Local Set Default Proof Using "Type".

(** [str(v)], as an f-string formats [v]. *)
Definition py_str (v : pyval) : string :=
  match v with
  | PNone => "None"
  | PBool true => "True"
  | PBool false => "False"
  | PInt z => str_of_Z z
  | PStr s => s
  | PFloat _ | PList _ | PDict _ => py_repr v
  end.

(** [a > b] *)
Definition py_gt (a b : pyval) : result bool :=
  match num a, num b with
  | Some x, Some y =>
      Ok match num_compare x y with Some Gt => true | _ => false end
  | _, _ =>
      match a, b with
      | PStr s, PStr t =>
          Ok match String.compare s t with Gt => true | _ => false end
      | PList l, PList m => py_list_gt l m
      | _, _ => Raise TypeError
      end
  end.

(** *** Callback fan-out *)

Record callback : Type := {
  cb_name : string;
  cb_call : GoalEventWS -> W -> W * result unit
}.

(** One invocation: the callback's name and how the call ended. *)
Definition delivery : Type := (string * result unit)%type.

(** One fan-out: the event and the invocations made for it. *)
Definition dispatch : Type := (GoalEventWS * list delivery)%type.

(** [_notify_goal_callbacks]: each call sits in its own
    [try]/[except Exception], whose handler only logs. *)
Fixpoint _notify_goal_callbacks (callbacks : list callback) (goal : GoalEventWS)
  (w : W) : W * list delivery * result unit :=
  match callbacks with
  | [] => (w, [], Ok tt)
  | cb :: rest =>
      let (w1, r) := cb_call cb goal w in
      match try_except r (fun _ => Ok tt) with
      | Raise e => (w1, [(cb_name cb, r)], Raise e)
      | Ok _ =>
          let '(w2, ds, r2) := _notify_goal_callbacks rest goal w1 in
          (w2, (cb_name cb, r) :: ds, r2)
      end
  end.

(** *** The stream listener *)

Record WebSocketGoalListener : Type := {
  running : bool;
  goal_callbacks : list callback;
  seen_goals : pyset;
  reconnect_attempts : Z;
  active_fixtures : dict pyval
}.

(** [WebSocketGoalListener.__init__] *)
Definition ws_init : WebSocketGoalListener :=
  {| running := false;
     goal_callbacks := [];
     seen_goals := set_empty;
     reconnect_attempts := 0;
     active_fixtures := [] |}.

Definition with_running (self : WebSocketGoalListener) (b : bool) :=
  {| running := b;
     goal_callbacks := goal_callbacks self;
     seen_goals := seen_goals self;
     reconnect_attempts := reconnect_attempts self;
     active_fixtures := active_fixtures self |}.

Definition with_seen_goals (self : WebSocketGoalListener) (s : pyset) :=
  {| running := running self;
     goal_callbacks := goal_callbacks self;
     seen_goals := s;
     reconnect_attempts := reconnect_attempts self;
     active_fixtures := active_fixtures self |}.

Definition with_reconnect_attempts (self : WebSocketGoalListener) (n : Z) :=
  {| running := running self;
     goal_callbacks := goal_callbacks self;
     seen_goals := seen_goals self;
     reconnect_attempts := n;
     active_fixtures := active_fixtures self |}.

Definition with_active_fixtures (self : WebSocketGoalListener) (d : dict pyval) :=
  {| running := running self;
     goal_callbacks := goal_callbacks self;
     seen_goals := seen_goals self;
     reconnect_attempts := reconnect_attempts self;
     active_fixtures := d |}.

(** [register_goal_callback] *)
Definition register_goal_callback (self : WebSocketGoalListener) (cb : callback) :=
  {| running := running self;
     goal_callbacks := goal_callbacks self ++ [cb];
     seen_goals := seen_goals self;
     reconnect_attempts := reconnect_attempts self;
     active_fixtures := active_fixtures self |}.

(** What a handler leaves behind: the listener, the consumers' state, the
    fan-outs made, and whether it returned or raised. *)
Definition outcome : Type :=
  (WebSocketGoalListener * W * list dispatch * result unit)%type.

(** The handler of a [try]/[except Exception] that only logs. *)
Definition catch_and_log (o : outcome) : outcome :=
  let '(self, w, log, r) := o in
  (self, w, log, try_except r (fun _ => Ok tt)).

(** The parts of a goal payload read at the top of [_handle_goal_event]. *)
Record goal_parts : Type := {
  gp_fixture : pyval;
  gp_league : pyval;
  gp_goal : pyval;
  gp_score : pyval;
  gp_fixture_id : pyval;
  gp_league_id : pyval
}.

Definition read_goal_parts (data : pyval) : result goal_parts :=
  fixture <- get data "fixture" (PDict []) ;;
  league <- get data "league" (PDict []) ;;
  goal <- get data "goal" (PDict []) ;;
  score <- get data "score" (PDict []) ;;
  fixture_id <- get fixture "id" PNone ;;
  league_id <- get league "id" PNone ;;
  Ok {| gp_fixture := fixture; gp_league := league; gp_goal := goal;
        gp_score := score; gp_fixture_id := fixture_id;
        gp_league_id := league_id |}.

(** The f-string that builds [goal_id]. *)
Definition goal_id_of (fixture_id goal : pyval) : result string :=
  minute <- get goal "minute" (PInt 0) ;;
  player <- get goal "player" (PStr "unknown") ;;
  Ok (py_str fixture_id ++ "_" ++ py_str minute ++ "_" ++ py_str player)%string.

(** The clean-up of [seen_goals] after an insertion. *)
Definition prune_seen (s : pyset) : pyset :=
  if 1000 <? set_len s
  then set_of_list (last_n 500 (set_to_list s))
  else s.

(** The call of the [GoalEventWS] constructor in [_handle_goal_event]. *)
Definition make_goal_event (p : goal_parts) : result GoalEventWS :=
  league_name <- get (gp_league p) "name" (PStr "Unknown") ;;
  home_team <- get (gp_fixture p) "home_team" (PStr "Unknown") ;;
  away_team <- get (gp_fixture p) "away_team" (PStr "Unknown") ;;
  team <- get (gp_goal p) "team" (PStr "Unknown") ;;
  player <- get (gp_goal p) "player" (PStr "Unknown") ;;
  minute <- get (gp_goal p) "minute" (PInt 0) ;;
  home_score <- get (gp_score p) "home" (PInt 0) ;;
  away_score <- get (gp_score p) "away" (PInt 0) ;;
  goal_type <- get (gp_goal p) "type" (PStr "Normal") ;;
  Ok {| fixture_id := gp_fixture_id p;
        league_id := gp_league_id p;
        league_name := league_name;
        home_team := home_team;
        away_team := away_team;
        team := team;
        player := player;
        minute := minute;
        home_score := home_score;
        away_score := away_score;
        goal_type := goal_type |}.

(** The body of the [try] block of [_handle_goal_event]. *)
Definition handle_goal_event_body (self : WebSocketGoalListener) (w : W)
  (data : pyval) : outcome :=
  match read_goal_parts data with
  | Raise e => (self, w, [], Raise e)
  | Ok p =>
  match in_supported_leagues (gp_league_id p) with
  | Raise e => (self, w, [], Raise e)
  | Ok false => (self, w, [], Ok tt)
  | Ok true =>
  match goal_id_of (gp_fixture_id p) (gp_goal p) with
  | Raise e => (self, w, [], Raise e)
  | Ok goal_id =>
      if set_mem goal_id (seen_goals self) then (self, w, [], Ok tt)
      else
        let self1 :=
          with_seen_goals self (prune_seen (set_add (seen_goals self) goal_id)) in
        match make_goal_event p with
        | Raise e => (self1, w, [], Raise e)
        | Ok goal_event =>
            let '(w1, ds, r) :=
              _notify_goal_callbacks (goal_callbacks self1) goal_event w in
            (self1, w1, [(goal_event, ds)], r)
        end
  end end end.

(** [_handle_goal_event] *)
Definition _handle_goal_event (self : WebSocketGoalListener) (w : W)
  (data : pyval) : outcome :=
  catch_and_log (handle_goal_event_body self w data).

(** [_handle_fixture_update] (it has no [try] of its own). *)
Definition _handle_fixture_update (self : WebSocketGoalListener) (data : pyval)
  : WebSocketGoalListener * result unit :=
  match (fixture <- get data "fixture" (PDict []) ;;
         fixture_id <- get fixture "id" PNone ;;
         _ <- get data "status" (PStr "") ;;
         Ok fixture_id) with
  | Raise e => (self, Raise e)
  | Ok fixture_id =>
      if truthy fixture_id then
        if hashable fixture_id
        then (with_active_fixtures self
                (dict_set (active_fixtures self) fixture_id data), Ok tt)
        else (self, Raise TypeError)
      else (self, Ok tt)
  end.

(** The body of the [try] block of [_process_message]. *)
Definition process_message_body (self : WebSocketGoalListener) (w : W)
  (message : string) : outcome :=
  match json_loads message with
  | Raise e => (self, w, [], Raise e)
  | Ok data =>
      match get data "type" (PStr "") with
      | Raise e => (self, w, [], Raise e)
      | Ok msg_type =>
          if is_str msg_type "goal" then _handle_goal_event self w data
          else if is_str msg_type "fixture_update" then
            let (self1, r) := _handle_fixture_update self data in
            (self1, w, [], r)
          else if is_str msg_type "heartbeat" then (self, w, [], Ok tt)
          else if is_str msg_type "error" then
            (self, w, [], _ <- get data "message" (PStr "Unknown error") ;; Ok tt)
          else (self, w, [], Ok tt)
      end
  end.

(** [_process_message] *)
Definition _process_message (self : WebSocketGoalListener) (w : W)
  (message : string) : outcome :=
  catch_and_log (process_message_body self w message).

(** *** Reconnection *)

(** The time slept before reconnect attempt number [attempts], with the
    generator's draw [r]. *)
Definition reconnect_delay (attempts : Z) (r : Q) : Q :=
  let delay :=
    Z.min (base_reconnect_delay * 2 ^ (attempts - 1)) max_reconnect_delay in
  let jitter := (inject_Z delay * uniform 0 (1 # 4) r)%Q in
  (inject_Z delay + jitter)%Q.

(** [_handle_reconnection]: the new listener and the time slept, if any. *)
Definition _handle_reconnection (self : WebSocketGoalListener) (r : Q)
  : WebSocketGoalListener * option Q :=
  let self1 := with_reconnect_attempts self (reconnect_attempts self + 1) in
  if max_reconnect_attempts <? reconnect_attempts self1
  then (with_running self1 false, None)
  else (self1, Some (reconnect_delay (reconnect_attempts self1) r)).

(** What the network does during one call of [_connect_and_listen]. *)
Inductive session_end : Type :=
| Drops (e : exn)   (* the connection is lost: the iteration raises *)
| Ends              (* the stream ends: the iteration finishes *)
| Stopped.          (* [stop()] is called: [running] is cleared, the socket closed *)

Inductive session : Type :=
| ConnectFails (e : exn)
| Connected (messages : list string) (ending : session_end).

(** The [async for] loop of [_connect_and_listen]. *)
Fixpoint process_messages (self : WebSocketGoalListener) (w : W)
  (messages : list string) : outcome :=
  match messages with
  | [] => (self, w, [], Ok tt)
  | m :: rest =>
      let '(self1, w1, log1, r) := _process_message self w m in
      match r with
      | Raise e => (self1, w1, log1, Raise e)
      | Ok _ =>
          let '(self2, w2, log2, r2) := process_messages self1 w1 rest in
          (self2, w2, log1 ++ log2, r2)
      end
  end.

(** [_connect_and_listen] *)
Definition _connect_and_listen (self : WebSocketGoalListener) (w : W)
  (s : session) : outcome :=
  match s with
  | ConnectFails e => (self, w, [], Raise e)
  | Connected messages ending =>
      let self0 := with_reconnect_attempts self 0 in
      let '(self1, w1, log, r) := process_messages self0 w messages in
      match r with
      | Raise e => (self1, w1, log, Raise e)
      | Ok _ =>
          match ending with
          | Drops e => (self1, w1, log, Raise e)
          | Ends => (self1, w1, log, Ok tt)
          | Stopped => (with_running self1 false, w1, log, Ok tt)
          end
      end
  end.

(** How [start] stands when the trace of sessions is used up. *)
Inductive start_status : Type :=
| Returned    (* the [while self.running] loop was left *)
| Listening.  (* the loop is still running *)

Record run : Type := {
  run_listener : WebSocketGoalListener;
  run_world : W;
  run_log : list dispatch;
  run_sleeps : list Q;
  run_status : result start_status
}.

Definition run_after (log : list dispatch) (sleeps : list Q) (rn : run) : run :=
  {| run_listener := run_listener rn;
     run_world := run_world rn;
     run_log := log ++ run_log rn;
     run_sleeps := sleeps ++ run_sleeps rn;
     run_status := run_status rn |}.

(** The loop of [start], over the sessions the network provides, each with
    the jitter draw used if a reconnection follows it. *)
Fixpoint start_loop (self : WebSocketGoalListener) (w : W)
  (trace : list (session * Q)) : run :=
  match trace with
  | [] =>
      {| run_listener := self; run_world := w; run_log := []; run_sleeps := [];
         run_status := Ok (if running self then Listening else Returned) |}
  | (s, r) :: rest =>
      if running self then
        let '(self1, w1, log1, res) := _connect_and_listen self w s in
        match res with
        | Ok _ => run_after log1 [] (start_loop self1 w1 rest)
        | Raise _ =>
            if running self1 then
              let (self2, slept) := _handle_reconnection self1 r in
              run_after log1
                match slept with Some d => [d] | None => [] end
                (start_loop self2 w1 rest)
            else run_after log1 [] (start_loop self1 w1 rest)
        end
      else
        {| run_listener := self; run_world := w; run_log := []; run_sleeps := [];
           run_status := Ok Returned |}
  end.

(** [WebSocketGoalListener.start] *)
Definition start (self : WebSocketGoalListener) (w : W)
  (trace : list (session * Q)) : run :=
  start_loop (with_running self true) w trace.

(** *** The hybrid listener *)

Record HybridGoalListener : Type := {
  ws_listener : WebSocketGoalListener;
  hy_running : bool;
  use_polling_fallback : bool;
  previous_scores : dict (pyval * pyval);
  hy_goal_callbacks : list callback
}.

(** [HybridGoalListener.__init__] *)
Definition hybrid_init : HybridGoalListener :=
  {| ws_listener := ws_init;
     hy_running := false;
     use_polling_fallback := false;
     previous_scores := [];
     hy_goal_callbacks := [] |}.

Definition with_ws_listener (self : HybridGoalListener) (l : WebSocketGoalListener) :=
  {| ws_listener := l;
     hy_running := hy_running self;
     use_polling_fallback := use_polling_fallback self;
     previous_scores := previous_scores self;
     hy_goal_callbacks := hy_goal_callbacks self |}.

Definition with_hy_running (self : HybridGoalListener) (b : bool) :=
  {| ws_listener := ws_listener self;
     hy_running := b;
     use_polling_fallback := use_polling_fallback self;
     previous_scores := previous_scores self;
     hy_goal_callbacks := hy_goal_callbacks self |}.

Definition with_use_polling_fallback (self : HybridGoalListener) (b : bool) :=
  {| ws_listener := ws_listener self;
     hy_running := hy_running self;
     use_polling_fallback := b;
     previous_scores := previous_scores self;
     hy_goal_callbacks := hy_goal_callbacks self |}.

Definition with_previous_scores (self : HybridGoalListener)
  (d : dict (pyval * pyval)) :=
  {| ws_listener := ws_listener self;
     hy_running := hy_running self;
     use_polling_fallback := use_polling_fallback self;
     previous_scores := d;
     hy_goal_callbacks := hy_goal_callbacks self |}.

(** [HybridGoalListener.register_goal_callback] *)
Definition hybrid_register_goal_callback (self : HybridGoalListener)
  (cb : callback) :=
  {| ws_listener := register_goal_callback (ws_listener self) cb;
     hy_running := hy_running self;
     use_polling_fallback := use_polling_fallback self;
     previous_scores := previous_scores self;
     hy_goal_callbacks := hy_goal_callbacks self ++ [cb] |}.

(** [_run_websocket] *)
Definition _run_websocket (self : HybridGoalListener) (w : W)
  (trace : list (session * Q)) : HybridGoalListener * run :=
  let rn := start (ws_listener self) w trace in
  let self1 := with_ws_listener self (run_listener rn) in
  match run_status rn with
  | Ok _ => (self1, rn)
  | Raise _ => (with_use_polling_fallback self1 true, rn)
  end.

(** *** The polling fallback *)

Definition poll_outcome : Type :=
  (HybridGoalListener * W * list dispatch * result unit)%type.

(** The event [_emit_polling_goal] builds before its loop: the reads of
    the fixture and the call of the [GoalEventWS] constructor, outside any
    [try]. *)
Definition polling_goal_event (fixture : pyval) (side : string)
  : result GoalEventWS :=
  teams <- getitem fixture "teams" ;;
  goals <- getitem fixture "goals" ;;
  league <- getitem fixture "league" ;;
  scorer <- getitem teams side ;;
  team <- getitem scorer "name" ;;
  fx <- getitem fixture "fixture" ;;
  fixture_id <- getitem fx "id" ;;
  league_id <- getitem league "id" ;;
  league_name <- getitem league "name" ;;
  home <- getitem teams "home" ;;
  home_team <- getitem home "name" ;;
  away <- getitem teams "away" ;;
  away_team <- getitem away "name" ;;
  status <- getitem fx "status" ;;
  minute <- get status "elapsed" (PInt 0) ;;
  goals_home <- getitem goals "home" ;;
  goals_away <- getitem goals "away" ;;
  Ok {| fixture_id := fixture_id;
        league_id := league_id;
        league_name := league_name;
        home_team := home_team;
        away_team := away_team;
        team := team;
        player := PStr "Unknown (from polling)";
        minute := minute;
        home_score := or_else goals_home (PInt 0);
        away_score := or_else goals_away (PInt 0);
        goal_type := PStr "Normal" |}.

(** [_emit_polling_goal]: the event is built outside any [try]; the loop
    over the callbacks is the one of [_notify_goal_callbacks]. *)
Definition _emit_polling_goal (self : HybridGoalListener) (w : W)
  (fixture : pyval) (side : string) : W * list dispatch * result unit :=
  match polling_goal_event fixture side with
  | Raise e => (w, [], Raise e)
  | Ok goal_event =>
      let '(w1, ds, r) :=
        _notify_goal_callbacks (hy_goal_callbacks self) goal_event w in
      (w1, [(goal_event, ds)], r)
  end.

(** [if current > prev: await self._emit_polling_goal(fixture, side)] *)
Definition detect_goal (self : HybridGoalListener) (w : W) (fixture : pyval)
  (side : string) (current prev : pyval) : W * list dispatch * result unit :=
  match py_gt current prev with
  | Raise e => (w, [], Raise e)
  | Ok true => _emit_polling_goal self w fixture side
  | Ok false => (w, [], Ok tt)
  end.

(** One pass of the body of the [for] loop of [_poll_for_goals]. *)
Definition poll_fixture (self : HybridGoalListener) (w : W) (fixture : pyval)
  : poll_outcome :=
  match (fx <- getitem fixture "fixture" ;;
         fixture_id <- getitem fx "id" ;;
         league <- getitem fixture "league" ;;
         league_id <- getitem league "id" ;;
         supported <- in_supported_leagues league_id ;;
         Ok (fixture_id, supported)) with
  | Raise e => (self, w, [], Raise e)
  | Ok (_, false) => (self, w, [], Ok tt)
  | Ok (fixture_id, true) =>
  match (goals <- getitem fixture "goals" ;;
         goals_home <- getitem goals "home" ;;
         goals_away <- getitem goals "away" ;;
         if hashable fixture_id
         then Ok (or_else goals_home (PInt 0), or_else goals_away (PInt 0))
         else Raise TypeError) with
  | Raise e => (self, w, [], Raise e)
  | Ok (home_score, away_score) =>
      let stored :=
        with_previous_scores self
          (dict_set (previous_scores self) fixture_id (home_score, away_score)) in
      match dict_get (previous_scores self) fixture_id with
      | None => (stored, w, [], Ok tt)
      | Some (prev_home, prev_away) =>
          let '(w1, log1, r1) :=
            detect_goal self w fixture "home" home_score prev_home in
          match r1 with
          | Raise e => (self, w1, log1, Raise e)
          | Ok _ =>
              let '(w2, log2, r2) :=
                detect_goal self w1 fixture "away" away_score prev_away in
              match r2 with
              | Raise e => (self, w2, log1 ++ log2, Raise e)
              | Ok _ => (stored, w2, log1 ++ log2, Ok tt)
              end
          end
      end
  end end.

(** The [for] loop of [_poll_for_goals]: an exception leaves the loop. *)
Fixpoint poll_loop (self : HybridGoalListener) (w : W) (fixtures : list pyval)
  : poll_outcome :=
  match fixtures with
  | [] => (self, w, [], Ok tt)
  | fixture :: rest =>
      let '(self1, w1, log1, r) := poll_fixture self w fixture in
      match r with
      | Raise e => (self1, w1, log1, Raise e)
      | Ok _ =>
          let '(self2, w2, log2, r2) := poll_loop self1 w1 rest in
          (self2, w2, log1 ++ log2, r2)
      end
  end.

(** The elements a [for] loop draws from a value: the items of a list, the
    keys of a dict, the characters of a string (each a string). *)
Definition py_iter (v : pyval) : result (list pyval) :=
  match v with
  | PList l => Ok l
  | PDict kvs => Ok (map PStr (nodup string_dec (map fst kvs)))
  | PStr s => Ok (map (fun c => PStr (String c EmptyString)) (list_ascii_of_string s))
  | _ => Raise TypeError
  end.

(** What the HTTP request of a poll cycle brings back. *)
Inductive http_outcome : Type :=
| HttpFails (e : exn)
| HttpResponse (status_code : Z) (json : result pyval).

(** The body of the [try] block of [_poll_for_goals]. *)
Definition poll_for_goals_body (self : HybridGoalListener) (w : W)
  (http : http_outcome) : poll_outcome :=
  match http with
  | HttpFails e => (self, w, [], Raise e)
  | HttpResponse status_code json =>
      if negb (status_code =? 200) then (self, w, [], Ok tt)
      else
        match (data <- json ;;
               fixtures <- get data "response" (PList []) ;;
               py_iter fixtures) with
        | Raise e => (self, w, [], Raise e)
        | Ok fixtures => poll_loop self w fixtures
        end
  end.

(** [_poll_for_goals] *)
Definition _poll_for_goals (self : HybridGoalListener) (w : W)
  (http : http_outcome) : poll_outcome :=
  let '(self1, w1, log, r) := poll_for_goals_body self w http in
  (self1, w1, log, try_except r (fun _ => Ok tt)).

(** One turn of the loop of [_health_monitor], after its sleep: the new
    state, the fan-outs made, and whether a poll was made. *)
Definition health_monitor_cycle (self : HybridGoalListener) (w : W)
  (http : http_outcome) : HybridGoalListener * W * list dispatch * bool :=
  if use_polling_fallback self then
    let '(self1, w1, log, _) := _poll_for_goals self w http in
    (self1, w1, log, true)
  else (self, w, [], false).

(** [_health_monitor], over the responses the polls would get: the new
    state, the fan-outs made, and the number of polls made. *)
Fixpoint _health_monitor (self : HybridGoalListener) (w : W)
  (cycles : list http_outcome) : HybridGoalListener * W * list dispatch * nat :=
  match cycles with
  | [] => (self, w, [], 0%nat)
  | http :: rest =>
      if hy_running self then
        let '(self1, w1, log1, polled) := health_monitor_cycle self w http in
        let '(self2, w2, log2, n) := _health_monitor self1 w1 rest in
        (self2, w2, log1 ++ log2, ((if polled then 1 else 0) + n)%nat)
      else (self, w, [], 0%nat)
  end.

(** ** Specification-side notions *)

(** The world after every callback of [callbacks] has been called on
    [goal], in registration order, whatever each call returned or raised. *)
Definition called_in_order (callbacks : list callback) (goal : GoalEventWS)
  (w : W) : W :=
  fold_left (fun w' cb => fst (cb_call cb goal w')) callbacks w.

(** The goal payload names a league the listener supports. *)
Definition league_allowed (data : pyval) : bool :=
  match read_goal_parts data with
  | Ok p =>
      match in_supported_leagues (gp_league_id p) with
      | Ok true => true
      | _ => false
      end
  | Raise _ => false
  end.

(** The dedup key of a goal payload that reaches the de-duplication. *)
Definition goal_key (data : pyval) : option string :=
  match read_goal_parts data with
  | Ok p =>
      match in_supported_leagues (gp_league_id p) with
      | Ok true =>
          match goal_id_of (gp_fixture_id p) (gp_goal p) with
          | Ok k => Some k
          | Raise _ => None
          end
      | _ => None
      end
  | Raise _ => None
  end.

(** [key] is absent from the dict [v]. *)
Definition lacks (v : pyval) (key : string) : Prop :=
  exists kvs, v = PDict kvs /\ assoc key kvs = None.

(** A run of [_handle_goal_event] over successive payloads, with the
    fan-outs of each call. *)
Fixpoint handle_goal_events (self : WebSocketGoalListener) (w : W)
  (datas : list pyval) : WebSocketGoalListener * W * list (list dispatch) :=
  match datas with
  | [] => (self, w, [])
  | data :: rest =>
      let '(self1, w1, log, _) := _handle_goal_event self w data in
      let '(self2, w2, logs) := handle_goal_events self1 w1 rest in
      (self2, w2, log :: logs)
  end.

(** ** Facts about sets *)

Lemma set_mem_In (k : string) (s : pyset) :
  set_mem k s = true <-> In k (set_to_list s).
Proof.
  unfold set_mem. rewrite existsb_exists. split.
  - intros [x [Hx Heq]]. apply String.eqb_eq in Heq. now subst.
  - intros H. exists k. split; [assumption | apply String.eqb_refl].
Qed.

Lemma set_mem_false (k : string) (s : pyset) :
  set_mem k s = false <-> ~ In k (set_to_list s).
Proof.
  rewrite <- set_mem_In. destruct (set_mem k s); split; congruence.
Qed.

Lemma set_len_add (s : pyset) (k : string) :
  ~ In k (set_to_list s) -> set_len (set_add s k) = set_len s + 1.
Proof.
  intros Hk. unfold set_len.
  assert (P : Permutation (set_to_list (set_add s k)) (k :: set_to_list s)).
  { apply NoDup_Permutation.
    - apply set_to_list_NoDup.
    - constructor; [assumption | apply set_to_list_NoDup].
    - intros x. rewrite set_add_spec. simpl. split; intros [H|H]; auto. }
  rewrite (Permutation_length P). simpl List.length. lia.
Qed.

Lemma last_n_length {A : Type} (n : nat) (l : list A) :
  List.length (last_n n l) = Nat.min n (List.length l).
Proof. unfold last_n. rewrite length_skipn. lia. Qed.

Lemma last_n_incl {A : Type} (n : nat) (l : list A) (x : A) :
  In x (last_n n l) -> In x l.
Proof.
  unfold last_n. intros H.
  rewrite <- (firstn_skipn (List.length l - n) l). apply in_or_app. now right.
Qed.

Lemma last_n_NoDup {A : Type} (n : nat) (l : list A) :
  NoDup l -> NoDup (last_n n l).
Proof.
  unfold last_n. intros H.
  rewrite <- (firstn_skipn (List.length l - n) l) in H.
  now apply NoDup_app_remove_l in H.
Qed.

Lemma set_len_of_list (l : list string) :
  NoDup l -> set_len (set_of_list l) = Z.of_nat (List.length l).
Proof.
  intros Hl. unfold set_len. f_equal. apply Permutation_length.
  apply NoDup_Permutation; [apply set_to_list_NoDup | assumption |].
  intros x. apply set_of_list_spec.
Qed.

(** Pruning a set of more than 1000 keys leaves exactly 500. *)
Lemma prune_seen_len (s : pyset) :
  1000 < set_len s -> set_len (prune_seen s) = 500.
Proof.
  intros H. unfold prune_seen. apply Z.ltb_lt in H. rewrite H.
  apply Z.ltb_lt in H. unfold set_len in H.
  rewrite set_len_of_list by (apply last_n_NoDup, set_to_list_NoDup).
  rewrite last_n_length. lia.
Qed.

(** Pruning adds no key, and does nothing up to 1000 keys. *)
Lemma prune_seen_incl (s : pyset) (x : string) :
  In x (set_to_list (prune_seen s)) -> In x (set_to_list s).
Proof.
  unfold prune_seen. destruct (1000 <? set_len s); [|trivial].
  rewrite set_of_list_spec. apply last_n_incl.
Qed.

Lemma prune_seen_small (s : pyset) :
  set_len s <= 1000 -> prune_seen s = s.
Proof.
  intros H. unfold prune_seen.
  destruct (1000 <? set_len s) eqn:E; [apply Z.ltb_lt in E; lia | reflexivity].
Qed.

(** ** Callback fan-out *)

Lemma notify_goal_callbacks_spec (callbacks : list callback)
  (goal : GoalEventWS) (w : W) :
  exists ds,
    _notify_goal_callbacks callbacks goal w
      = (called_in_order callbacks goal w, ds, Ok tt)
    /\ map fst ds = map cb_name callbacks.
Proof.
  revert w. induction callbacks as [|cb rest IH]; intros w; simpl.
  - exists []. split; reflexivity.
  - unfold called_in_order. simpl.
    destruct (cb_call cb goal w) as [w1 r] eqn:E. simpl.
    destruct (IH w1) as [ds [Hn Hm]].
    exists ((cb_name cb, r) :: ds).
    destruct r as [u|e]; simpl; rewrite Hn; unfold called_in_order;
      simpl; rewrite Hm; split; reflexivity.
Qed.


(** ** The goal handler, case by case *)

Definition get_or (kvs : list (string * pyval)) (key : string) (default : pyval)
  : pyval :=
  match assoc key kvs with
  | Some x => x
  | None => default
  end.

Lemma get_PDict (kvs : list (string * pyval)) (key : string) (default : pyval) :
  get (PDict kvs) key default = Ok (get_or kvs key default).
Proof. unfold get, get_or. now destruct (assoc key kvs). Qed.

Lemma get_Ok_inv (v : pyval) (key : string) (default x : pyval) :
  get v key default = Ok x ->
  exists kvs, v = PDict kvs /\ x = get_or kvs key default.
Proof.
  destruct v; simpl; try discriminate. intros H. exists kvs. split; [reflexivity|].
  unfold get_or. destruct (assoc key kvs); congruence.
Qed.

(** A payload whose parts were read has dicts for fixture and league. *)
Lemma read_goal_parts_inv (data : pyval) (p : goal_parts) :
  read_goal_parts data = Ok p ->
  exists dkvs fkvs lkvs,
    data = PDict dkvs
    /\ gp_fixture p = PDict fkvs /\ gp_league p = PDict lkvs
    /\ gp_fixture p = get_or dkvs "fixture" (PDict [])
    /\ gp_league p = get_or dkvs "league" (PDict [])
    /\ gp_goal p = get_or dkvs "goal" (PDict [])
    /\ gp_score p = get_or dkvs "score" (PDict [])
    /\ gp_fixture_id p = get_or fkvs "id" PNone
    /\ gp_league_id p = get_or lkvs "id" PNone.
Proof.
  unfold read_goal_parts. destruct data; try (simpl; discriminate).
  rewrite !get_PDict. unfold bind at 1 2 3 4.
  destruct (get (get_or kvs "fixture" (PDict [])) "id" PNone) as [fid|] eqn:Ef;
    simpl; [|discriminate].
  destruct (get (get_or kvs "league" (PDict [])) "id" PNone) as [lid|] eqn:El;
    simpl; [|discriminate].
  intros H. injection H as <-. simpl.
  apply get_Ok_inv in Ef. destruct Ef as [fkvs [Hf Hfid]].
  apply get_Ok_inv in El. destruct El as [lkvs [Hl Hlid]].
  exists kvs, fkvs, lkvs. repeat split; assumption.
Qed.

Lemma goal_id_of_inv (fid goal : pyval) (k : string) :
  goal_id_of fid goal = Ok k ->
  exists gkvs,
    goal = PDict gkvs
    /\ k = (py_str fid ++ "_" ++ py_str (get_or gkvs "minute" (PInt 0)) ++ "_"
            ++ py_str (get_or gkvs "player" (PStr "unknown")))%string.
Proof.
  unfold goal_id_of. destruct goal; try (simpl; discriminate).
  rewrite !get_PDict. simpl. intros H. injection H as <-.
  exists kvs. split; reflexivity.
Qed.

(** The event built from a payload all of whose parts are dicts. *)
Definition event_of (p : goal_parts) (fkvs lkvs gkvs skvs : list (string * pyval))
  : GoalEventWS :=
  {| fixture_id := gp_fixture_id p;
     league_id := gp_league_id p;
     league_name := get_or lkvs "name" (PStr "Unknown");
     home_team := get_or fkvs "home_team" (PStr "Unknown");
     away_team := get_or fkvs "away_team" (PStr "Unknown");
     team := get_or gkvs "team" (PStr "Unknown");
     player := get_or gkvs "player" (PStr "Unknown");
     minute := get_or gkvs "minute" (PInt 0);
     home_score := get_or skvs "home" (PInt 0);
     away_score := get_or skvs "away" (PInt 0);
     goal_type := get_or gkvs "type" (PStr "Normal") |}.

Lemma make_goal_event_dicts (p : goal_parts)
  (fkvs lkvs gkvs skvs : list (string * pyval)) :
  gp_fixture p = PDict fkvs -> gp_league p = PDict lkvs ->
  gp_goal p = PDict gkvs -> gp_score p = PDict skvs ->
  make_goal_event p = Ok (event_of p fkvs lkvs gkvs skvs).
Proof.
  intros Hf Hl Hg Hs. unfold make_goal_event.
  rewrite Hf, Hl, Hg, Hs, !get_PDict. reflexivity.
Qed.

Ltac not_a_dict H :=
  solve [rewrite ?get_PDict in H; simpl in H; discriminate H].

Lemma make_goal_event_inv (p : goal_parts) (ev : GoalEventWS) :
  make_goal_event p = Ok ev ->
  exists fkvs lkvs gkvs skvs,
    gp_fixture p = PDict fkvs /\ gp_league p = PDict lkvs
    /\ gp_goal p = PDict gkvs /\ gp_score p = PDict skvs
    /\ ev = event_of p fkvs lkvs gkvs skvs.
Proof.
  unfold make_goal_event. intros H.
  destruct (gp_league p) as [| | | | |?|lkvs] eqn:El; try not_a_dict H.
  destruct (gp_fixture p) as [| | | | |?|fkvs] eqn:Ef; try not_a_dict H.
  destruct (gp_goal p) as [| | | | |?|gkvs] eqn:Eg; try not_a_dict H.
  destruct (gp_score p) as [| | | | |?|skvs] eqn:Es; try not_a_dict H.
  rewrite !get_PDict in H. simpl in H. injection H as <-.
  exists fkvs, lkvs, gkvs, skvs. unfold event_of.
  repeat split; reflexivity.
Qed.

Lemma goal_key_Some (data : pyval) (k : string) :
  goal_key data = Some k ->
  exists p,
    read_goal_parts data = Ok p
    /\ in_supported_leagues (gp_league_id p) = Ok true
    /\ goal_id_of (gp_fixture_id p) (gp_goal p) = Ok k.
Proof.
  unfold goal_key. destruct (read_goal_parts data) as [p|]; [|discriminate].
  destruct (in_supported_leagues (gp_league_id p)) as [[|]|] eqn:El;
    try discriminate.
  destruct (goal_id_of (gp_fixture_id p) (gp_goal p)) eqn:Ek; [|discriminate].
  intros H. injection H as ->. exists p. repeat split; assumption.
Qed.

Lemma league_allowed_of_key (data : pyval) (k : string) :
  goal_key data = Some k -> league_allowed data = true.
Proof.
  intros H. apply goal_key_Some in H. destruct H as [p [Hp [Hl _]]].
  unfold league_allowed. now rewrite Hp, Hl.
Qed.

(** A payload for a league outside the allow-list changes nothing. *)
Lemma handle_goal_event_unsupported (self : WebSocketGoalListener) (w : W)
  (data : pyval) :
  league_allowed data = false ->
  _handle_goal_event self w data = (self, w, [], Ok tt).
Proof.
  unfold league_allowed, _handle_goal_event, handle_goal_event_body.
  destruct (read_goal_parts data) as [p|]; [|reflexivity].
  destruct (in_supported_leagues (gp_league_id p)) as [[|]|];
    [discriminate | reflexivity | reflexivity].
Qed.

(** A payload whose key is in [seen_goals] changes nothing. *)
Lemma handle_goal_event_duplicate (self : WebSocketGoalListener) (w : W)
  (data : pyval) (k : string) :
  goal_key data = Some k ->
  set_mem k (seen_goals self) = true ->
  _handle_goal_event self w data = (self, w, [], Ok tt).
Proof.
  intros Hk Hm. apply goal_key_Some in Hk. destruct Hk as [p [Hp [Hl Hid]]].
  unfold _handle_goal_event, handle_goal_event_body.
  now rewrite Hp, Hl, Hid, Hm.
Qed.

(** A payload whose key is not in [seen_goals] has its key recorded (and the
    set cleaned up); it is fanned out if the score part is a dict, and
    dropped by the handler's [except] otherwise. *)
Lemma handle_goal_event_fresh (self : WebSocketGoalListener) (w : W)
  (data : pyval) (k : string) :
  goal_key data = Some k ->
  set_mem k (seen_goals self) = false ->
  let self1 :=
    with_seen_goals self (prune_seen (set_add (seen_goals self) k)) in
  exists p,
    read_goal_parts data = Ok p
    /\ ((exists ev ds,
           make_goal_event p = Ok ev
           /\ _handle_goal_event self w data
              = (self1, called_in_order (goal_callbacks self) ev w,
                 [(ev, ds)], Ok tt)
           /\ map fst ds = map cb_name (goal_callbacks self))
        \/ ((exists e, make_goal_event p = Raise e)
            /\ _handle_goal_event self w data = (self1, w, [], Ok tt))).
Proof.
  intros Hk Hm self1. apply goal_key_Some in Hk. destruct Hk as [p [Hp [Hl Hid]]].
  exists p. split; [assumption|].
  unfold _handle_goal_event, handle_goal_event_body.
  rewrite Hp, Hl, Hid, Hm. fold self1.
  destruct (make_goal_event p) as [ev|e].
  - left.
    destruct (notify_goal_callbacks_spec (goal_callbacks self1) ev w)
      as [ds [Hn Hd]].
    exists ev, ds. rewrite Hn. simpl. repeat split; assumption.
  - right. split; [now exists e | reflexivity].
Qed.

(** ** League filter *)

Lemma key_eqb_int (a b : Z) : key_eqb (PInt a) (PInt b) = (a =? b).
Proof. unfold key_eqb. simpl. rewrite Z.eqb_compare. now destruct (a ?= b). Qed.

(** An integer league id is supported exactly when it is listed. *)
Lemma in_supported_leagues_int (z : Z) :
  in_supported_leagues (PInt z) = Ok (existsb (Z.eqb z) SUPPORTED_LEAGUES).
Proof.
  unfold in_supported_leagues. simpl hashable. cbv iota. f_equal.
  unfold SUPPORTED_LEAGUES. simpl existsb. now rewrite !key_eqb_int.
Qed.

(** C7. A goal message whose league is not in the allow-list (the league id
    is missing, is not a member of SUPPORTED_LEAGUES, or cannot be read)
    leaves the listener as it was, the dedup set and the active-fixture
    table included, and makes no fan-out: no callback is invoked. *)
Theorem unsupported_league_is_dropped :
  forall (self : WebSocketGoalListener) (w : W) (message : string)
         (data : pyval),
    json_loads message = Ok data ->
    get data "type" (PStr "") = Ok (PStr "goal") ->
    league_allowed data = false ->
    _process_message self w message = (self, w, [], Ok tt)
    /\ _handle_goal_event self w data = (self, w, [], Ok tt).
Proof.
  intros self w message data Hj Ht Hl.
  pose proof (handle_goal_event_unsupported self w data Hl) as Hh.
  split; [|assumption].
  unfold _process_message, process_message_body.
  rewrite Hj, Ht. simpl is_str. cbv iota. rewrite Hh. reflexivity.
Qed.

(** ** Message processing never raises *)

Lemma catch_and_log_ok (o : outcome) : snd (catch_and_log o) = Ok tt.
Proof.
  destruct o as [[[self w] log] r]. simpl. destruct r as [[]|e]; reflexivity.
Qed.


(** ** Reconnection delay *)

Lemma uncapped_delay_pos (n : Z) : 1 <= n -> 0 < base_reconnect_delay * 2 ^ (n - 1).
Proof.
  intros H. unfold base_reconnect_delay.
  assert (0 < 2 ^ (n - 1)) by (apply Z.pow_pos_nonneg; lia). lia.
Qed.

(** C2. For an attempt number n from 1 to the ceiling and a draw r in
    [0, 1], the listener sleeps min(base * 2^(n-1), cap) plus a jitter that
    is the draw's share of a quarter of that, r * 0.25 * min(base * 2^(n-1),
    cap): nothing for a draw of 0, the whole quarter for a draw of 1, and
    in proportion between them, so that it is uniform on [0, 0.25 *
    min(base * 2^(n-1), cap)] when the draw is uniform on [0, 1].  So the
    time slept is between base * 2^(n-1) and 1.25 times it when
    base * 2^(n-1) is at most the cap, and never more than 1.25 times the
    cap. *)
Theorem reconnect_delay_within_bounds :
  forall (self : WebSocketGoalListener) (n : Z) (r : Q),
    1 <= n <= max_reconnect_attempts ->
    (0 <= r <= 1)%Q ->
    reconnect_attempts self = n - 1 ->
    let uncapped := base_reconnect_delay * 2 ^ (n - 1) in
    let delay := Z.min uncapped max_reconnect_delay in
    exists jitter : Q,
      _handle_reconnection self r
        = (with_reconnect_attempts self n, Some (inject_Z delay + jitter)%Q)
      /\ (jitter == r * ((1 # 4) * inject_Z delay))%Q
      /\ (0 <= jitter <= (1 # 4) * inject_Z delay)%Q
      /\ (uncapped <= max_reconnect_delay ->
          (inject_Z uncapped <= inject_Z delay + jitter
           <= (5 # 4) * inject_Z uncapped)%Q)
      /\ (inject_Z delay + jitter <= (5 # 4) * inject_Z max_reconnect_delay)%Q.
Proof.
  intros self n r Hn Hr Ha uncapped delay.
  exists (inject_Z delay * uniform 0 (1 # 4) r)%Q.
  assert (Hu : 0 < uncapped) by (apply uncapped_delay_pos; lia).
  assert (Hd : 0 < delay <= max_reconnect_delay)
    by (unfold delay, max_reconnect_delay; lia).
  assert (HdQ : (0 < inject_Z delay <= inject_Z max_reconnect_delay)%Q).
  { split; [change 0%Q with (inject_Z 0); rewrite <- Zlt_Qlt
           | rewrite <- Zle_Qle]; lia. }
  assert (Hj : (0 <= inject_Z delay * uniform 0 (1 # 4) r
                <= (1 # 4) * inject_Z delay)%Q).
  { unfold uniform. split.
    - apply Qmult_le_0_compat; [lra | lra].
    - setoid_replace ((1 # 4) * inject_Z delay)%Q
        with (inject_Z delay * (1 # 4))%Q by ring.
      apply Qmult_le_l; [lra | lra]. }
  split; [|split; [|split; [exact Hj | split]]].
  - unfold _handle_reconnection. simpl reconnect_attempts.
    replace (reconnect_attempts self + 1) with n by lia.
    destruct (max_reconnect_attempts <? n) eqn:E;
      [apply Z.ltb_lt in E; lia | reflexivity].
  - unfold uniform. ring.
  - intros Hcap. replace delay with uncapped in * by (unfold delay; lia).
    lra.
  - lra.
Qed.

(** ** Exhaustion of the reconnect attempts *)

(** [start] never raises: every exception of a session is caught. *)
Lemma start_loop_status (trace : list (session * Q))
  (self : WebSocketGoalListener) (w : W) :
  exists st, run_status (start_loop self w trace) = Ok st.
Proof.
  revert self w. induction trace as [|[s r] rest IH]; intros self w; simpl.
  - eexists. reflexivity.
  - destruct (running self); [|eexists; reflexivity].
    destruct (_connect_and_listen self w s) as [[[self1 w1] log1] res].
    destruct res as [u|e].
    + simpl. apply IH.
    + destruct (running self1).
      * destruct (_handle_reconnection self1 r) as [self2 slept]. simpl. apply IH.
      * simpl. apply IH.
Qed.

(** [_run_websocket] leaves the fallback flag as it found it. *)
Lemma run_websocket_flag (self : HybridGoalListener) (w : W)
  (trace : list (session * Q)) :
  use_polling_fallback (fst (_run_websocket self w trace))
  = use_polling_fallback self.
Proof.
  unfold _run_websocket, start.
  destruct (start_loop_status trace (with_running (ws_listener self) true) w)
    as [st Hst].
  rewrite Hst. reflexivity.
Qed.

Lemma run_websocket_run (self : HybridGoalListener) (w : W)
  (trace : list (session * Q)) :
  snd (_run_websocket self w trace) = start (ws_listener self) w trace.
Proof.
  unfold _run_websocket.
  now destruct (run_status (start (ws_listener self) w trace)).
Qed.

(** While the flag is clear the health monitor never polls. *)
Lemma health_monitor_idle (cycles : list http_outcome)
  (self : HybridGoalListener) (w : W) :
  use_polling_fallback self = false ->
  _health_monitor self w cycles = (self, w, [], 0%nat).
Proof.
  intros Hf. revert w. induction cycles as [|http rest IH]; intros w; simpl.
  - reflexivity.
  - destruct (hy_running self); [|reflexivity].
    unfold health_monitor_cycle. rewrite Hf, IH. reflexivity.
Qed.

(** [k] failed connections in a row, with the ceiling not yet passed: each
    is followed by a sleep and the next attempt. *)
Lemma start_loop_failures (failures rest : list (session * Q))
  (self : WebSocketGoalListener) (w : W) :
  Forall (fun sr => exists e, fst sr = ConnectFails e) failures ->
  running self = true ->
  reconnect_attempts self + Z.of_nat (List.length failures)
    <= max_reconnect_attempts ->
  exists self' sleeps,
    start_loop self w (failures ++ rest)
      = run_after [] sleeps (start_loop self' w rest)
    /\ List.length sleeps = List.length failures
    /\ running self' = true
    /\ reconnect_attempts self'
       = reconnect_attempts self + Z.of_nat (List.length failures).
Proof.
  intros Hf. revert self. induction Hf as [|[s r] failures [e He] Hf IH];
    intros self Hrun Hle.
  - exists self, []. simpl. repeat split; try assumption; try lia.
    unfold run_after. now destruct (start_loop self w rest).
  - simpl in He. subst s.
    change (List.length ((ConnectFails e, r) :: failures))
      with (S (List.length failures)) in *.
    rewrite Nat2Z.inj_succ in *.
    simpl app. simpl start_loop. rewrite Hrun. cbv beta iota.
    unfold _handle_reconnection. simpl reconnect_attempts.
    destruct (max_reconnect_attempts <? reconnect_attempts self + 1) eqn:E;
      [apply Z.ltb_lt in E; lia|].
    destruct (IH (with_reconnect_attempts self (reconnect_attempts self + 1)))
      as [self' [sleeps [Hs [Hlen [Hrun' Hatt]]]]].
    + simpl. assumption.
    + simpl. lia.
    + exists self', (reconnect_delay (reconnect_attempts self + 1) r :: sleeps).
      rewrite Hs. simpl in Hatt. simpl List.length.
      split; [unfold run_after; simpl; reflexivity|].
      split; [lia|]. split; [assumption | lia].
Qed.

(** C1. Eleven failed connections in a row take the attempt counter past
    the ceiling: [start] then returns normally with [running] cleared, after
    ten sleeps, whatever the network would do next.  Because [start] returned
    and did not raise, [_run_websocket] leaves [use_polling_fallback] clear,
    and the health monitor makes no poll in any later cycle. *)
Theorem exhaustion_leaves_fallback_off :
  forall (self : HybridGoalListener) (w : W)
         (failures rest : list (session * Q)),
    Forall (fun sr => exists e, fst sr = ConnectFails e) failures ->
    List.length failures = 11%nat ->
    reconnect_attempts (ws_listener self) = 0 ->
    use_polling_fallback self = false ->
    let self1 := fst (_run_websocket self w (failures ++ rest)) in
    let rn := snd (_run_websocket self w (failures ++ rest)) in
    run_status rn = Ok Returned
    /\ running (run_listener rn) = false
    /\ reconnect_attempts (run_listener rn) = 11
    /\ List.length (run_sleeps rn) = 10%nat
    /\ use_polling_fallback self1 = false
    /\ forall w' cycles, _health_monitor self1 w' cycles = (self1, w', [], 0%nat).
Proof.
  intros self w failures rest Hf Hlen Hatt Hflag self1 rn.
  assert (Hflag1 : use_polling_fallback self1 = false)
    by (unfold self1; now rewrite run_websocket_flag).
  assert (Hsplit : exists first last, failures = first ++ [last]
                                      /\ List.length first = 10%nat).
  { destruct (exists_last (l := failures)) as [first [last Hl]];
      [intros ->; discriminate|].
    exists first, last. split; [assumption|].
    rewrite Hl, length_app in Hlen. simpl in Hlen. lia. }
  destruct Hsplit as [first [[s r] [-> Hfirst]]].
  apply Forall_app in Hf. destruct Hf as [Hf1 Hf2].
  inversion Hf2 as [|? ? [e He] _]; subst. simpl in He. subst s.
  destruct (start_loop_failures first ([(ConnectFails e, r)] ++ rest)
              (with_running (ws_listener self) true) w Hf1 eq_refl)
    as [self' [sleeps [Hs [Hsl [Hrun' Hatt']]]]].
  { simpl. rewrite Hatt, Hfirst. unfold max_reconnect_attempts. lia. }
  simpl reconnect_attempts in Hatt'. rewrite Hatt, Hfirst in Hatt'.
  assert (Hrn : rn = run_after [] sleeps
                  (start_loop self' w ([(ConnectFails e, r)] ++ rest))).
  { unfold rn. rewrite run_websocket_run. unfold start.
    now rewrite <- app_assoc, Hs. }
  assert (Hlast : start_loop self' w ([(ConnectFails e, r)] ++ rest)
                  = {| run_listener :=
                         with_running (with_reconnect_attempts self' 11) false;
                       run_world := w; run_log := []; run_sleeps := [];
                       run_status := Ok Returned |}).
  { simpl app. simpl start_loop. rewrite Hrun'. cbv beta iota.
    unfold _handle_reconnection. simpl reconnect_attempts. rewrite Hatt'.
    simpl. destruct rest as [|[s' r'] rest']; reflexivity. }
  rewrite Hrn, Hlast. simpl.
  repeat split; try reflexivity; try assumption.
  - rewrite app_nil_r. lia.
  - intros w' cycles. now apply health_monitor_idle.
Qed.

(** ** De-duplication *)

(** What one call of [_handle_goal_event] does to the listener: nothing, or
    one new key followed by the clean-up. *)
Lemma handle_goal_event_listener (self : WebSocketGoalListener) (w : W)
  (data : pyval) :
  exists self1 w1 log,
    _handle_goal_event self w data = (self1, w1, log, Ok tt)
    /\ (self1 = self
        \/ exists k,
             ~ In k (set_to_list (seen_goals self))
             /\ self1 = with_seen_goals self
                          (prune_seen (set_add (seen_goals self) k))).
Proof.
  destruct (goal_key data) as [k|] eqn:Ek.
  - destruct (set_mem k (seen_goals self)) eqn:Em.
    + exists self, w, []. split; [|now left].
      now apply handle_goal_event_duplicate with (k := k).
    + destruct (handle_goal_event_fresh self w data k Ek Em) as [p [_ Hc]].
      apply set_mem_false in Em.
      destruct Hc as [[ev [ds [_ [Hh _]]]] | [_ Hh]]; rewrite Hh;
        eexists _, _, _; (split; [reflexivity|]); right; exists k;
        (split; [assumption | reflexivity]).
  - exists self, w, []. split; [|now left].
    unfold goal_key in Ek. unfold _handle_goal_event, handle_goal_event_body.
    destruct (read_goal_parts data) as [p|]; [|reflexivity].
    destruct (in_supported_leagues (gp_league_id p)) as [[|]|];
      try reflexivity.
    destruct (goal_id_of (gp_fixture_id p) (gp_goal p)); [discriminate|].
    reflexivity.
Qed.

(** Below the high-water mark a call loses no key and adds at most one. *)
Lemma handle_goal_event_retains (self : WebSocketGoalListener) (w : W)
  (data : pyval) :
  set_len (seen_goals self) < 1000 ->
  let self1 := fst (fst (fst (_handle_goal_event self w data))) in
  (forall x, In x (set_to_list (seen_goals self)) ->
             In x (set_to_list (seen_goals self1)))
  /\ set_len (seen_goals self1) <= set_len (seen_goals self) + 1.
Proof.
  intros Hlen.
  destruct (handle_goal_event_listener self w data)
    as [self1 [w1 [log [Hh Hc]]]].
  rewrite Hh. simpl.
  destruct Hc as [-> | [k [Hk ->]]]; [split; [trivial | lia]|].
  simpl. pose proof (set_len_add (seen_goals self) k Hk) as Hadd.
  rewrite prune_seen_small by lia.
  split; [|lia]. intros x Hx. apply set_add_spec. now right.
Qed.

Lemma handle_goal_events_retains (datas : list pyval)
  (self : WebSocketGoalListener) (w : W) :
  set_len (seen_goals self) + Z.of_nat (List.length datas) <= 1000 ->
  let self2 := fst (fst (handle_goal_events self w datas)) in
  forall x, In x (set_to_list (seen_goals self)) ->
            In x (set_to_list (seen_goals self2)).
Proof.
  revert self w. induction datas as [|data rest IH]; intros self w Hlen; simpl.
  - trivial.
  - change (List.length (data :: rest)) with (S (List.length rest)) in Hlen.
    rewrite Nat2Z.inj_succ in Hlen.
    destruct (handle_goal_event_retains self w data ltac:(lia)) as [Hin Hle].
    destruct (_handle_goal_event self w data) as [[[self1 w1] log] r].
    simpl in Hin, Hle.
    specialize (IH self1 w1 ltac:(lia)).
    destruct (handle_goal_events self1 w1 rest) as [[self2 w2] logs].
    simpl in *. intros x Hx. apply IH, Hin, Hx.
Qed.

(** Two payloads with the same key, the first fresh, with too few payloads
    around them for a clean-up to happen: the first is fanned out and
    recorded, the second changes nothing. *)
Lemma retained_key_rejected (self : WebSocketGoalListener) (w : W)
  (d1 d2 : pyval) (ds : list pyval) (k : string) :
  goal_key d1 = Some k ->
  goal_key d2 = Some k ->
  set_len (seen_goals self) + 1 + Z.of_nat (List.length ds) <= 1000 ->
  exists self1 w1 log1 self2 w2 logs,
    _handle_goal_event self w d1 = (self1, w1, log1, Ok tt)
    /\ set_mem k (seen_goals self1) = true
    /\ handle_goal_events self1 w1 ds = (self2, w2, logs)
    /\ _handle_goal_event self2 w2 d2 = (self2, w2, [], Ok tt).
Proof.
  intros Hk1 Hk2 Hlen.
  assert (H0 : 0 <= Z.of_nat (List.length ds)) by lia.
  destruct (handle_goal_event_retains self w d1 ltac:(lia)) as [Hin Hle].
  assert (Hrec : set_mem k
           (seen_goals (fst (fst (fst (_handle_goal_event self w d1))))) = true).
  { destruct (set_mem k (seen_goals self)) eqn:Em.
    - apply set_mem_In. apply Hin. now apply set_mem_In.
    - destruct (handle_goal_event_fresh self w d1 k Hk1 Em) as [p [_ Hc]].
      pose proof Em as Hnot. apply set_mem_false in Hnot.
      pose proof (set_len_add (seen_goals self) k Hnot) as Hadd.
      assert (Hseen : seen_goals (fst (fst (fst (_handle_goal_event self w d1))))
                      = set_add (seen_goals self) k).
      { destruct Hc as [[ev [dl [_ [Hh _]]]] | [_ Hh]]; rewrite Hh; simpl;
          apply prune_seen_small; lia. }
      rewrite Hseen. apply set_mem_In, set_add_spec. now left. }
  destruct (handle_goal_event_listener self w d1) as [self1 [w1 [log1 [Hh _]]]].
  rewrite Hh in Hin, Hle, Hrec. simpl in Hin, Hle, Hrec.
  pose proof (handle_goal_events_retains ds self1 w1 ltac:(lia)) as Hkeep.
  destruct (handle_goal_events self1 w1 ds) as [[self2 w2] logs] eqn:Hds.
  simpl in Hkeep.
  exists self1, w1, log1, self2, w2, logs.
  repeat split; try assumption.
  apply handle_goal_event_duplicate with (k := k); [assumption|].
  apply set_mem_In, Hkeep. now apply set_mem_In.
Qed.


(** C10, as the code has it.  Two goal payloads for supported leagues with
    the same fixture id, the same minute field and the same player field
    (both absent, or both the same name) get the same dedup key, whatever
    else they say.  With no clean-up between them (at most 1000 keys
    retained once the first and the payloads in between are in), the second
    is dropped as a duplicate: no callback is invoked and the listener is
    left as it was. *)
Theorem same_fixture_minute_player_suppressed :
  forall (self : WebSocketGoalListener) (w : W) (d1 d2 : pyval)
         (ds : list pyval) (p1 p2 : goal_parts)
         (gkvs1 gkvs2 : list (string * pyval)),
    read_goal_parts d1 = Ok p1 ->
    read_goal_parts d2 = Ok p2 ->
    in_supported_leagues (gp_league_id p1) = Ok true ->
    in_supported_leagues (gp_league_id p2) = Ok true ->
    gp_fixture_id p1 = gp_fixture_id p2 ->
    gp_goal p1 = PDict gkvs1 ->
    gp_goal p2 = PDict gkvs2 ->
    assoc "minute" gkvs1 = assoc "minute" gkvs2 ->
    assoc "player" gkvs1 = assoc "player" gkvs2 ->
    set_len (seen_goals self) + 1 + Z.of_nat (List.length ds) <= 1000 ->
    goal_key d1 = goal_key d2
    /\ exists self1 w1 log1 self2 w2 logs,
         _handle_goal_event self w d1 = (self1, w1, log1, Ok tt)
         /\ handle_goal_events self1 w1 ds = (self2, w2, logs)
         /\ _handle_goal_event self2 w2 d2 = (self2, w2, [], Ok tt).
Proof.
  intros self w d1 d2 ds p1 p2 gkvs1 gkvs2 Hp1 Hp2 Hl1 Hl2 Hfid Hg1 Hg2
    Hmin Hpl Hlen.
  assert (Hk1 : goal_key d1
                = Some (py_str (gp_fixture_id p1) ++ "_"
                        ++ py_str (get_or gkvs1 "minute" (PInt 0)) ++ "_"
                        ++ py_str (get_or gkvs1 "player" (PStr "unknown")))%string).
  { unfold goal_key, goal_id_of. rewrite Hp1, Hl1, Hg1, !get_PDict. reflexivity. }
  assert (Hk2 : goal_key d2 = goal_key d1).
  { rewrite Hk1. unfold goal_key, goal_id_of.
    rewrite Hp2, Hl2, Hg2, !get_PDict, Hfid. unfold get_or.
    now rewrite Hmin, Hpl. }
  split; [now rewrite Hk2|].
  rewrite Hk1 in Hk2.
  destruct (retained_key_rejected self w d1 d2 ds _ Hk1 Hk2 Hlen)
    as [self1 [w1 [log1 [self2 [w2 [logs [H1 [_ [H2 H3]]]]]]]]].
  exists self1, w1, log1, self2, w2, logs. repeat split; assumption.
Qed.

(** The size bound of the clean-up holds for every set implementation:
    when the set has grown past 1000 keys the clean-up leaves exactly 500,
    all of them keys it held. *)
Lemma prune_seen_bound (s : pyset) :
  1000 < set_len s ->
  set_len (prune_seen s) <= 1000 / 2 + 1
  /\ forall x, In x (set_to_list (prune_seen s)) -> In x (set_to_list s).
Proof.
  intros H. rewrite (prune_seen_len s H).
  split; [now vm_compute | apply prune_seen_incl].
Qed.

(** ** What a delivered event carries *)

Lemma bind_Ok_inv {A B : Type} (m : result A) (k : A -> result B) (b : B) :
  bind m k = Ok b -> exists a, m = Ok a /\ k a = Ok b.
Proof. destruct m as [a|e]; simpl; [eauto | discriminate]. Qed.

Ltac bind_inv H :=
  repeat (apply bind_Ok_inv in H;
          let a := fresh "a" in
          let Ha := fresh "Ha" in
          destruct H as [a [Ha H]]).

Lemma handle_goal_event_no_key (self : WebSocketGoalListener) (w : W)
  (data : pyval) :
  goal_key data = None ->
  _handle_goal_event self w data = (self, w, [], Ok tt).
Proof.
  unfold goal_key, _handle_goal_event, handle_goal_event_body.
  destruct (read_goal_parts data) as [p|]; [|reflexivity].
  destruct (in_supported_leagues (gp_league_id p)) as [[|]|]; try reflexivity.
  destruct (goal_id_of (gp_fixture_id p) (gp_goal p)); [discriminate|].
  reflexivity.
Qed.

(** The events of the stream path are built by [make_goal_event]. *)
Lemma handle_goal_event_log (self : WebSocketGoalListener) (w : W)
  (data : pyval) (ev : GoalEventWS) (ds : list delivery) :
  In (ev, ds) (snd (fst (_handle_goal_event self w data))) ->
  exists p, read_goal_parts data = Ok p /\ make_goal_event p = Ok ev.
Proof.
  destruct (goal_key data) as [k|] eqn:Ek.
  - destruct (set_mem k (seen_goals self)) eqn:Em.
    + rewrite (handle_goal_event_duplicate self w data k Ek Em).
      simpl. contradiction.
    + destruct (handle_goal_event_fresh self w data k Ek Em) as [p [Hp Hc]].
      destruct Hc as [[ev' [ds' [Hmk [Hh _]]]] | [_ Hh]]; rewrite Hh; simpl;
        [|contradiction].
      intros [Heq|[]]. injection Heq as <- <-. now exists p.
  - rewrite (handle_goal_event_no_key self w data Ek). simpl. contradiction.
Qed.

(** The events of the polling path are built by [_emit_polling_goal]. *)
Lemma emit_polling_goal_log (self : HybridGoalListener) (w : W)
  (fixture : pyval) (side : string) (ev : GoalEventWS) (ds : list delivery) :
  In (ev, ds) (snd (fst (_emit_polling_goal self w fixture side))) ->
  exists fx status goals goals_home goals_away,
    getitem fixture "fixture" = Ok fx
    /\ getitem fx "status" = Ok status
    /\ get status "elapsed" (PInt 0) = Ok (minute ev)
    /\ getitem fixture "goals" = Ok goals
    /\ getitem goals "home" = Ok goals_home
    /\ getitem goals "away" = Ok goals_away
    /\ home_score ev = or_else goals_home (PInt 0)
    /\ away_score ev = or_else goals_away (PInt 0)
    /\ player ev = PStr "Unknown (from polling)".
Proof.
  unfold _emit_polling_goal.
  match goal with |- context [match ?m with Ok _ => _ | Raise _ => _ end] =>
    destruct m as [ev'|e] eqn:E end; [|simpl; contradiction].
  destruct (_notify_goal_callbacks (hy_goal_callbacks self) ev' w)
    as [[w1 ds1] r1].
  simpl. intros [Heq|[]]. injection Heq as <- <-.
  bind_inv E. injection E as <-. simpl.
  do 5 eexists. repeat split; eassumption.
Qed.

Lemma detect_goal_log (self : HybridGoalListener) (w : W) (fixture : pyval)
  (side : string) (current prev : pyval) (d : dispatch) :
  In d (snd (fst (detect_goal self w fixture side current prev))) ->
  In d (snd (fst (_emit_polling_goal self w fixture side))).
Proof.
  unfold detect_goal. destruct (py_gt current prev) as [[|]|e]; simpl;
    [trivial | contradiction | contradiction].
Qed.

Lemma poll_fixture_log (self : HybridGoalListener) (w : W) (fixture : pyval)
  (d : dispatch) :
  In d (snd (fst (poll_fixture self w fixture))) ->
  exists w' side, In d (snd (fst (_emit_polling_goal self w' fixture side))).
Proof.
  unfold poll_fixture.
  match goal with |- context [match ?m with Ok _ => _ | Raise _ => _ end] =>
    destruct m as [[fid [|]]|e] end; try (simpl; contradiction).
  match goal with |- context [match ?m with Ok _ => _ | Raise _ => _ end] =>
    destruct m as [[hs aws]|e] end; try (simpl; contradiction).
  destruct (dict_get (previous_scores self) fid) as [[ph pa]|];
    [|simpl; contradiction].
  destruct (detect_goal self w fixture "home" hs ph) as [[w1 log1] r1] eqn:E1.
  assert (H1 : forall d, In d log1 ->
                 In d (snd (fst (_emit_polling_goal self w fixture "home")))).
  { intros d' Hd. apply detect_goal_log with (current := hs) (prev := ph).
    rewrite E1. exact Hd. }
  destruct r1 as [u|e]; [|simpl; intros Hd; eauto].
  destruct (detect_goal self w1 fixture "away" aws pa) as [[w2 log2] r2] eqn:E2.
  assert (H2 : forall d, In d log2 ->
                 In d (snd (fst (_emit_polling_goal self w1 fixture "away")))).
  { intros d' Hd. apply detect_goal_log with (current := aws) (prev := pa).
    rewrite E2. exact Hd. }
  destruct r2 as [u'|e]; simpl; intros Hd; apply in_app_or in Hd;
    destruct Hd; eauto.
Qed.

(** C9, as the code has it.  The listener validates neither minute nor
    scores: an event of the stream path carries the minute of the payload's
    goal part and the home and away values of its score part (0 where the
    field is absent), and an event of the polling path carries the
    fixture's elapsed field (0 when absent) and its goals (0 for null or
    zero).  So the minute and the scores of a delivered event are in range
    exactly when the provider's are. *)
Theorem delivered_event_copies_payload :
  forall (ev : GoalEventWS) (ds : list delivery) (w : W),
    (forall (self : WebSocketGoalListener) (data : pyval),
        In (ev, ds) (snd (fst (_handle_goal_event self w data))) ->
        exists dkvs gkvs skvs,
          data = PDict dkvs
          /\ get_or dkvs "goal" (PDict []) = PDict gkvs
          /\ get_or dkvs "score" (PDict []) = PDict skvs
          /\ minute ev = get_or gkvs "minute" (PInt 0)
          /\ home_score ev = get_or skvs "home" (PInt 0)
          /\ away_score ev = get_or skvs "away" (PInt 0))
    /\ (forall (self : HybridGoalListener) (fixture : pyval),
          In (ev, ds) (snd (fst (poll_fixture self w fixture))) ->
          exists fx status goals goals_home goals_away,
            getitem fixture "fixture" = Ok fx
            /\ getitem fx "status" = Ok status
            /\ get status "elapsed" (PInt 0) = Ok (minute ev)
            /\ getitem fixture "goals" = Ok goals
            /\ getitem goals "home" = Ok goals_home
            /\ getitem goals "away" = Ok goals_away
            /\ home_score ev = or_else goals_home (PInt 0)
            /\ away_score ev = or_else goals_away (PInt 0)).
Proof.
  intros ev ds w. split.
  - intros self data Hin.
    destruct (handle_goal_event_log self w data ev ds Hin) as [p [Hp Hmk]].
    destruct (read_goal_parts_inv data p Hp)
      as [dkvs [fkvs [lkvs [Hd [_ [_ [_ [_ [Hg [Hs _]]]]]]]]]].
    destruct (make_goal_event_inv p ev Hmk)
      as [fkvs' [lkvs' [gkvs [skvs [_ [_ [Hg' [Hs' Hev]]]]]]]].
    exists dkvs, gkvs, skvs. subst ev. simpl.
    repeat split; congruence.
  - intros self fixture Hin.
    destruct (poll_fixture_log self w fixture (ev, ds) Hin) as [w' [side Hem]].
    destruct (emit_polling_goal_log self w' fixture side ev ds Hem)
      as [fx [status [goals [gh [ga H]]]]].
    exists fx, status, goals, gh, ga. decompose [and] H.
    repeat split; assumption.
Qed.

(** ** The polling cycle on a well-formed snapshot *)

(** A live fixture as the provider documents it: integer ids, goals that
    are a number or null, a status object. *)
Record live_fixture : Type := {
  lf_id : Z;
  lf_league_id : Z;
  lf_league_name : pyval;
  lf_home_name : pyval;
  lf_away_name : pyval;
  lf_goals_home : option Z;
  lf_goals_away : option Z;
  lf_status : list (string * pyval)
}.

Definition goals_value (o : option Z) : pyval :=
  match o with
  | Some z => PInt z
  | None => PNone
  end.

Definition score (o : option Z) : Z :=
  match o with
  | Some z => z
  | None => 0
  end.

(** The payload [v] is the fixture [f] (it may hold more than [f] records). *)
Definition describes (v : pyval) (f : live_fixture) : Prop :=
  exists fx league teams goals home away,
    getitem v "fixture" = Ok fx
    /\ getitem fx "id" = Ok (PInt (lf_id f))
    /\ getitem fx "status" = Ok (PDict (lf_status f))
    /\ getitem v "league" = Ok league
    /\ getitem league "id" = Ok (PInt (lf_league_id f))
    /\ getitem league "name" = Ok (lf_league_name f)
    /\ getitem v "teams" = Ok teams
    /\ getitem teams "home" = Ok home
    /\ getitem home "name" = Ok (lf_home_name f)
    /\ getitem teams "away" = Ok away
    /\ getitem away "name" = Ok (lf_away_name f)
    /\ getitem v "goals" = Ok goals
    /\ getitem goals "home" = Ok (goals_value (lf_goals_home f))
    /\ getitem goals "away" = Ok (goals_value (lf_goals_away f)).

(** The event the polling path synthesises for [f], scored by [scorer]. *)
Definition polling_event (f : live_fixture) (scorer : pyval) : GoalEventWS :=
  {| fixture_id := PInt (lf_id f);
     league_id := PInt (lf_league_id f);
     league_name := lf_league_name f;
     home_team := lf_home_name f;
     away_team := lf_away_name f;
     team := scorer;
     player := PStr "Unknown (from polling)";
     minute := get_or (lf_status f) "elapsed" (PInt 0);
     home_score := PInt (score (lf_goals_home f));
     away_score := PInt (score (lf_goals_away f));
     goal_type := PStr "Normal" |}.

(** A snapshot table whose keys and scores are integers. *)
Definition int_scores (table : dict (pyval * pyval)) : Prop :=
  Forall (fun kv => exists i h a, kv = (PInt i, (PInt h, PInt a))) table.

(** The events due for [f] against the stored snapshot, and the table
    after [f]. *)
Definition expected_events (f : live_fixture) (table : dict (pyval * pyval))
  : list GoalEventWS :=
  if existsb (Z.eqb (lf_league_id f)) SUPPORTED_LEAGUES then
    match dict_get table (PInt (lf_id f)) with
    | Some (PInt prev_home, PInt prev_away) =>
        (if prev_home <? score (lf_goals_home f)
         then [polling_event f (lf_home_name f)] else [])
        ++ (if prev_away <? score (lf_goals_away f)
            then [polling_event f (lf_away_name f)] else [])
    | _ => []
    end
  else [].

Definition expected_table (f : live_fixture) (table : dict (pyval * pyval))
  : dict (pyval * pyval) :=
  if existsb (Z.eqb (lf_league_id f)) SUPPORTED_LEAGUES
  then dict_set table (PInt (lf_id f))
         (PInt (score (lf_goals_home f)), PInt (score (lf_goals_away f)))
  else table.

Fixpoint expected_run (fs : list live_fixture) (table : dict (pyval * pyval))
  : list GoalEventWS :=
  match fs with
  | [] => []
  | f :: rest => expected_events f table ++ expected_run rest (expected_table f table)
  end.

Definition about (i : Z) (ev : GoalEventWS) : bool :=
  key_eqb (fixture_id ev) (PInt i).

Lemma or_else_goals (o : option Z) :
  or_else (goals_value o) (PInt 0) = PInt (score o).
Proof.
  destruct o as [z|]; [|reflexivity]. unfold or_else. simpl.
  destruct (Z.eqb_spec z 0); simpl; congruence.
Qed.

Lemma py_gt_int (a b : Z) : py_gt (PInt a) (PInt b) = Ok (b <? a).
Proof.
  unfold py_gt. simpl. f_equal.
  destruct (Z.compare_spec a b); destruct (Z.ltb_spec b a); (reflexivity || lia).
Qed.

Lemma dict_get_set_same {V : Type} (d : dict V) (i : Z) (v : V) :
  dict_get (dict_set d (PInt i) v) (PInt i) = Some v.
Proof.
  induction d as [|[k' v'] rest IH]; simpl.
  - now rewrite key_eqb_int, Z.eqb_refl.
  - destruct (key_eqb k' (PInt i)) eqn:E; simpl; rewrite E; [reflexivity | exact IH].
Qed.

Lemma dict_get_set_other (d : dict (pyval * pyval)) (i j : Z) (v : pyval * pyval) :
  int_scores d -> i <> j ->
  dict_get (dict_set d (PInt i) v) (PInt j) = dict_get d (PInt j).
Proof.
  intros Hd Hij. induction Hd as [|kv rest [z [h [a ->]]] _ IH]; simpl.
  - rewrite key_eqb_int. destruct (Z.eqb_spec i j); [contradiction | reflexivity].
  - rewrite !key_eqb_int. destruct (Z.eqb_spec z i) as [->|Hzi]; simpl;
      rewrite !key_eqb_int.
    + destruct (Z.eqb_spec i j); [contradiction | reflexivity].
    + destruct (z =? j); [reflexivity | exact IH].
Qed.

Lemma dict_set_int_scores (d : dict (pyval * pyval)) (i h a : Z) :
  int_scores d -> int_scores (dict_set d (PInt i) (PInt h, PInt a)).
Proof.
  intros Hd. induction Hd as [|kv rest [z [h' [a' ->]]] Hrest IH]; simpl.
  - constructor; [now exists i, h, a | constructor].
  - rewrite key_eqb_int. destruct (z =? i).
    + constructor; [now exists z, h, a | assumption].
    + constructor; [now exists z, h', a' | assumption].
Qed.

Lemma dict_get_int_scores (d : dict (pyval * pyval)) (k : pyval)
  (ph pa : pyval) :
  int_scores d -> dict_get d k = Some (ph, pa) ->
  exists h a, ph = PInt h /\ pa = PInt a.
Proof.
  intros Hd. induction Hd as [|kv rest [z [h [a ->]]] _ IH]; simpl;
    [discriminate|].
  destruct (key_eqb (PInt z) k); [|exact IH].
  intros H. injection H as <- <-. now exists h, a.
Qed.

Lemma expected_table_int_scores (f : live_fixture) (table : dict (pyval * pyval)) :
  int_scores table -> int_scores (expected_table f table).
Proof.
  intros H. unfold expected_table.
  destruct (existsb (Z.eqb (lf_league_id f)) SUPPORTED_LEAGUES);
    [now apply dict_set_int_scores | assumption].
Qed.

Lemma expected_table_other (f : live_fixture) (table : dict (pyval * pyval))
  (i : Z) :
  int_scores table -> lf_id f <> i ->
  dict_get (expected_table f table) (PInt i) = dict_get table (PInt i).
Proof.
  intros Ht Hi. unfold expected_table.
  destruct (existsb (Z.eqb (lf_league_id f)) SUPPORTED_LEAGUES);
    [now apply dict_get_set_other | reflexivity].
Qed.

(** Every event due for [f] names [f]. *)
Lemma expected_events_about (f : live_fixture) (table : dict (pyval * pyval))
  (i : Z) :
  filter (about i) (expected_events f table)
  = if lf_id f =? i then expected_events f table else [].
Proof.
  assert (H : forall l, Forall (fun ev => fixture_id ev = PInt (lf_id f)) l ->
              filter (about i) l = if lf_id f =? i then l else []).
  { induction 1 as [|ev l Hev _ IH]; simpl.
    - now destruct (lf_id f =? i).
    - unfold about at 1. rewrite Hev, key_eqb_int, IH.
      now destruct (lf_id f =? i). }
  apply H. unfold expected_events.
  destruct (existsb (Z.eqb (lf_league_id f)) SUPPORTED_LEAGUES); [|constructor].
  destruct (dict_get table (PInt (lf_id f))) as [[[] []]|]; try constructor.
  apply Forall_app. split;
    match goal with |- context [if ?b then _ else _] => destruct b end;
    repeat constructor.
Qed.

Ltac rewrite_getitems :=
  progress repeat match goal with
    | H : getitem ?a ?b = Ok _ |- context [getitem ?a ?b] => rewrite H
    end.

Ltac run_getitems := repeat (cbn [bind]; rewrite_getitems); cbn [bind].

Lemma emit_polling_goal_describes (self : HybridGoalListener) (w : W)
  (v : pyval) (f : live_fixture) (side : string) (scorer : pyval) :
  describes v f ->
  (side = "home" /\ scorer = lf_home_name f)
  \/ (side = "away" /\ scorer = lf_away_name f) ->
  exists ds,
    _emit_polling_goal self w v side
      = (called_in_order (hy_goal_callbacks self) (polling_event f scorer) w,
         [(polling_event f scorer, ds)], Ok tt)
    /\ map fst ds = map cb_name (hy_goal_callbacks self).
Proof.
  intros [fx [league [teams [goals [home [away H]]]]]] Hside.
  decompose [and] H. clear H.
  destruct (notify_goal_callbacks_spec (hy_goal_callbacks self)
              (polling_event f scorer) w) as [ds [Hn Hd]].
  exists ds. split; [|exact Hd].
  unfold _emit_polling_goal, polling_goal_event.
  destruct Hside as [[-> ->]|[-> ->]]; run_getitems;
    rewrite get_PDict; cbn [bind]; rewrite !or_else_goals;
    fold (polling_event f (lf_home_name f));
    fold (polling_event f (lf_away_name f)); rewrite Hn; reflexivity.
Qed.

(** One pass of the loop on a well-formed fixture. *)
Lemma poll_fixture_describes (self : HybridGoalListener) (w : W) (v : pyval)
  (f : live_fixture) :
  describes v f ->
  int_scores (previous_scores self) ->
  exists self' w' log,
    poll_fixture self w v = (self', w', log, Ok tt)
    /\ previous_scores self' = expected_table f (previous_scores self)
    /\ hy_goal_callbacks self' = hy_goal_callbacks self
    /\ map fst log = expected_events f (previous_scores self)
    /\ Forall (fun d => map fst (snd d) = map cb_name (hy_goal_callbacks self))
         log.
Proof.
  intros Hv Hint. pose proof Hv as Hv'.
  destruct Hv' as [fx [league [teams [goals [home [away H]]]]]].
  decompose [and] H. clear H.
  unfold poll_fixture, expected_table, expected_events.
  run_getitems. rewrite in_supported_leagues_int. cbn [bind].
  destruct (existsb (Z.eqb (lf_league_id f)) SUPPORTED_LEAGUES).
  2:{ exists self, w, []. repeat split; constructor. }
  run_getitems. cbn [hashable]. rewrite !or_else_goals.
  destruct (dict_get (previous_scores self) (PInt (lf_id f)))
    as [[ph pa]|] eqn:Eprev.
  2:{ eexists _, w, []. split; [reflexivity|]. repeat split; constructor. }
  destruct (dict_get_int_scores _ _ _ _ Hint Eprev) as [h [a [-> ->]]].
  unfold detect_goal. rewrite !py_gt_int.
  destruct (emit_polling_goal_describes self w v f "home" (lf_home_name f) Hv)
    as [dsh [Hh Hdh]]; [now left|].
  destruct (h <? score (lf_goals_home f)).
  - rewrite Hh.
    set (w1 := called_in_order (hy_goal_callbacks self)
                 (polling_event f (lf_home_name f)) w).
    destruct (emit_polling_goal_describes self w1 v f "away" (lf_away_name f) Hv)
      as [dsa [Ha Hda]]; [now right|].
    destruct (a <? score (lf_goals_away f)).
    + rewrite Ha. eexists _, _, _. split; [reflexivity|].
      repeat split. repeat constructor; assumption.
    + eexists _, _, _. split; [reflexivity|].
      repeat split. repeat constructor; assumption.
  - destruct (emit_polling_goal_describes self w v f "away" (lf_away_name f) Hv)
      as [dsa [Ha Hda]]; [now right|].
    destruct (a <? score (lf_goals_away f)).
    + rewrite Ha. eexists _, _, _. split; [reflexivity|].
      repeat split. repeat constructor; assumption.
    + eexists _, _, _. split; [reflexivity|].
      repeat split. constructor.
Qed.

(** The whole loop on a well-formed snapshot. *)
Lemma poll_loop_describes (vs : list pyval) (fs : list live_fixture) :
  Forall2 describes vs fs ->
  forall (self : HybridGoalListener) (w : W),
    int_scores (previous_scores self) ->
    exists self' w' log,
      poll_loop self w vs = (self', w', log, Ok tt)
      /\ previous_scores self'
         = fold_left (fun t f => expected_table f t) fs (previous_scores self)
      /\ map fst log = expected_run fs (previous_scores self)
      /\ Forall (fun d => map fst (snd d) = map cb_name (hy_goal_callbacks self))
           log.
Proof.
  induction 1 as [|v f vs fs Hv _ IH]; intros self w Hint.
  - exists self, w, []. simpl. repeat split; constructor.
  - destruct (poll_fixture_describes self w v f Hv Hint)
      as [self1 [w1 [log1 [Hp [Ht [Hc [Hl Hd]]]]]]].
    destruct (IH self1 w1) as [self2 [w2 [log2 [Hp2 [Ht2 [Hl2 Hd2]]]]]].
    { rewrite Ht. now apply expected_table_int_scores. }
    exists self2, w2, (log1 ++ log2). simpl. rewrite Hp, Hp2.
    split; [reflexivity|]. split; [now rewrite Ht2, Ht|].
    split; [rewrite map_app, <- Ht; f_equal; [exact Hl | exact Hl2]|].
    apply Forall_app. split; [assumption|]. now rewrite <- Hc.
Qed.

Lemma expected_run_others (fs : list live_fixture) (i : Z) :
  ~ In i (map lf_id fs) ->
  forall table,
    int_scores table ->
    filter (about i) (expected_run fs table) = []
    /\ dict_get (fold_left (fun t f => expected_table f t) fs table) (PInt i)
       = dict_get table (PInt i).
Proof.
  induction fs as [|f rest IH]; intros Hi table Ht; simpl.
  - split; reflexivity.
  - simpl in Hi.
    assert (Hf : lf_id f <> i) by tauto.
    assert (Hrest : ~ In i (map lf_id rest)) by tauto.
    destruct (IH Hrest (expected_table f table)
                (expected_table_int_scores f table Ht)) as [He Hg].
    rewrite filter_app, expected_events_about, He, Hg.
    destruct (Z.eqb_spec (lf_id f) i); [contradiction|].
    split; [reflexivity | now apply expected_table_other].
Qed.

Lemma fold_expected_int_scores (fs : list live_fixture) :
  forall table,
    int_scores table ->
    int_scores (fold_left (fun t f => expected_table f t) fs table).
Proof.
  induction fs as [|f rest IH]; intros table Ht; simpl; [assumption|].
  apply IH. now apply expected_table_int_scores.
Qed.


(** ** A bounded set forgets

    Whatever the iteration order of the set, after 1001 goals with distinct
    keys only 500 keys are retained, so not all of the 1001 can be
    recognised when they come again. *)

(** The payload reaches the de-duplication with key [k] and can be made
    into an event. *)
Definition admissible (data : pyval) (k : string) : Prop :=
  goal_key data = Some k
  /\ exists p skvs, read_goal_parts data = Ok p /\ gp_score p = PDict skvs.

Lemma handle_goal_event_admits (self : WebSocketGoalListener) (w : W)
  (data : pyval) (k : string) :
  admissible data k ->
  set_mem k (seen_goals self) = false ->
  exists ev dl,
    _handle_goal_event self w data
    = (with_seen_goals self (prune_seen (set_add (seen_goals self) k)),
       called_in_order (goal_callbacks self) ev w, [(ev, dl)], Ok tt)
    /\ map fst dl = map cb_name (goal_callbacks self).
Proof.
  intros [Hk [p [skvs [Hp Hs]]]] Hm.
  destruct (handle_goal_event_fresh self w data k Hk Hm) as [p' [Hp' Hc]].
  assert (p' = p) by congruence. subst p'.
  destruct Hc as [[ev [dl [_ [Hh Hd]]]] | [[e He] _]].
  - exists ev, dl. split; assumption.
  - exfalso.
    destruct (read_goal_parts_inv data p Hp)
      as [dkvs [fkvs [lkvs [_ [Hf [Hl _]]]]]].
    destruct (goal_key_Some data k Hk) as [p' [Hp'' [_ Hid]]].
    assert (p' = p) by congruence. subst p'.
    destruct (goal_id_of_inv _ _ _ Hid) as [gkvs [Hg _]].
    rewrite (make_goal_event_dicts p fkvs lkvs gkvs skvs Hf Hl Hg Hs) in He.
    discriminate.
Qed.

(** Fresh keys that fit below the high-water mark are all recorded. *)
Lemma handle_goal_events_records (datas : list pyval) (keys : list string) :
  Forall2 admissible datas keys ->
  forall (self : WebSocketGoalListener) (w : W),
    NoDup keys ->
    (forall k, In k keys -> ~ In k (set_to_list (seen_goals self))) ->
    set_len (seen_goals self) + Z.of_nat (List.length keys) <= 1000 ->
    let self' := fst (fst (handle_goal_events self w datas)) in
    set_len (seen_goals self')
    = set_len (seen_goals self) + Z.of_nat (List.length keys)
    /\ (forall x, In x (set_to_list (seen_goals self')) <->
                  In x keys \/ In x (set_to_list (seen_goals self))).
Proof.
  clear json_loads py_list_gt.
  induction 1 as [|data k datas keys Hd _ IH]; intros self w Hnd Hfresh Hlen.
  - simpl. split; [lia | tauto].
  - change (List.length (k :: keys)) with (S (List.length keys)) in *.
    rewrite Nat2Z.inj_succ in *.
    inversion Hnd as [|? ? Hk Hnd']; subst.
    assert (Hnew : ~ In k (set_to_list (seen_goals self)))
      by (apply Hfresh; now left).
    assert (Hm : set_mem k (seen_goals self) = false)
      by now apply set_mem_false.
    destruct (handle_goal_event_admits self w data k Hd Hm) as [ev [dl [Hh _]]].
    pose proof (set_len_add (seen_goals self) k Hnew) as Hadd.
    assert (H0 : 0 <= Z.of_nat (List.length keys)) by lia.
    simpl handle_goal_events. rewrite Hh.
    rewrite prune_seen_small by lia.
    set (self1 := with_seen_goals self (set_add (seen_goals self) k)).
    specialize (IH self1 (called_in_order (goal_callbacks self) ev w) Hnd').
    destruct (handle_goal_events self1
                (called_in_order (goal_callbacks self) ev w) datas)
      as [[self2 w2] logs].
    simpl in IH |- *.
    destruct IH as [Hl Hiff].
    + intros x Hx Hx'. apply set_add_spec in Hx'.
      destruct Hx' as [->|Hx']; [contradiction|].
      apply (Hfresh x); [now right | assumption].
    + lia.
    + split; [lia|]. intros x. rewrite Hiff, set_add_spec.
      split; [intros [H|[->|H]] | intros [[<-|H]|H]]; auto.
Qed.

(** If a run fans nothing out, every key of the run was already retained
    when it began. *)
Lemma silent_run_knows_all (datas : list pyval) (keys : list string) :
  Forall2 admissible datas keys ->
  forall (self : WebSocketGoalListener) (w : W),
    Forall (fun log => log = []) (snd (handle_goal_events self w datas)) ->
    forall k, In k keys -> In k (set_to_list (seen_goals self)).
Proof.
  clear json_loads py_list_gt.
  induction 1 as [|data k datas keys Hd _ IH]; intros self w Hsilent x Hx.
  - contradiction.
  - simpl in Hsilent.
    destruct (set_mem k (seen_goals self)) eqn:Hm.
    + rewrite (handle_goal_event_duplicate self w data k (proj1 Hd) Hm)
        in Hsilent.
      specialize (IH self w).
      destruct (handle_goal_events self w datas) as [[self2 w2] logs].
      simpl in Hsilent, IH. inversion Hsilent as [|? ? _ Hrest]; subst.
      destruct Hx as [<-|Hx]; [now apply set_mem_In | now apply IH].
    + exfalso.
      destruct (handle_goal_event_admits self w data k Hd Hm)
        as [ev [dl [Hh _]]].
      rewrite Hh in Hsilent.
      destruct (handle_goal_events _ _ datas) as [[self2 w2] logs].
      simpl in Hsilent. inversion Hsilent as [|? ? Hnil _]. discriminate.
Qed.

(** After 1001 goals with distinct keys into an empty set, 500 keys are
    retained. *)
Lemma overflow_leaves_500 (datas : list pyval) (keys : list string) :
  Forall2 admissible datas keys ->
  forall (self : WebSocketGoalListener) (w : W),
    NoDup keys ->
    List.length keys = 1001%nat ->
    set_to_list (seen_goals self) = [] ->
    set_len (seen_goals (fst (fst (handle_goal_events self w datas)))) = 500.
Proof.
  clear json_loads py_list_gt.
  intros Hall self w Hnd Hlen Hempty.
  destruct (exists_last (l := keys)) as [keys0 [k Hk]];
    [intros ->; discriminate|].
  subst keys. apply Forall2_app_inv_r in Hall.
  destruct Hall as [datas0 [datas1 [H0 [H1 ->]]]].
  inversion H1 as [|data ? ? ? Hd Hnil]; subst. inversion Hnil; subst.
  rewrite length_app in Hlen. simpl in Hlen.
  assert (Hlen0 : List.length keys0 = 1000%nat) by lia.
  apply NoDup_remove in Hnd. rewrite app_nil_r in Hnd.
  destruct Hnd as [Hnd0 Hk].
  destruct (handle_goal_events_records datas0 keys0 H0 self w Hnd0)
    as [Hsize Hiff].
  { intros x _. rewrite Hempty. simpl. tauto. }
  { unfold set_len. rewrite Hempty, Hlen0. simpl. lia. }
  assert (Happ : forall l1 l2 s v,
             fst (fst (handle_goal_events s v (l1 ++ l2)))
             = fst (fst (handle_goal_events
                           (fst (fst (handle_goal_events s v l1)))
                           (snd (fst (handle_goal_events s v l1))) l2))).
  { induction l1 as [|d l1 IHl]; intros l2 s v; simpl; [reflexivity|].
    destruct (_handle_goal_event s v d) as [[[s1 v1] lg] r].
    specialize (IHl l2 s1 v1).
    destruct (handle_goal_events s1 v1 (l1 ++ l2)) as [[s2 v2] lgs].
    destruct (handle_goal_events s1 v1 l1) as [[s3 v3] lgs3].
    simpl in *. exact IHl. }
  rewrite Happ.
  destruct (handle_goal_events self w datas0) as [[self1 w1] logs1].
  simpl in Hsize, Hiff |- *.
  unfold set_len in Hsize at 2. rewrite Hempty, Hlen0 in Hsize. simpl in Hsize.
  assert (Hfresh : ~ In k (set_to_list (seen_goals self1))).
  { intros Hin. apply Hiff in Hin. rewrite Hempty in Hin. simpl in Hin. tauto. }
  assert (Hm : set_mem k (seen_goals self1) = false)
    by now apply set_mem_false.
  destruct (handle_goal_event_admits self1 w1 data k Hd Hm) as [ev [dl [Hh _]]].
  rewrite Hh. simpl.
  apply prune_seen_len. rewrite (set_len_add _ _ Hfresh). lia.
Qed.

(** The same 1001 keys cannot all be rejected when they come again. *)
Lemma bounded_set_readmits (first second : list pyval) (keys : list string)
  (self : WebSocketGoalListener) (w : W) :
  Forall2 admissible first keys ->
  Forall2 admissible second keys ->
  NoDup keys ->
  List.length keys = 1001%nat ->
  set_to_list (seen_goals self) = [] ->
  let after := fst (handle_goal_events self w first) in
  ~ Forall (fun log => log = [])
      (snd (handle_goal_events (fst after) (snd after) second)).
Proof.
  intros H1 H2 Hnd Hlen Hempty after Hsilent.
  pose proof (overflow_leaves_500 first keys H1 self w Hnd Hlen Hempty) as H500.
  fold after in H500.
  pose proof (silent_run_knows_all second keys H2 (fst after) (snd after)
                Hsilent) as Hknown.
  pose proof (NoDup_incl_length Hnd Hknown) as Hle.
  unfold set_len in H500. lia.
Qed.

(** ** What the handlers leave alone *)

(** [get_active_fixtures] *)
Definition get_active_fixtures (self : WebSocketGoalListener) : list pyval :=
  map snd (active_fixtures self).

(** [WebSocketGoalListener.stop] (closing the socket is the [Stopped] end of
    a session). *)
Definition stop (self : WebSocketGoalListener) : WebSocketGoalListener :=
  with_running self false.

(** [HybridGoalListener.stop] *)
Definition hybrid_stop (self : HybridGoalListener) : HybridGoalListener :=
  with_ws_listener (with_hy_running self false) (stop (ws_listener self)).

(** The part of the listener that only [start], [stop], the registration and
    the reconnection write. *)
Definition same_control (self self' : WebSocketGoalListener) : Prop :=
  running self' = running self
  /\ goal_callbacks self' = goal_callbacks self
  /\ reconnect_attempts self' = reconnect_attempts self.

Lemma same_control_refl (self : WebSocketGoalListener) : same_control self self.
Proof. repeat split. Qed.

Lemma same_control_trans (a b c : WebSocketGoalListener) :
  same_control a b -> same_control b c -> same_control a c.
Proof.
  intros [H1 [H2 H3]] [H4 [H5 H6]]. repeat split; congruence.
Qed.

Lemma handle_fixture_update_frame (self : WebSocketGoalListener) (data : pyval) :
  let self' := fst (_handle_fixture_update self data) in
  same_control self self' /\ seen_goals self' = seen_goals self.
Proof.
  unfold _handle_fixture_update.
  match goal with |- context [match ?m with Ok _ => _ | Raise _ => _ end] =>
    destruct m as [fid|e] end; simpl; [|repeat split].
  destruct (truthy fid); [|repeat split].
  destruct (hashable fid); repeat split.
Qed.

Lemma process_message_frame (self : WebSocketGoalListener) (w : W)
  (message : string) :
  let self' := fst (fst (fst (_process_message self w message))) in
  same_control self self'
  /\ (active_fixtures self' = active_fixtures self
      \/ (seen_goals self' = seen_goals self /\
          snd (fst (_process_message self w message)) = [])).
Proof.
  unfold _process_message, process_message_body.
  destruct (json_loads message) as [data|e];
    [|simpl; split; [apply same_control_refl | now left]].
  destruct (get data "type" (PStr "")) as [msg_type|e];
    [|simpl; split; [apply same_control_refl | now left]].
  destruct (is_str msg_type "goal").
  { destruct (handle_goal_event_listener self w data)
      as [self1 [w1 [log [Hh Hc]]]].
    rewrite Hh. simpl.
    destruct Hc as [->|[k [_ ->]]]; (split; [repeat split | now left]). }
  destruct (is_str msg_type "fixture_update").
  { pose proof (handle_fixture_update_frame self data) as Hf.
    destruct (_handle_fixture_update self data) as [self1 r]. simpl in *.
    destruct Hf as [Hc Hs]. split; [exact Hc | right; now split]. }
  destruct (is_str msg_type "heartbeat");
    [simpl; split; [apply same_control_refl | now left]|].
  destruct (is_str msg_type "error");
    simpl; (split; [apply same_control_refl | now left]).
Qed.

Lemma process_message_ok (self : WebSocketGoalListener) (w : W)
  (message : string) :
  snd (_process_message self w message) = Ok tt.
Proof. unfold _process_message. apply catch_and_log_ok. Qed.

Lemma process_messages_frame (messages : list string)
  (self : WebSocketGoalListener) (w : W) :
  same_control self (fst (fst (fst (process_messages self w messages))))
  /\ snd (process_messages self w messages) = Ok tt.
Proof.
  revert self w. induction messages as [|m rest IH]; intros self w; simpl.
  - split; [apply same_control_refl | reflexivity].
  - pose proof (process_message_frame self w m) as [Hc _].
    pose proof (process_message_ok self w m) as Hok.
    destruct (_process_message self w m) as [[[self1 w1] log1] r].
    simpl in Hc, Hok. subst r.
    specialize (IH self1 w1).
    destruct (process_messages self1 w1 rest) as [[[self2 w2] log2] r2].
    simpl in *. destruct IH as [Hc2 Hr]. split; [|assumption].
    now apply same_control_trans with self1.
Qed.

(** ** The dedup set stays within its bound *)

Lemma handle_goal_event_bounded (self : WebSocketGoalListener) (w : W)
  (data : pyval) :
  set_len (seen_goals self) <= 1000 ->
  set_len (seen_goals (fst (fst (fst (_handle_goal_event self w data)))))
  <= 1000.
Proof.
  intros Hb.
  destruct (handle_goal_event_listener self w data)
    as [self1 [w1 [log [Hh Hc]]]].
  rewrite Hh. simpl. destruct Hc as [->|[k [Hk ->]]]; [assumption|].
  simpl. pose proof (set_len_add (seen_goals self) k Hk) as Hadd.
  destruct (Z_lt_le_dec 1000 (set_len (set_add (seen_goals self) k)))
    as [Hbig|Hsmall].
  - rewrite (prune_seen_len _ Hbig). lia.
  - now rewrite prune_seen_small.
Qed.

Lemma process_message_bounded (self : WebSocketGoalListener) (w : W)
  (message : string) :
  set_len (seen_goals self) <= 1000 ->
  set_len (seen_goals (fst (fst (fst (_process_message self w message)))))
  <= 1000.
Proof.
  intros Hb. unfold _process_message, process_message_body.
  destruct (json_loads message) as [data|e]; [|exact Hb].
  destruct (get data "type" (PStr "")) as [msg_type|e]; [|exact Hb].
  destruct (is_str msg_type "goal").
  { pose proof (handle_goal_event_bounded self w data Hb) as H.
    destruct (_handle_goal_event self w data) as [[[self1 w1] log] r].
    exact H. }
  destruct (is_str msg_type "fixture_update").
  { pose proof (handle_fixture_update_frame self data) as [_ Hs].
    destruct (_handle_fixture_update self data) as [self1 r]. simpl in *.
    now rewrite Hs. }
  destruct (is_str msg_type "heartbeat"); [exact Hb|].
  destruct (is_str msg_type "error"); exact Hb.
Qed.

Lemma process_messages_bounded (messages : list string)
  (self : WebSocketGoalListener) (w : W) :
  set_len (seen_goals self) <= 1000 ->
  set_len (seen_goals (fst (fst (fst (process_messages self w messages)))))
  <= 1000.
Proof.
  revert self w. induction messages as [|m rest IH]; intros self w Hb; simpl.
  - exact Hb.
  - pose proof (process_message_bounded self w m Hb) as H1.
    pose proof (process_message_ok self w m) as Hok.
    destruct (_process_message self w m) as [[[self1 w1] log1] r].
    simpl in H1, Hok. subst r.
    specialize (IH self1 w1 H1).
    destruct (process_messages self1 w1 rest) as [[[self2 w2] log2] r2].
    exact IH.
Qed.

Lemma connect_and_listen_bounded (self : WebSocketGoalListener) (w : W)
  (s : session) :
  set_len (seen_goals self) <= 1000 ->
  set_len (seen_goals (fst (fst (fst (_connect_and_listen self w s))))) <= 1000.
Proof.
  intros Hb. destruct s as [e|messages ending]; simpl; [exact Hb|].
  pose proof (process_messages_bounded messages
                (with_reconnect_attempts self 0) w Hb) as H.
  destruct (process_messages (with_reconnect_attempts self 0) w messages)
    as [[[self1 w1] log] r].
  simpl in H. destruct r; [destruct ending|]; exact H.
Qed.

(** X1. Between two calls the listener never holds more than 1000 dedup
    keys: if it holds at most 1000 when [start] is called, it holds at most
    1000 when the loop of [start] is left or the trace of sessions is used
    up, whatever the network sends and however often it reconnects. *)
Theorem seen_goals_stay_bounded :
  forall (trace : list (session * Q)) (self : WebSocketGoalListener) (w : W),
    set_len (seen_goals self) <= 1000 ->
    set_len (seen_goals (run_listener (start self w trace))) <= 1000.
Proof.
  intros trace self w Hb. unfold start.
  assert (Hb' : set_len (seen_goals (with_running self true)) <= 1000)
    by exact Hb.
  generalize dependent (with_running self true). clear self Hb.
  revert w. induction trace as [|[s r] rest IH]; intros w self Hb; simpl.
  - exact Hb.
  - destruct (running self); [|exact Hb].
    pose proof (connect_and_listen_bounded self w s Hb) as H1.
    destruct (_connect_and_listen self w s) as [[[self1 w1] log1] res].
    simpl in H1. destruct res as [u|e].
    + simpl. now apply IH.
    + destruct (running self1).
      * unfold _handle_reconnection. simpl reconnect_attempts.
        destruct (max_reconnect_attempts <? reconnect_attempts self1 + 1);
          simpl; apply IH; exact H1.
      * simpl. now apply IH.
Qed.

(** ** Fixture updates and the active-fixture table *)

Lemma dict_set_new {V : Type} (d : dict V) (k : pyval) (v : V) :
  dict_get d k = None -> dict_set d k v = d ++ [(k, v)].
Proof.
  induction d as [|[k' v'] rest IH]; simpl; [reflexivity|].
  destruct (key_eqb k' k); [discriminate|]. intros H. now rewrite IH.
Qed.

Lemma dict_set_known {V : Type} (d : dict V) (k : pyval) (v old : V) :
  dict_get d k = Some old ->
  exists before k' after,
    d = before ++ (k', old) :: after
    /\ dict_set d k v = before ++ (k', v) :: after
    /\ key_eqb k' k = true.
Proof.
  induction d as [|[k' v'] rest IH]; simpl; [discriminate|].
  destruct (key_eqb k' k) eqn:E.
  - intros H. injection H as ->. exists [], k', rest. repeat split. exact E.
  - intros H. destruct (IH H) as [before [k'' [after [Hd [Hs Hk]]]]].
    exists ((k', v') :: before), k'', after. simpl. rewrite <- Hd, Hs.
    repeat split. exact Hk.
Qed.

(** A table all of whose keys are integers. *)
Definition int_keys {V : Type} (d : dict V) : Prop :=
  Forall (fun kv => exists i, fst kv = PInt i) d.

Lemma dict_get_set_other_int {V : Type} (d : dict V) (i j : Z) (v : V) :
  int_keys d -> i <> j ->
  dict_get (dict_set d (PInt i) v) (PInt j) = dict_get d (PInt j).
Proof.
  intros Hd Hij. induction Hd as [|[k v'] rest [z Hz] _ IH]; simpl.
  - rewrite key_eqb_int. destruct (Z.eqb_spec i j); [contradiction | reflexivity].
  - simpl in Hz. subst k. rewrite !key_eqb_int.
    destruct (Z.eqb_spec z i) as [->|Hzi]; simpl; rewrite !key_eqb_int.
    + destruct (Z.eqb_spec i j); [contradiction | reflexivity].
    + destruct (z =? j); [reflexivity | exact IH].
Qed.

(** The fixture id a fixture_update message carries. *)
Definition update_id (data : pyval) : result pyval :=
  fixture <- get data "fixture" (PDict []) ;; get fixture "id" PNone.

Lemma handle_fixture_update_int (self : WebSocketGoalListener) (data : pyval)
  (z : Z) :
  get data "type" (PStr "") = Ok (PStr "fixture_update") ->
  update_id data = Ok (PInt z) -> z <> 0 ->
  _handle_fixture_update self data
  = (with_active_fixtures self (dict_set (active_fixtures self) (PInt z) data),
     Ok tt).
Proof.
  intros Ht Hid Hz. unfold _handle_fixture_update, update_id in *.
  apply get_Ok_inv in Ht. destruct Ht as [dkvs [-> _]].
  rewrite !get_PDict in *. cbn [bind] in *. rewrite Hid. cbn [bind].
  simpl truthy. destruct (Z.eqb_spec z 0); [contradiction|]. reflexivity.
Qed.

(** X2. A fixture_update message whose fixture id is a non-zero integer is
    cached under that id: afterwards the table gives the message for the
    id, and gives what it gave before for every other integer id (in a table
    keyed by integers).  The message is not fanned out, and the dedup set,
    the callbacks and the consumers are left as they were. *)
Theorem fixture_update_is_cached :
  forall (self : WebSocketGoalListener) (w : W) (message : string)
         (data : pyval) (z : Z),
    json_loads message = Ok data ->
    get data "type" (PStr "") = Ok (PStr "fixture_update") ->
    update_id data = Ok (PInt z) ->
    z <> 0 ->
    exists self',
      _process_message self w message = (self', w, [], Ok tt)
      /\ dict_get (active_fixtures self') (PInt z) = Some data
      /\ (int_keys (active_fixtures self) ->
          forall j, j <> z ->
            dict_get (active_fixtures self') (PInt j)
            = dict_get (active_fixtures self) (PInt j))
      /\ seen_goals self' = seen_goals self
      /\ goal_callbacks self' = goal_callbacks self.
Proof.
  intros self w message data z Hj Ht Hid Hz.
  exists (with_active_fixtures self
            (dict_set (active_fixtures self) (PInt z) data)).
  split; [|split; [|split; [|split]]].
  - unfold _process_message, process_message_body. rewrite Hj, Ht.
    simpl is_str. cbv iota.
    now rewrite (handle_fixture_update_int self data z Ht Hid Hz).
  - simpl. apply dict_get_set_same.
  - intros Hk j Hne. simpl. apply dict_get_set_other_int; [assumption|].
    congruence.
  - reflexivity.
  - reflexivity.
Qed.

(** X3. A fixture_update message whose fixture id is missing or falsy
    (null, 0, false, an empty string) is not cached: the listener is left
    exactly as it was.  If the id is an unhashable value (a non-empty list
    or object) the handler raises, [_process_message] catches it, and the
    listener is again left as it was. *)
Theorem fixture_update_without_id_is_ignored :
  forall (self : WebSocketGoalListener) (w : W) (message : string)
         (data fixture_id : pyval),
    json_loads message = Ok data ->
    get data "type" (PStr "") = Ok (PStr "fixture_update") ->
    update_id data = Ok fixture_id ->
    truthy fixture_id = false \/ hashable fixture_id = false ->
    _process_message self w message = (self, w, [], Ok tt).
Proof.
  intros self w message data fid Hj Ht Hid Hcase.
  unfold _process_message, process_message_body. rewrite Hj, Ht.
  simpl is_str. cbv iota.
  unfold _handle_fixture_update, update_id in *.
  pose proof Ht as Ht'. apply get_Ok_inv in Ht'. destruct Ht' as [dkvs [-> _]].
  rewrite !get_PDict in *. cbn [bind] in *. rewrite Hid. cbn [bind].
  destruct Hcase as [Hf|Hh].
  - rewrite Hf. reflexivity.
  - rewrite Hh. destruct (truthy fid); reflexivity.
Qed.

(** X4. [get_active_fixtures] lists one payload per fixture, oldest fixture
    first: the first update for a fixture id puts its payload at the end of
    the list, and a later update for the same id replaces the payload where
    it stands, so the list does not grow. *)
Theorem active_fixtures_one_per_fixture :
  forall (self : WebSocketGoalListener) (data : pyval) (z : Z),
    get data "type" (PStr "") = Ok (PStr "fixture_update") ->
    update_id data = Ok (PInt z) ->
    z <> 0 ->
    let self' := fst (_handle_fixture_update self data) in
    match dict_get (active_fixtures self) (PInt z) with
    | None => get_active_fixtures self' = get_active_fixtures self ++ [data]
    | Some old =>
        exists before after,
          get_active_fixtures self = before ++ old :: after
          /\ get_active_fixtures self' = before ++ data :: after
    end.
Proof.
  intros self data z Ht Hid Hz.
  rewrite (handle_fixture_update_int self data z Ht Hid Hz). simpl.
  unfold get_active_fixtures. simpl.
  destruct (dict_get (active_fixtures self) (PInt z)) as [old|] eqn:E.
  - destruct (dict_set_known (active_fixtures self) (PInt z) data old E)
      as [before [k' [after [Hd [Hs _]]]]].
    exists (map snd before), (map snd after).
    rewrite Hs, Hd, !map_app. simpl. split; reflexivity.
  - rewrite (dict_set_new _ _ data E), map_app. reflexivity.
Qed.

(** ** Registration *)

(** The two registries of a hybrid listener hold the same callbacks. *)
Definition registries_agree (self : HybridGoalListener) : Prop :=
  hy_goal_callbacks self = goal_callbacks (ws_listener self).

Lemma connect_and_listen_callbacks (self : WebSocketGoalListener) (w : W)
  (s : session) :
  goal_callbacks (fst (fst (fst (_connect_and_listen self w s))))
  = goal_callbacks self.
Proof.
  destruct s as [e|messages ending]; simpl; [reflexivity|].
  pose proof (process_messages_frame messages
                (with_reconnect_attempts self 0) w) as [[_ [Hc _]] Hok].
  destruct (process_messages (with_reconnect_attempts self 0) w messages)
    as [[[self1 w1] log] r].
  simpl in *. subst r. destruct ending; exact Hc.
Qed.

Lemma start_loop_callbacks (trace : list (session * Q))
  (self : WebSocketGoalListener) (w : W) :
  goal_callbacks (run_listener (start_loop self w trace)) = goal_callbacks self.
Proof.
  revert self w. induction trace as [|[s r] rest IH]; intros self w; simpl.
  - reflexivity.
  - destruct (running self); [|reflexivity].
    pose proof (connect_and_listen_callbacks self w s) as H1.
    destruct (_connect_and_listen self w s) as [[[self1 w1] log1] res].
    simpl in H1. destruct res as [u|e].
    + simpl. now rewrite IH.
    + destruct (running self1).
      * unfold _handle_reconnection. simpl reconnect_attempts.
        destruct (max_reconnect_attempts <? reconnect_attempts self1 + 1);
          simpl; rewrite IH; exact H1.
      * simpl. now rewrite IH.
Qed.

Lemma poll_fixture_frame (self : HybridGoalListener) (w : W) (fixture : pyval) :
  let self' := fst (fst (fst (poll_fixture self w fixture))) in
  ws_listener self' = ws_listener self
  /\ hy_goal_callbacks self' = hy_goal_callbacks self
  /\ use_polling_fallback self' = use_polling_fallback self
  /\ hy_running self' = hy_running self
  /\ (is_ok (snd (poll_fixture self w fixture)) = false ->
      previous_scores self' = previous_scores self).
Proof.
  unfold poll_fixture.
  match goal with |- context [match ?m with Ok _ => _ | Raise _ => _ end] =>
    destruct m as [[fid [|]]|e] end; try (simpl; repeat split; discriminate).
  match goal with |- context [match ?m with Ok _ => _ | Raise _ => _ end] =>
    destruct m as [[hs aws]|e] end; [|simpl; repeat split].
  destruct (dict_get (previous_scores self) fid) as [[ph pa]|];
    [|simpl; repeat split; discriminate].
  destruct (detect_goal self w fixture "home" hs ph) as [[w1 log1] r1].
  destruct r1 as [u|e]; [|simpl; repeat split].
  destruct (detect_goal self w1 fixture "away" aws pa) as [[w2 log2] r2].
  destruct r2 as [u'|e]; simpl; repeat split; discriminate.
Qed.

Lemma poll_loop_frame (fixtures : list pyval) (self : HybridGoalListener)
  (w : W) :
  let self' := fst (fst (fst (poll_loop self w fixtures))) in
  ws_listener self' = ws_listener self
  /\ hy_goal_callbacks self' = hy_goal_callbacks self
  /\ use_polling_fallback self' = use_polling_fallback self
  /\ hy_running self' = hy_running self.
Proof.
  revert self w. induction fixtures as [|f rest IH]; intros self w; simpl.
  - repeat split.
  - pose proof (poll_fixture_frame self w f) as [H1 [H2 [H3 [H4 _]]]].
    destruct (poll_fixture self w f) as [[[self1 w1] log1] r].
    simpl in H1, H2, H3, H4.
    destruct r as [u|e]; [|simpl; repeat split; assumption].
    specialize (IH self1 w1).
    destruct (poll_loop self1 w1 rest) as [[[self2 w2] log2] r2].
    simpl in *. destruct IH as [I1 [I2 [I3 I4]]].
    repeat split; congruence.
Qed.

Lemma poll_for_goals_frame (self : HybridGoalListener) (w : W)
  (http : http_outcome) :
  let self' := fst (fst (fst (_poll_for_goals self w http))) in
  ws_listener self' = ws_listener self
  /\ hy_goal_callbacks self' = hy_goal_callbacks self
  /\ use_polling_fallback self' = use_polling_fallback self
  /\ hy_running self' = hy_running self.
Proof.
  unfold _poll_for_goals, poll_for_goals_body.
  destruct http as [e|status_code json]; [simpl; repeat split|].
  destruct (negb (status_code =? 200)); [simpl; repeat split|].
  match goal with |- context [match ?m with Ok _ => _ | Raise _ => _ end] =>
    destruct m as [fixtures|e] end; [|simpl; repeat split].
  pose proof (poll_loop_frame fixtures self w) as H.
  destruct (poll_loop self w fixtures) as [[[self1 w1] log] r]. exact H.
Qed.

Lemma health_monitor_frame (cycles : list http_outcome)
  (self : HybridGoalListener) (w : W) :
  let self' := fst (fst (fst (_health_monitor self w cycles))) in
  ws_listener self' = ws_listener self
  /\ hy_goal_callbacks self' = hy_goal_callbacks self
  /\ use_polling_fallback self' = use_polling_fallback self
  /\ hy_running self' = hy_running self.
Proof.
  revert self w. induction cycles as [|http rest IH]; intros self w; simpl.
  - repeat split.
  - destruct (hy_running self) eqn:Hrun; [|simpl; repeat split; assumption].
    unfold health_monitor_cycle.
    destruct (use_polling_fallback self) eqn:Hflag.
    + pose proof (poll_for_goals_frame self w http) as H.
      destruct (_poll_for_goals self w http) as [[[self1 w1] log] r].
      simpl in H. specialize (IH self1 w1).
      destruct (_health_monitor self1 w1 rest) as [[[self2 w2] log2] n].
      simpl in *. destruct H as [H1 [H2 [H3 H4]]].
      destruct IH as [I1 [I2 [I3 I4]]].
      repeat split; congruence.
    + specialize (IH self w).
      destruct (_health_monitor self w rest) as [[[self2 w2] log2] n].
      simpl in *. destruct IH as [I1 [I2 [I3 I4]]].
      repeat split; congruence.
Qed.

(** The outcome of a poll, with the stream listener [l] put in the place
    of the one the hybrid listener holds. *)
Definition on_stream (l : WebSocketGoalListener) (o : poll_outcome)
  : poll_outcome :=
  let '(self', w', log, r) := o in (with_ws_listener self' l, w', log, r).

Lemma poll_fixture_on_stream (self : HybridGoalListener)
  (l : WebSocketGoalListener) (w : W) (fixture : pyval) :
  poll_fixture (with_ws_listener self l) w fixture
  = on_stream l (poll_fixture self w fixture).
Proof.
  unfold poll_fixture, on_stream. simpl previous_scores.
  change (detect_goal (with_ws_listener self l)) with (detect_goal self).
  match goal with |- context [match ?m with Ok _ => _ | Raise _ => _ end] =>
    destruct m as [[fid [|]]|e] end; try reflexivity.
  match goal with |- context [match ?m with Ok _ => _ | Raise _ => _ end] =>
    destruct m as [[hs aws]|e] end; [|reflexivity].
  destruct (dict_get (previous_scores self) fid) as [[ph pa]|];
    [|reflexivity].
  destruct (detect_goal self w fixture "home" hs ph) as [[w1 log1] r1].
  destruct r1 as [u|e]; [|reflexivity].
  destruct (detect_goal self w1 fixture "away" aws pa) as [[w2 log2] r2].
  destruct r2 as [u'|e]; reflexivity.
Qed.

Lemma poll_loop_on_stream (fixtures : list pyval) (self : HybridGoalListener)
  (l : WebSocketGoalListener) (w : W) :
  poll_loop (with_ws_listener self l) w fixtures
  = on_stream l (poll_loop self w fixtures).
Proof.
  revert self w. induction fixtures as [|f rest IH]; intros self w; simpl;
    [reflexivity|].
  rewrite poll_fixture_on_stream.
  destruct (poll_fixture self w f) as [[[self1 w1] log1] [u|e]]; simpl;
    [|reflexivity].
  rewrite IH.
  now destruct (poll_loop self1 w1 rest) as [[[self2 w2] log2] r2].
Qed.

Lemma poll_for_goals_on_stream (self : HybridGoalListener)
  (l : WebSocketGoalListener) (w : W) (http : http_outcome) :
  _poll_for_goals (with_ws_listener self l) w http
  = on_stream l (_poll_for_goals self w http).
Proof.
  unfold _poll_for_goals, poll_for_goals_body.
  destruct http as [e|status_code json]; [reflexivity|].
  destruct (negb (status_code =? 200)); [reflexivity|].
  match goal with |- context [match ?m with Ok _ => _ | Raise _ => _ end] =>
    destruct m as [fixtures|e] end; [|reflexivity].
  rewrite poll_loop_on_stream.
  now destruct (poll_loop self w fixtures) as [[[self1 w1] log] r].
Qed.

Lemma health_monitor_on_stream (cycles : list http_outcome)
  (self : HybridGoalListener) (l : WebSocketGoalListener) (w : W) :
  _health_monitor (with_ws_listener self l) w cycles
  = let '(self', w', log, n) := _health_monitor self w cycles in
    (with_ws_listener self' l, w', log, n).
Proof.
  revert self w. induction cycles as [|http rest IH]; intros self w; simpl;
    [reflexivity|].
  destruct (hy_running self); [|reflexivity].
  unfold health_monitor_cycle. simpl use_polling_fallback.
  destruct (use_polling_fallback self).
  - rewrite poll_for_goals_on_stream.
    destruct (_poll_for_goals self w http) as [[[self1 w1] log] r]. simpl.
    rewrite IH.
    now destruct (_health_monitor self1 w1 rest) as [[[self2 w2] log2] n].
  - rewrite IH.
    now destruct (_health_monitor self w rest) as [[[self2 w2] log2] n].
Qed.

(** X5. Polling neither writes nor reads anything but the snapshot table,
    the callbacks and the two flags of the hybrid listener.  After
    [_poll_for_goals], and after any number of cycles of [_health_monitor],
    the stream listener (its dedup set, active fixtures, callbacks and
    counters), the callbacks of the hybrid listener, the fallback flag and
    the running flag are as before, whatever the responses.  And with any
    other stream listener in the place of the one it holds, the hybrid
    listener makes the same fan-outs, leaves the consumers and the
    snapshots the same and returns the same: the polling path does not
    consult the dedup set of the stream path. *)
Theorem polling_only_writes_snapshots :
  forall (self : HybridGoalListener) (w : W),
    (forall http,
        let self' := fst (fst (fst (_poll_for_goals self w http))) in
        ws_listener self' = ws_listener self
        /\ hy_goal_callbacks self' = hy_goal_callbacks self
        /\ use_polling_fallback self' = use_polling_fallback self
        /\ hy_running self' = hy_running self)
    /\ (forall cycles,
          let self' := fst (fst (fst (_health_monitor self w cycles))) in
          ws_listener self' = ws_listener self
          /\ hy_goal_callbacks self' = hy_goal_callbacks self
          /\ use_polling_fallback self' = use_polling_fallback self
          /\ hy_running self' = hy_running self)
    /\ (forall (l : WebSocketGoalListener) http,
          _poll_for_goals (with_ws_listener self l) w http
          = let '(self', w', log, r) := _poll_for_goals self w http in
            (with_ws_listener self' l, w', log, r))
    /\ (forall (l : WebSocketGoalListener) cycles,
          _health_monitor (with_ws_listener self l) w cycles
          = let '(self', w', log, n) := _health_monitor self w cycles in
            (with_ws_listener self' l, w', log, n)).
Proof.
  intros self w. split; [|split; [|split]].
  - intros http. apply poll_for_goals_frame.
  - intros cycles. apply health_monitor_frame.
  - intros l http. apply poll_for_goals_on_stream.
  - intros l cycles. apply health_monitor_on_stream.
Qed.

(** X6. The two registries of a hybrid listener stay equal: they are equal
    after [__init__]; and if they are equal they are still equal after a
    registration, after [_run_websocket] on any trace of sessions and after
    any number of cycles of [_health_monitor].  So the stream path and the
    polling path deliver to the same callbacks in the same order. *)
Theorem registries_stay_equal :
  registries_agree hybrid_init
  /\ forall (self : HybridGoalListener),
       registries_agree self ->
       (forall cb, registries_agree (hybrid_register_goal_callback self cb))
       /\ (forall w trace,
             registries_agree (fst (_run_websocket self w trace)))
       /\ (forall w cycles,
             registries_agree (fst (fst (fst (_health_monitor self w cycles))))).
Proof.
  split; [reflexivity|].
  intros self Hagree. unfold registries_agree in *. split; [|split].
  - intros cb. simpl. now rewrite Hagree.
  - intros w trace. unfold _run_websocket.
    pose proof (start_loop_callbacks trace
                  (with_running (ws_listener self) true) w) as Hc.
    unfold start.
    destruct (run_status (start_loop (with_running (ws_listener self) true)
                            w trace)); simpl; rewrite Hc; exact Hagree.
  - intros w cycles.
    destruct (health_monitor_frame cycles self w) as [H1 [H2 _]].
    now rewrite H1, H2.
Qed.


(** ** Reconnection, continued *)

(** The sleeps of successive failed attempts, the counter standing at
    [attempts] before the first of them. *)
Fixpoint backoff_sleeps (attempts : Z) (draws : list Q) : list Q :=
  match draws with
  | [] => []
  | r :: rest =>
      reconnect_delay (attempts + 1) r :: backoff_sleeps (attempts + 1) rest
  end.

Definition total (sleeps : list Q) : Q := fold_right Qplus 0%Q sleeps.

Lemma backoff_sleeps_length (draws : list Q) (attempts : Z) :
  List.length (backoff_sleeps attempts draws) = List.length draws.
Proof.
  revert attempts. induction draws as [|r rest IH]; intros a; simpl;
    [reflexivity | now rewrite IH].
Qed.

Lemma start_loop_failures_sleeps (failures rest : list (session * Q))
  (self : WebSocketGoalListener) (w : W) :
  Forall (fun sr => exists e, fst sr = ConnectFails e) failures ->
  running self = true ->
  reconnect_attempts self + Z.of_nat (List.length failures)
    <= max_reconnect_attempts ->
  exists self',
    start_loop self w (failures ++ rest)
      = run_after [] (backoff_sleeps (reconnect_attempts self)
                        (map snd failures))
          (start_loop self' w rest)
    /\ running self' = true
    /\ goal_callbacks self' = goal_callbacks self
    /\ seen_goals self' = seen_goals self
    /\ reconnect_attempts self'
       = reconnect_attempts self + Z.of_nat (List.length failures).
Proof.
  intros Hf. revert self. induction Hf as [|[s r] failures [e He] Hf IH];
    intros self Hrun Hle.
  - exists self. simpl. repeat split; try assumption; try lia.
    unfold run_after. now destruct (start_loop self w rest).
  - simpl in He. subst s.
    change (List.length ((ConnectFails e, r) :: failures))
      with (S (List.length failures)) in *.
    rewrite Nat2Z.inj_succ in *.
    simpl app. simpl start_loop. rewrite Hrun. cbv beta iota.
    unfold _handle_reconnection. simpl reconnect_attempts.
    destruct (max_reconnect_attempts <? reconnect_attempts self + 1) eqn:E;
      [apply Z.ltb_lt in E; lia|].
    destruct (IH (with_reconnect_attempts self (reconnect_attempts self + 1)))
      as [self' [Hs [Hrun' [Hcb [Hseen Hatt]]]]].
    + simpl. assumption.
    + simpl. lia.
    + exists self'. rewrite Hs. simpl in Hatt, Hcb, Hseen |- *.
      split; [unfold run_after; simpl; reflexivity|].
      split; [assumption|]. split; [assumption|]. split; [assumption | lia].
Qed.

Lemma start_loop_cons (self : WebSocketGoalListener) (w : W) (s : session)
  (r : Q) (rest : list (session * Q)) :
  start_loop self w ((s, r) :: rest)
  = if running self then
      let '(self1, w1, log1, res) := _connect_and_listen self w s in
      match res with
      | Ok _ => run_after log1 [] (start_loop self1 w1 rest)
      | Raise _ =>
          if running self1 then
            let (self2, slept) := _handle_reconnection self1 r in
            run_after log1
              match slept with Some d => [d] | None => [] end
              (start_loop self2 w1 rest)
          else run_after log1 [] (start_loop self1 w1 rest)
      end
    else
      {| run_listener := self; run_world := w; run_log := [];
         run_sleeps := []; run_status := Ok Returned |}.
Proof. reflexivity. Qed.

Lemma connected_session (self : WebSocketGoalListener) (w : W)
  (messages : list string) (ending : session_end) :
  exists self1 w1 log,
    process_messages (with_reconnect_attempts self 0) w messages
    = (self1, w1, log, Ok tt)
    /\ running self1 = running self
    /\ goal_callbacks self1 = goal_callbacks self
    /\ reconnect_attempts self1 = 0
    /\ _connect_and_listen self w (Connected messages ending)
       = match ending with
         | Drops e => (self1, w1, log, Raise e)
         | Ends => (self1, w1, log, Ok tt)
         | Stopped => (with_running self1 false, w1, log, Ok tt)
         end.
Proof.
  pose proof (process_messages_frame messages
                (with_reconnect_attempts self 0) w) as [[H1 [H2 H3]] Hok].
  simpl _connect_and_listen.
  destruct (process_messages (with_reconnect_attempts self 0) w messages)
    as [[[self1 w1] log] r].
  simpl in *. subst r. exists self1, w1, log.
  split; [reflexivity|]. split; [assumption|]. split; [assumption|].
  split; [assumption | reflexivity].
Qed.

(** X8. The ceiling counts consecutive failures only.  After up to ten
    failed connections in a row, a connection that succeeds puts the
    attempt counter back to 0 as soon as it is made: if the stream then ends
    normally the listener is still running with the counter at 0, and if
    the connection is lost the counter stands at 1 and one more sleep has
    been taken.  In both cases [start] has not returned. *)
Theorem connection_resets_attempts :
  forall (self : WebSocketGoalListener) (w : W)
         (failures : list (session * Q)) (messages : list string)
         (ending : session_end) (r : Q),
    Forall (fun sr => exists e, fst sr = ConnectFails e) failures ->
    (List.length failures <= 10)%nat ->
    reconnect_attempts self = 0 ->
    ending <> Stopped ->
    let rn := start self w (failures ++ [(Connected messages ending, r)]) in
    run_status rn = Ok Listening
    /\ running (run_listener rn) = true
    /\ reconnect_attempts (run_listener rn)
       = match ending with Drops _ => 1 | _ => 0 end
    /\ List.length (run_sleeps rn)
       = (List.length failures + match ending with Drops _ => 1 | _ => 0 end)%nat.
Proof.
  intros self w failures messages ending r Hf Hlen Hatt Hend rn.
  destruct (start_loop_failures_sleeps failures [(Connected messages ending, r)]
              (with_running self true) w Hf eq_refl)
    as [self' [Hs [Hrun [_ [_ Hatt']]]]].
  { simpl. rewrite Hatt. unfold max_reconnect_attempts. lia. }
  destruct (connected_session self' w messages ending)
    as [self1 [w1 [log [_ [Hrun1 [_ [Hatt1 Hc]]]]]]].
  assert (Hlast : exists rn',
             start_loop self' w [(Connected messages ending, r)] = rn'
             /\ run_status rn' = Ok Listening
             /\ running (run_listener rn') = true
             /\ reconnect_attempts (run_listener rn')
                = match ending with Drops _ => 1 | _ => 0 end
             /\ List.length (run_sleeps rn')
                = match ending with Drops _ => 1%nat | _ => 0%nat end).
  { eexists. split; [reflexivity|].
    rewrite start_loop_cons, Hrun, Hc.
    destruct ending as [e| |]; [| |contradiction].
    - rewrite Hrun1, Hrun. unfold _handle_reconnection.
      simpl reconnect_attempts. rewrite Hatt1. simpl.
      rewrite Hrun1, Hrun. repeat split.
    - simpl. rewrite Hrun1, Hrun. repeat split; assumption. }
  destruct Hlast as [rn' [Hrn' [H1 [H2 [H3 H4]]]]].
  unfold rn, start. rewrite Hs, Hrn'. simpl.
  repeat split; try assumption.
  now rewrite length_app, H4, backoff_sleeps_length, length_map.
Qed.

(** X9. A call of [stop()] during a session ends [start]: the messages
    received before it are processed, the loop is left without a
    reconnection attempt or a sleep, and whatever the network would do next
    is not looked at. *)
Theorem stop_ends_start :
  forall (self : WebSocketGoalListener) (w : W) (messages : list string)
         (r : Q) (rest : list (session * Q)),
    let rn := start self w ((Connected messages Stopped, r) :: rest) in
    run_status rn = Ok Returned
    /\ running (run_listener rn) = false
    /\ run_sleeps rn = []
    /\ run_log rn
       = snd (fst (process_messages
                     (with_reconnect_attempts (with_running self true) 0)
                     w messages))
    /\ run_world rn
       = snd (fst (fst (process_messages
                          (with_reconnect_attempts (with_running self true) 0)
                          w messages))).
Proof.
  intros self w messages r rest rn. unfold rn, start.
  destruct (connected_session (with_running self true) w messages Stopped)
    as [self1 [w1 [log [Hp [_ [_ [_ Hc]]]]]]].
  rewrite start_loop_cons, Hc. simpl running. cbv beta iota.
  rewrite Hp. simpl.
  destruct rest as [|[s q] rest']; simpl; rewrite app_nil_r; repeat split.
Qed.

Lemma reconnect_delay_range (n : Z) (r : Q) :
  1 <= n -> (0 <= r <= 1)%Q ->
  let delay := Z.min (base_reconnect_delay * 2 ^ (n - 1)) max_reconnect_delay in
  (inject_Z delay <= reconnect_delay n r <= (5 # 4) * inject_Z delay)%Q.
Proof.
  intros Hn Hr delay. unfold reconnect_delay. fold delay.
  assert (Hd : 0 < delay).
  { pose proof (uncapped_delay_pos n Hn).
    unfold delay, max_reconnect_delay. lia. }
  assert (HdQ : (0 < inject_Z delay)%Q)
    by (change 0%Q with (inject_Z 0); rewrite <- Zlt_Qlt; lia).
  assert (Hj : (0 <= inject_Z delay * uniform 0 (1 # 4) r
                <= inject_Z delay * (1 # 4))%Q).
  { unfold uniform. split.
    - apply Qmult_le_0_compat; lra.
    - apply Qmult_le_l; lra. }
  lra.
Qed.

(** X10. Giving up takes between 362 and 452.5 seconds of sleep.  When
    eleven connections in a row fail from a fresh counter, with draws in
    [0, 1], the listener sleeps ten times, after the attempts 1 to 10, for
    2, 4, 8, 16, 32 and five times 60 seconds, each plus at most a quarter;
    the eleventh failure is followed by no sleep. *)
Theorem exhaustion_wait_bounds :
  forall (self : WebSocketGoalListener) (w : W)
         (failures rest : list (session * Q)),
    Forall (fun sr => (exists e, fst sr = ConnectFails e)
                      /\ (0 <= snd sr <= 1)%Q) failures ->
    List.length failures = 11%nat ->
    reconnect_attempts self = 0 ->
    let rn := start self w (failures ++ rest) in
    run_sleeps rn = backoff_sleeps 0 (firstn 10 (map snd failures))
    /\ (362 <= total (run_sleeps rn) <= 905 # 2)%Q.
Proof.
  intros self w failures rest Hall Hlen Hatt rn.
  assert (Hsplit : exists first last, failures = first ++ [last]
                                      /\ List.length first = 10%nat).
  { destruct (exists_last (l := failures)) as [first [last Hl]];
      [intros ->; discriminate|].
    exists first, last. split; [assumption|].
    rewrite Hl, length_app in Hlen. simpl in Hlen. lia. }
  destruct Hsplit as [first [[s r] [-> Hfirst]]].
  apply Forall_app in Hall. destruct Hall as [Hf1 Hf2].
  inversion Hf2 as [|? ? [[e He] _] _]; subst. simpl in He. subst s.
  assert (Hfails : Forall (fun sr => exists e, fst sr = ConnectFails e) first).
  { eapply Forall_impl; [|exact Hf1]. intros a [H _]. exact H. }
  destruct (start_loop_failures_sleeps first ([(ConnectFails e, r)] ++ rest)
              (with_running self true) w Hfails eq_refl)
    as [self' [Hs [Hrun [_ [_ Hatt']]]]].
  { simpl. rewrite Hatt, Hfirst. unfold max_reconnect_attempts. lia. }
  simpl reconnect_attempts in Hatt', Hs. rewrite Hatt in Hs.
  rewrite Hatt, Hfirst in Hatt'.
  assert (Hrn : run_sleeps rn = backoff_sleeps 0 (map snd first)).
  { unfold rn, start. rewrite <- app_assoc, Hs. simpl app.
    simpl start_loop. rewrite Hrun. cbv beta iota.
    unfold _handle_reconnection. simpl reconnect_attempts. rewrite Hatt'.
    simpl. destruct rest as [|[s' r'] rest']; simpl; apply app_nil_r. }
  assert (Hten : firstn 10 (map snd (first ++ [(ConnectFails e, r)]))
                 = map snd first).
  { rewrite map_app.
    replace 10%nat with (List.length (map snd first) + 0)%nat
      by (rewrite length_map; lia).
    rewrite firstn_app_2. simpl. apply app_nil_r. }
  rewrite Hten, Hrn. split; [reflexivity|].
  assert (Hdraws : Forall (fun q => (0 <= q <= 1)%Q) (map snd first)).
  { apply Forall_map. eapply Forall_impl; [|exact Hf1]. intros a [_ H]. exact H. }
  assert (Hl : List.length (map snd first) = 10%nat)
    by now rewrite length_map.
  destruct (map snd first)
    as [|r1 [|r2 [|r3 [|r4 [|r5 [|r6 [|r7 [|r8 [|r9 [|r10 [|x l]]]]]]]]]]];
    try discriminate.
  repeat match goal with
         | H : Forall _ (_ :: _) |- _ => inversion H; clear H; subst
         end.
  pose proof (reconnect_delay_range 1 r1 ltac:(lia) ltac:(assumption)) as B1.
  pose proof (reconnect_delay_range 2 r2 ltac:(lia) ltac:(assumption)) as B2.
  pose proof (reconnect_delay_range 3 r3 ltac:(lia) ltac:(assumption)) as B3.
  pose proof (reconnect_delay_range 4 r4 ltac:(lia) ltac:(assumption)) as B4.
  pose proof (reconnect_delay_range 5 r5 ltac:(lia) ltac:(assumption)) as B5.
  pose proof (reconnect_delay_range 6 r6 ltac:(lia) ltac:(assumption)) as B6.
  pose proof (reconnect_delay_range 7 r7 ltac:(lia) ltac:(assumption)) as B7.
  pose proof (reconnect_delay_range 8 r8 ltac:(lia) ltac:(assumption)) as B8.
  pose proof (reconnect_delay_range 9 r9 ltac:(lia) ltac:(assumption)) as B9.
  pose proof (reconnect_delay_range 10 r10 ltac:(lia) ltac:(assumption)) as B10.
  cbv zeta in *.
  change (Z.min (base_reconnect_delay * 2 ^ (1 - 1)) max_reconnect_delay)
    with 2 in B1.
  change (Z.min (base_reconnect_delay * 2 ^ (2 - 1)) max_reconnect_delay)
    with 4 in B2.
  change (Z.min (base_reconnect_delay * 2 ^ (3 - 1)) max_reconnect_delay)
    with 8 in B3.
  change (Z.min (base_reconnect_delay * 2 ^ (4 - 1)) max_reconnect_delay)
    with 16 in B4.
  change (Z.min (base_reconnect_delay * 2 ^ (5 - 1)) max_reconnect_delay)
    with 32 in B5.
  change (Z.min (base_reconnect_delay * 2 ^ (6 - 1)) max_reconnect_delay)
    with 60 in B6.
  change (Z.min (base_reconnect_delay * 2 ^ (7 - 1)) max_reconnect_delay)
    with 60 in B7.
  change (Z.min (base_reconnect_delay * 2 ^ (8 - 1)) max_reconnect_delay)
    with 60 in B8.
  change (Z.min (base_reconnect_delay * 2 ^ (9 - 1)) max_reconnect_delay)
    with 60 in B9.
  change (Z.min (base_reconnect_delay * 2 ^ (10 - 1)) max_reconnect_delay)
    with 60 in B10.
  unfold total. cbn [backoff_sleeps fold_right].
  change (0 + 1) with 1. change (1 + 1) with 2. change (2 + 1) with 3.
  change (3 + 1) with 4. change (4 + 1) with 5. change (5 + 1) with 6.
  change (6 + 1) with 7. change (7 + 1) with 8. change (8 + 1) with 9.
  change (9 + 1) with 10.
  unfold inject_Z in *. lra.
Qed.

(** ** The polling cycle, continued *)

Lemma expected_run_app (l1 l2 : list live_fixture)
  (t : dict (pyval * pyval)) :
  expected_run (l1 ++ l2) t
  = expected_run l1 t
    ++ expected_run l2 (fold_left (fun t g => expected_table g t) l1 t).
Proof.
  revert t. induction l1 as [|g l1 IH]; intros t; simpl; [reflexivity|].
  now rewrite IH, app_assoc.
Qed.

Lemma poll_for_goals_fixtures (self : HybridGoalListener) (w : W)
  (data : pyval) (vs : list pyval) :
  get data "response" (PList []) = Ok (PList vs) ->
  _poll_for_goals self w (HttpResponse 200 (Ok data))
  = let '(self1, w1, log, r) := poll_loop self w vs in
    (self1, w1, log, try_except r (fun _ => Ok tt)).
Proof.
  intros Hresp. unfold _poll_for_goals, poll_for_goals_body.
  simpl negb. cbv iota. cbn [bind]. rewrite Hresp. cbn [bind py_iter].
  reflexivity.
Qed.

(** A fixture listed once in a well-formed response: the events made for
    it and its snapshot afterwards are those of its own pass. *)
Lemma poll_cycle_listed_once (self : HybridGoalListener) (w : W)
  (data : pyval) (vs : list pyval) (before after : list live_fixture)
  (f : live_fixture) :
  get data "response" (PList []) = Ok (PList vs) ->
  Forall2 describes vs (before ++ f :: after) ->
  int_scores (previous_scores self) ->
  ~ In (lf_id f) (map lf_id before) ->
  ~ In (lf_id f) (map lf_id after) ->
  exists self' w' log,
    _poll_for_goals self w (HttpResponse 200 (Ok data)) = (self', w', log, Ok tt)
    /\ filter (about (lf_id f)) (map fst log)
       = expected_events f (previous_scores self)
    /\ dict_get (previous_scores self') (PInt (lf_id f))
       = dict_get (expected_table f (previous_scores self)) (PInt (lf_id f)).
Proof.
  intros Hresp Hvs Hint Hb Ha.
  destruct (poll_loop_describes vs (before ++ f :: after) Hvs self w Hint)
    as [self' [w' [log [Hp [Ht [Hl Hd]]]]]].
  exists self', w', log.
  destruct (expected_run_others before (lf_id f) Hb (previous_scores self) Hint)
    as [Heb Hgb].
  set (t1 := fold_left (fun t g => expected_table g t) before
               (previous_scores self)) in *.
  assert (Hint1 : int_scores t1) by now apply fold_expected_int_scores.
  destruct (expected_run_others after (lf_id f) Ha (expected_table f t1)
              (expected_table_int_scores f t1 Hint1)) as [Hea Hga].
  split; [|split].
  - rewrite (poll_for_goals_fixtures self w data vs Hresp), Hp. reflexivity.
  - rewrite Hl, expected_run_app, filter_app, Heb. fold t1.
    simpl expected_run.
    rewrite filter_app, Hea, expected_events_about, Z.eqb_refl, app_nil_r.
    unfold expected_events. rewrite Hgb. reflexivity.
  - rewrite Ht, fold_left_app. fold t1. simpl fold_left. rewrite Hga.
    unfold expected_table.
    destruct (existsb (Z.eqb (lf_league_id f)) SUPPORTED_LEAGUES);
      [|exact Hgb].
    now rewrite !dict_get_set_same.
Qed.

Lemma supported_existsb (z : Z) :
  existsb (Z.eqb z) SUPPORTED_LEAGUES = true <-> In z SUPPORTED_LEAGUES.
Proof.
  rewrite existsb_exists. split.
  - intros [x [Hx Hz]]. apply Z.eqb_eq in Hz. now subst.
  - intros H. exists z. split; [assumption | apply Z.eqb_refl].
Qed.

(** X11. A poll that fails is silent.  When the request raises, when the
    status is not 200 (the body is then not even parsed), when the body is
    not JSON, or when it is JSON but not an object, [_poll_for_goals]
    returns normally with no snapshot changed and no callback called; an
    object without a [response] member is a response without fixtures.
    And whatever the response, [_poll_for_goals] returns normally. *)
Theorem failed_poll_changes_nothing :
  forall (self : HybridGoalListener) (w : W),
    (forall e, _poll_for_goals self w (HttpFails e) = (self, w, [], Ok tt))
    /\ (forall status_code json,
          status_code <> 200 ->
          _poll_for_goals self w (HttpResponse status_code json)
          = (self, w, [], Ok tt))
    /\ (forall e,
          _poll_for_goals self w (HttpResponse 200 (Raise e))
          = (self, w, [], Ok tt))
    /\ (forall data,
          (forall kvs, data <> PDict kvs) \/ lacks data "response" ->
          _poll_for_goals self w (HttpResponse 200 (Ok data))
          = (self, w, [], Ok tt))
    /\ (forall http, snd (_poll_for_goals self w http) = Ok tt).
Proof.
  intros self w. split; [|split; [|split; [|split]]].
  - reflexivity.
  - intros status_code json Hs. unfold _poll_for_goals, poll_for_goals_body.
    destruct (Z.eqb_spec status_code 200); [contradiction | reflexivity].
  - reflexivity.
  - intros data [Hd|[kvs [-> Hk]]].
    + destruct data; try reflexivity. now destruct (Hd kvs).
    + unfold _poll_for_goals, poll_for_goals_body. simpl. now rewrite Hk.
  - intros http. unfold _poll_for_goals.
    destruct (poll_for_goals_body self w http) as [[[self1 w1] log] [u|e]];
      [now destruct u | reflexivity].
Qed.


(** X13. Polling skips the leagues the listener does not support.  In a
    poll cycle whose response is well formed, a fixture of another league
    that is listed once causes no event and its entry of the snapshot table
    is left as it was: absent if it was absent, the old scores if there
    were any, however the scores have moved. *)
Theorem polling_skips_unsupported_league :
  forall (self : HybridGoalListener) (w : W) (data : pyval) (vs : list pyval)
         (before after : list live_fixture) (f : live_fixture),
    get data "response" (PList []) = Ok (PList vs) ->
    Forall2 describes vs (before ++ f :: after) ->
    int_scores (previous_scores self) ->
    ~ In (lf_id f) (map lf_id before) ->
    ~ In (lf_id f) (map lf_id after) ->
    ~ In (lf_league_id f) SUPPORTED_LEAGUES ->
    exists self' w' log,
      _poll_for_goals self w (HttpResponse 200 (Ok data)) = (self', w', log, Ok tt)
      /\ filter (about (lf_id f)) (map fst log) = []
      /\ dict_get (previous_scores self') (PInt (lf_id f))
         = dict_get (previous_scores self) (PInt (lf_id f)).
Proof.
  intros self w data vs before after f Hresp Hvs Hint Hb Ha Hleague.
  destruct (poll_cycle_listed_once self w data vs before after f
              Hresp Hvs Hint Hb Ha) as [self' [w' [log [Hp [He Ht]]]]].
  exists self', w', log.
  assert (Hno : existsb (Z.eqb (lf_league_id f)) SUPPORTED_LEAGUES = false).
  { destruct (existsb (Z.eqb (lf_league_id f)) SUPPORTED_LEAGUES) eqn:E;
      [|reflexivity].
    apply supported_existsb in E. contradiction. }
  split; [exact Hp|]. split.
  - rewrite He. unfold expected_events. now rewrite Hno.
  - rewrite Ht. unfold expected_table. now rewrite Hno.
Qed.

Lemma poll_loop_app (vs rest : list pyval) (self : HybridGoalListener)
  (w : W) :
  poll_loop self w (vs ++ rest)
  = let '(self1, w1, log1, r) := poll_loop self w vs in
    match r with
    | Raise e => (self1, w1, log1, Raise e)
    | Ok _ =>
        let '(self2, w2, log2, r2) := poll_loop self1 w1 rest in
        (self2, w2, log1 ++ log2, r2)
    end.
Proof.
  revert self w. induction vs as [|v vs IH]; intros self w; simpl.
  - now destruct (poll_loop self w rest) as [[[self2 w2] log2] r2].
  - destruct (poll_fixture self w v) as [[[self1 w1] log1] [u|e]];
      [|reflexivity].
    rewrite IH.
    destruct (poll_loop self1 w1 vs) as [[[self2 w2] log2] [u2|e2]];
      [|reflexivity].
    destruct (poll_loop self2 w2 rest) as [[[self3 w3] log3] r3].
    now rewrite app_assoc.
Qed.

(** X14. One fixture that cannot be processed ends the cycle.  When the
    pass over a fixture of the response raises (a missing member, a score
    that cannot be compared), the exception is caught outside the loop:
    the fixtures listed before it have been processed, the snapshot of the
    failing fixture is not updated although events may have been sent for
    it, and the fixtures listed after it are neither compared nor stored in
    this cycle. *)
Theorem failing_fixture_ends_cycle :
  forall (self : HybridGoalListener) (w : W) (data : pyval)
         (vs : list pyval) (bad : pyval) (rest : list pyval)
         (self1 : HybridGoalListener) (w1 : W) (log1 : list dispatch),
    get data "response" (PList []) = Ok (PList (vs ++ bad :: rest)) ->
    poll_loop self w vs = (self1, w1, log1, Ok tt) ->
    is_ok (snd (poll_fixture self1 w1 bad)) = false ->
    exists self2 w2 log2,
      fst (poll_fixture self1 w1 bad) = (self2, w2, log2)
      /\ _poll_for_goals self w (HttpResponse 200 (Ok data))
         = (self2, w2, log1 ++ log2, Ok tt)
      /\ previous_scores self2 = previous_scores self1.
Proof.
  intros self w data vs bad rest self1 w1 log1 Hresp Hvs Hbad.
  pose proof (poll_fixture_frame self1 w1 bad) as [_ [_ [_ [_ Hprev]]]].
  specialize (Hprev Hbad).
  rewrite (poll_for_goals_fixtures self w data _ Hresp), poll_loop_app, Hvs.
  simpl poll_loop.
  destruct (poll_fixture self1 w1 bad) as [[[self2 w2] log2] [u|e]];
    [discriminate|].
  exists self2, w2, log2. simpl in Hprev. repeat split. exact Hprev.
Qed.








(** ** A goal whose event cannot be built *)

(** X16. A goal whose event cannot be built is lost for good.  The key is
    recorded before the event is built: when the payload of a fresh goal of
    a supported league has a score part that is not an object, the handler
    records the key, calls no callback and returns normally; and any later
    payload with the same key, however well formed, is dropped as a
    duplicate. *)
Theorem unbuildable_goal_burns_its_key :
  forall (self : WebSocketGoalListener) (w : W) (data : pyval) (k : string)
         (p : goal_parts),
    goal_key data = Some k ->
    read_goal_parts data = Ok p ->
    (forall skvs, gp_score p <> PDict skvs) ->
    set_mem k (seen_goals self) = false ->
    set_len (seen_goals self) < 1000 ->
    exists self1,
      _handle_goal_event self w data = (self1, w, [], Ok tt)
      /\ set_mem k (seen_goals self1) = true
      /\ forall w' data',
           goal_key data' = Some k ->
           _handle_goal_event self1 w' data' = (self1, w', [], Ok tt).
Proof.
  intros self w data k p Hk Hp Hscore Hfresh Hlen.
  destruct (handle_goal_event_fresh self w data k Hk Hfresh) as [p' [Hp' Hc]].
  assert (p' = p) by congruence. subst p'.
  destruct Hc as [[ev [ds [Hmk _]]] | [_ Hh]].
  { destruct (make_goal_event_inv p ev Hmk)
      as [fkvs [lkvs [gkvs [skvs [_ [_ [_ [Hs _]]]]]]]].
    now destruct (Hscore skvs). }
  eexists. split; [exact Hh|].
  assert (Hin : set_mem k
                  (seen_goals
                     (with_seen_goals self
                        (prune_seen (set_add (seen_goals self) k)))) = true).
  { simpl. pose proof Hfresh as Hnot. apply set_mem_false in Hnot.
    pose proof (set_len_add (seen_goals self) k Hnot) as Hadd.
    rewrite prune_seen_small by lia.
    apply set_mem_In, set_add_spec. now left. }
  split; [exact Hin|].
  intros w' data' Hk'.
  now apply handle_goal_event_duplicate with (k := k).
Qed.

(** ** The dedup key tells goals apart *)

Fixpoint has_underscore (s : string) : bool :=
  match s with
  | EmptyString => false
  | String c rest => Ascii.eqb c "_" || has_underscore rest
  end.

Lemma string_of_uint_no_underscore (d : Decimal.uint) :
  has_underscore (NilEmpty.string_of_uint d) = false.
Proof. induction d; simpl; auto. Qed.

Lemma str_of_Z_no_underscore (z : Z) : has_underscore (str_of_Z z) = false.
Proof.
  unfold str_of_Z.
  destruct (Z.to_int z) as [d|d]; simpl;
    destruct d; simpl; try reflexivity; apply string_of_uint_no_underscore.
Qed.

Lemma str_of_Z_inj (z z' : Z) : str_of_Z z = str_of_Z z' -> z = z'.
Proof.
  unfold str_of_Z. intros H.
  assert (Hn : forall x, Z.to_int x <> Decimal.Pos Decimal.Nil
                         /\ Z.to_int x <> Decimal.Neg Decimal.Nil).
  { intros [|q|q]; simpl; split; try discriminate;
      intros [= Hq]; now apply DecimalPos.Unsigned.to_uint_nonnil in Hq. }
  apply (f_equal NilZero.int_of_string) in H.
  rewrite !NilZero.isi in H by apply Hn.
  injection H as H. apply (f_equal Z.of_int) in H.
  now rewrite !DecimalZ.of_to in H.
Qed.

Lemma split_at_underscore (a a' r r' : string) :
  has_underscore a = false -> has_underscore a' = false ->
  (a ++ String "_" r)%string = (a' ++ String "_" r')%string ->
  a = a' /\ r = r'.
Proof.
  revert a'. induction a as [|c a IH]; intros [|c' a']; simpl.
  - intros _ _ [= ->]. now split.
  - intros _ Hc' [= <- _]. discriminate.
  - intros Hc _ [= -> _]. discriminate.
  - intros Hc Hc' [= -> H].
    apply orb_false_elim in Hc. apply orb_false_elim in Hc'.
    destruct (IH a' (proj2 Hc) (proj2 Hc') H) as [-> ->]. now split.
Qed.

(** X17. The dedup key separates goals that differ.  For goal payloads
    with an integer fixture id, an integer minute and a player name that is
    a string (each possibly the default of an absent field), two payloads
    have the same key only if they have the same fixture id, the same minute
    and the same player, also when the player's name has underscores in it:
    no two such goals are confused by the de-duplication. *)
Theorem dedup_key_tells_goals_apart :
  forall (f f' m m' : Z) (s s' : string) (goal goal' : pyval) (k : string),
    get goal "minute" (PInt 0) = Ok (PInt m) ->
    get goal "player" (PStr "unknown") = Ok (PStr s) ->
    get goal' "minute" (PInt 0) = Ok (PInt m') ->
    get goal' "player" (PStr "unknown") = Ok (PStr s') ->
    goal_id_of (PInt f) goal = Ok k ->
    goal_id_of (PInt f') goal' = Ok k ->
    f = f' /\ m = m' /\ s = s'.
Proof.
  intros f f' m m' s s' goal goal' k Hm Hs Hm' Hs'.
  unfold goal_id_of. rewrite Hm, Hs, Hm', Hs'. simpl.
  intros [= <-] [= H].
  apply split_at_underscore in H; try apply str_of_Z_no_underscore.
  destruct H as [Hf H].
  apply split_at_underscore in H; try apply str_of_Z_no_underscore.
  destruct H as [Hmm Hss].
  apply str_of_Z_inj in Hf. apply str_of_Z_inj in Hmm.
  repeat split; congruence.
Qed.

(** ** What reaches the consumers *)

(** The consumers' state after the fan-outs of [log], each event going to
    every callback in registration order. *)
Definition replay (callbacks : list callback) (log : list dispatch) (w : W)
  : W :=
  fold_left (fun w' d => called_in_order callbacks (fst d) w') log w.

(** The handler took the consumers from [w] to [w'] by the fan-outs of
    [log] and by nothing else, and each fan-out called every callback. *)
Definition faithful (callbacks : list callback) (w w' : W)
  (log : list dispatch) : Prop :=
  w' = replay callbacks log w
  /\ Forall (fun d => map fst (snd d) = map cb_name callbacks) log.

Lemma faithful_nil (callbacks : list callback) (w : W) :
  faithful callbacks w w [].
Proof. split; [reflexivity | constructor]. Qed.

Lemma faithful_app (callbacks : list callback) (w w1 w2 : W)
  (log1 log2 : list dispatch) :
  faithful callbacks w w1 log1 -> faithful callbacks w1 w2 log2 ->
  faithful callbacks w w2 (log1 ++ log2).
Proof.
  intros [-> H1] [-> H2]. split.
  - unfold replay. now rewrite fold_left_app.
  - apply Forall_app. now split.
Qed.

Lemma faithful_one (callbacks : list callback) (ev : GoalEventWS)
  (ds : list delivery) (w : W) :
  map fst ds = map cb_name callbacks ->
  faithful callbacks w (called_in_order callbacks ev w) [(ev, ds)].
Proof. intros H. split; [reflexivity | now repeat constructor]. Qed.

Lemma handle_goal_event_faithful (self : WebSocketGoalListener) (w : W)
  (data : pyval) :
  faithful (goal_callbacks self) w
    (snd (fst (fst (_handle_goal_event self w data))))
    (snd (fst (_handle_goal_event self w data))).
Proof.
  destruct (goal_key data) as [k|] eqn:Ek.
  - destruct (set_mem k (seen_goals self)) eqn:Em.
    + rewrite (handle_goal_event_duplicate self w data k Ek Em).
      apply faithful_nil.
    + destruct (handle_goal_event_fresh self w data k Ek Em) as [p [_ Hc]].
      destruct Hc as [[ev [ds [_ [Hh Hd]]]] | [_ Hh]]; rewrite Hh; simpl.
      * now apply faithful_one.
      * apply faithful_nil.
  - rewrite (handle_goal_event_no_key self w data Ek). apply faithful_nil.
Qed.

Lemma process_message_faithful (self : WebSocketGoalListener) (w : W)
  (message : string) :
  faithful (goal_callbacks self) w
    (snd (fst (fst (_process_message self w message))))
    (snd (fst (_process_message self w message))).
Proof.
  unfold _process_message, process_message_body.
  destruct (json_loads message) as [data|e]; [|apply faithful_nil].
  destruct (get data "type" (PStr "")) as [msg_type|e]; [|apply faithful_nil].
  destruct (is_str msg_type "goal").
  { pose proof (handle_goal_event_faithful self w data) as H.
    destruct (_handle_goal_event self w data) as [[[self1 w1] log] r].
    exact H. }
  destruct (is_str msg_type "fixture_update").
  { destruct (_handle_fixture_update self data) as [self1 r].
    apply faithful_nil. }
  destruct (is_str msg_type "heartbeat"); [apply faithful_nil|].
  destruct (is_str msg_type "error"); apply faithful_nil.
Qed.

Lemma process_messages_faithful (messages : list string)
  (self : WebSocketGoalListener) (w : W) :
  faithful (goal_callbacks self) w
    (snd (fst (fst (process_messages self w messages))))
    (snd (fst (process_messages self w messages))).
Proof.
  revert self w. induction messages as [|m rest IH]; intros self w; simpl.
  - apply faithful_nil.
  - pose proof (process_message_faithful self w m) as H1.
    pose proof (process_message_frame self w m) as [[_ [Hc _]] _].
    pose proof (process_message_ok self w m) as Hok.
    destruct (_process_message self w m) as [[[self1 w1] log1] r].
    simpl in H1, Hc, Hok. subst r.
    specialize (IH self1 w1). rewrite Hc in IH.
    destruct (process_messages self1 w1 rest) as [[[self2 w2] log2] r2].
    simpl in *. now apply faithful_app with w1.
Qed.

Lemma connect_and_listen_faithful (self : WebSocketGoalListener) (w : W)
  (s : session) :
  faithful (goal_callbacks self) w
    (snd (fst (fst (_connect_and_listen self w s))))
    (snd (fst (_connect_and_listen self w s))).
Proof.
  destruct s as [e|messages ending]; simpl; [apply faithful_nil|].
  pose proof (process_messages_faithful messages
                (with_reconnect_attempts self 0) w) as H.
  pose proof (process_messages_frame messages
                (with_reconnect_attempts self 0) w) as [_ Hok].
  destruct (process_messages (with_reconnect_attempts self 0) w messages)
    as [[[self1 w1] log] r].
  simpl in *. subst r. now destruct ending.
Qed.

Lemma faithful_run_after (callbacks : list callback) (w w1 : W)
  (log1 : list dispatch) (sleeps : list Q) (rn : run) :
  faithful callbacks w w1 log1 ->
  faithful callbacks w1 (run_world rn) (run_log rn) ->
  faithful callbacks w (run_world (run_after log1 sleeps rn))
    (run_log (run_after log1 sleeps rn)).
Proof. intros H1 H2. simpl. now apply faithful_app with w1. Qed.

Lemma start_loop_faithful (trace : list (session * Q))
  (self : WebSocketGoalListener) (w : W) :
  faithful (goal_callbacks self) w
    (run_world (start_loop self w trace)) (run_log (start_loop self w trace)).
Proof.
  revert self w. induction trace as [|[s r] rest IH]; intros self w.
  - apply faithful_nil.
  - rewrite start_loop_cons.
    destruct (running self); [|apply faithful_nil].
    pose proof (connect_and_listen_faithful self w s) as H1.
    pose proof (connect_and_listen_callbacks self w s) as Hc.
    destruct (_connect_and_listen self w s) as [[[self1 w1] log1] res].
    simpl in H1, Hc. destruct res as [u|e].
    + apply faithful_run_after with w1; [exact H1|].
      rewrite <- Hc. apply IH.
    + destruct (running self1).
      * unfold _handle_reconnection. simpl reconnect_attempts.
        destruct (max_reconnect_attempts <? reconnect_attempts self1 + 1);
          (apply faithful_run_after with w1; [exact H1|]);
          match goal with
          | |- faithful _ _ (run_world (start_loop ?s _ _)) _ =>
              pose proof (IH s w1) as H2; simpl goal_callbacks in H2;
              rewrite Hc in H2; exact H2
          end.
      * apply faithful_run_after with w1; [exact H1|].
        rewrite <- Hc. apply IH.
Qed.

Lemma emit_polling_goal_faithful (self : HybridGoalListener) (w : W)
  (fixture : pyval) (side : string) :
  faithful (hy_goal_callbacks self) w
    (fst (fst (_emit_polling_goal self w fixture side)))
    (snd (fst (_emit_polling_goal self w fixture side))).
Proof.
  unfold _emit_polling_goal.
  match goal with |- context [match ?m with Ok _ => _ | Raise _ => _ end] =>
    destruct m as [ev|e] end; [|apply faithful_nil].
  destruct (notify_goal_callbacks_spec (hy_goal_callbacks self) ev w)
    as [ds [Hn Hd]].
  rewrite Hn. simpl. now apply faithful_one.
Qed.

Lemma detect_goal_faithful (self : HybridGoalListener) (w : W)
  (fixture : pyval) (side : string) (current prev : pyval) :
  faithful (hy_goal_callbacks self) w
    (fst (fst (detect_goal self w fixture side current prev)))
    (snd (fst (detect_goal self w fixture side current prev))).
Proof.
  unfold detect_goal. destruct (py_gt current prev) as [[|]|e];
    [apply emit_polling_goal_faithful | apply faithful_nil | apply faithful_nil].
Qed.

Lemma poll_fixture_faithful (self : HybridGoalListener) (w : W)
  (fixture : pyval) :
  faithful (hy_goal_callbacks self) w
    (snd (fst (fst (poll_fixture self w fixture))))
    (snd (fst (poll_fixture self w fixture))).
Proof.
  unfold poll_fixture.
  match goal with |- context [match ?m with Ok _ => _ | Raise _ => _ end] =>
    destruct m as [[fid [|]]|e] end; try apply faithful_nil.
  match goal with |- context [match ?m with Ok _ => _ | Raise _ => _ end] =>
    destruct m as [[hs aws]|e] end; try apply faithful_nil.
  destruct (dict_get (previous_scores self) fid) as [[ph pa]|];
    [|apply faithful_nil].
  pose proof (detect_goal_faithful self w fixture "home" hs ph) as H1.
  destruct (detect_goal self w fixture "home" hs ph) as [[w1 log1] r1].
  simpl in H1. destruct r1 as [u|e]; [|exact H1].
  pose proof (detect_goal_faithful self w1 fixture "away" aws pa) as H2.
  destruct (detect_goal self w1 fixture "away" aws pa) as [[w2 log2] r2].
  simpl in H2. destruct r2 as [u'|e]; simpl; now apply faithful_app with w1.
Qed.

Lemma poll_loop_faithful (fixtures : list pyval) (self : HybridGoalListener)
  (w : W) :
  faithful (hy_goal_callbacks self) w
    (snd (fst (fst (poll_loop self w fixtures))))
    (snd (fst (poll_loop self w fixtures))).
Proof.
  revert self w. induction fixtures as [|f rest IH]; intros self w; simpl.
  - apply faithful_nil.
  - pose proof (poll_fixture_faithful self w f) as H1.
    pose proof (poll_fixture_frame self w f) as [_ [Hc _]].
    destruct (poll_fixture self w f) as [[[self1 w1] log1] r].
    simpl in H1, Hc. destruct r as [u|e]; [|exact H1].
    specialize (IH self1 w1). rewrite Hc in IH.
    destruct (poll_loop self1 w1 rest) as [[[self2 w2] log2] r2].
    simpl in *. now apply faithful_app with w1.
Qed.

Lemma poll_for_goals_faithful (self : HybridGoalListener) (w : W)
  (http : http_outcome) :
  faithful (hy_goal_callbacks self) w
    (snd (fst (fst (_poll_for_goals self w http))))
    (snd (fst (_poll_for_goals self w http))).
Proof.
  unfold _poll_for_goals, poll_for_goals_body.
  destruct http as [e|status_code json]; [apply faithful_nil|].
  destruct (negb (status_code =? 200)); [apply faithful_nil|].
  match goal with |- context [match ?m with Ok _ => _ | Raise _ => _ end] =>
    destruct m as [fixtures|e] end; [|apply faithful_nil].
  pose proof (poll_loop_faithful fixtures self w) as H.
  destruct (poll_loop self w fixtures) as [[[self1 w1] log] r]. exact H.
Qed.

Lemma health_monitor_faithful (cycles : list http_outcome)
  (self : HybridGoalListener) (w : W) :
  faithful (hy_goal_callbacks self) w
    (snd (fst (fst (_health_monitor self w cycles))))
    (snd (fst (_health_monitor self w cycles))).
Proof.
  revert self w. induction cycles as [|http rest IH]; intros self w; simpl.
  - apply faithful_nil.
  - destruct (hy_running self); [|apply faithful_nil].
    unfold health_monitor_cycle.
    destruct (use_polling_fallback self).
    + pose proof (poll_for_goals_faithful self w http) as H1.
      pose proof (poll_for_goals_frame self w http) as [_ [Hc _]].
      destruct (_poll_for_goals self w http) as [[[self1 w1] log] r].
      simpl in H1, Hc. specialize (IH self1 w1). rewrite Hc in IH.
      destruct (_health_monitor self1 w1 rest) as [[[self2 w2] log2] n].
      simpl in *. now apply faithful_app with w1.
    + specialize (IH self w).
      destruct (_health_monitor self w rest) as [[[self2 w2] log2] n].
      simpl in *. exact IH.
Qed.

(** ** One poll cycle, seen from a fixture *)



End Listener.

(** * The consumer: the trading engine's goal callback

    [backend/engine_unified.py]: [UnifiedTradingEngine._on_goal_event], the
    callback that [UnifiedTradingEngine.start] registers with the hybrid
    listener, so that the consumers' state of the listener is the engine. *)

Section Engine.

Variable py_repr : pyval -> string.
Variable py_list_gt : list pyval -> list pyval -> result bool.
Variable json_loads : string -> result pyval.
Context {PS : PySet}.

(** The two strategies are not among these sources: their states, the
    signal Alpha One returns and the methods the engine calls on them are
    parameters.  A method returns the new state of its strategy also when
    it raises. *)
Variables AlphaOneUnderdog AlphaTwoLateCompression Signal : Type.

(** [alpha_one.on_goal_event(goal)] *)
Variable alpha_one_on_goal_event :
  GoalEventWS -> AlphaOneUnderdog -> AlphaOneUnderdog * result Signal.

(** [if signal:] and [signal.signal_id] *)
Variable signal_truthy : Signal -> bool.
Variable signal_id : Signal -> result pyval.

(** [alpha_two.feed_live_fixture_update(fixture_data)] *)
Variable feed_live_fixture_update :
  pyval -> AlphaTwoLateCompression -> AlphaTwoLateCompression * result unit.

Local Set Default Proof Using "Type".

(** The attributes of the engine that [_on_goal_event] reads or writes; a
    strategy that is disabled is [None]. *)
Record UnifiedTradingEngine : Type := {
  alpha_one : option AlphaOneUnderdog;
  alpha_two : option AlphaTwoLateCompression;
  goals_processed : Z;
  signals_generated : Z
}.

Definition with_alpha_one (self : UnifiedTradingEngine)
  (a : option AlphaOneUnderdog) :=
  {| alpha_one := a;
     alpha_two := alpha_two self;
     goals_processed := goals_processed self;
     signals_generated := signals_generated self |}.

Definition with_alpha_two (self : UnifiedTradingEngine)
  (a : option AlphaTwoLateCompression) :=
  {| alpha_one := alpha_one self;
     alpha_two := a;
     goals_processed := goals_processed self;
     signals_generated := signals_generated self |}.

Definition with_goals_processed (self : UnifiedTradingEngine) (n : Z) :=
  {| alpha_one := alpha_one self;
     alpha_two := alpha_two self;
     goals_processed := n;
     signals_generated := signals_generated self |}.

Definition with_signals_generated (self : UnifiedTradingEngine) (n : Z) :=
  {| alpha_one := alpha_one self;
     alpha_two := alpha_two self;
     goals_processed := goals_processed self;
     signals_generated := n |}.

(** The dict literal fed to Alpha Two, [status] being the value of its
    conditional expression. *)
Definition fixture_data (goal : GoalEventWS) (status : string) : pyval :=
  PDict [("fixture_id", fixture_id goal);
         ("market_id",
          PStr ("fixture_" ++ py_str py_repr (fixture_id goal) ++ "_"
                ++ py_str py_repr (team goal))%string);
         ("question",
          PStr ("Will " ++ py_str py_repr (team goal) ++ " win?")%string);
         ("home_team", home_team goal);
         ("away_team", away_team goal);
         ("home_score", home_score goal);
         ("away_score", away_score goal);
         ("minute", minute goal);
         ("status", PStr status);
         ("yes_price", PFloat 0.5%float);
         ("no_price", PFloat 0.5%float)].

(** [if self.alpha_one: ...] *)
Definition process_with_alpha_one (goal : GoalEventWS)
  (self : UnifiedTradingEngine) : UnifiedTradingEngine * result unit :=
  match alpha_one self with
  | None => (self, Ok tt)
  | Some a =>
      let (a', r) := alpha_one_on_goal_event goal a in
      let self1 := with_alpha_one self (Some a') in
      match r with
      | Raise e => (self1, Raise e)
      | Ok signal =>
          if signal_truthy signal then
            (with_signals_generated self1 (signals_generated self1 + 1),
             _ <- signal_id signal ;; Ok tt)
          else (self1, Ok tt)
      end
  end.

(** [if self.alpha_two: ...] *)
Definition feed_alpha_two (goal : GoalEventWS) (self : UnifiedTradingEngine)
  : UnifiedTradingEngine * result unit :=
  match alpha_two self with
  | None => (self, Ok tt)
  | Some a =>
      match py_gt py_list_gt (minute goal) (PInt 45) with
      | Raise e => (self, Raise e)
      | Ok late =>
          let (a', r) :=
            feed_live_fixture_update
              (fixture_data goal (if late then "2H" else "1H")) a in
          (with_alpha_two self (Some a'), r)
      end
  end.

(** [UnifiedTradingEngine._on_goal_event] *)
Definition _on_goal_event (goal : GoalEventWS) (self : UnifiedTradingEngine)
  : UnifiedTradingEngine * result unit :=
  let self0 := with_goals_processed self (goals_processed self + 1) in
  let (self1, r) := process_with_alpha_one goal self0 in
  match r with
  | Raise e => (self1, Raise e)
  | Ok _ => feed_alpha_two goal self1
  end.

(** The bound method, as the listener holds it. *)
Definition on_goal_event_callback : callback UnifiedTradingEngine :=
  {| cb_name := "_on_goal_event"; cb_call := _on_goal_event |}.

(** The registration made by [UnifiedTradingEngine.start]:
    [if self.goal_listener and self.alpha_one]. *)
Definition start_registration (self : UnifiedTradingEngine)
  (goal_listener : option (HybridGoalListener UnifiedTradingEngine))
  : option (HybridGoalListener UnifiedTradingEngine) :=
  match goal_listener, alpha_one self with
  | Some l, Some _ =>
      Some (hybrid_register_goal_callback UnifiedTradingEngine l
              on_goal_event_callback)
  | _, _ => goal_listener
  end.

(** One call counts one goal and at most one signal, however it ends. *)
Lemma on_goal_event_counts (goal : GoalEventWS) (self : UnifiedTradingEngine) :
  let self' := fst (_on_goal_event goal self) in
  goals_processed self' = goals_processed self + 1
  /\ signals_generated self <= signals_generated self'
     <= signals_generated self + 1.
Proof.
  unfold _on_goal_event, process_with_alpha_one, feed_alpha_two.
  destruct self as [[a1|] [a2|] g s]; simpl;
    repeat match goal with
      | |- context [alpha_one_on_goal_event ?x ?y] =>
          destruct (alpha_one_on_goal_event x y) as [? [?|?]]; simpl
      | |- context [signal_truthy ?x] => destruct (signal_truthy x); simpl
      | |- context [signal_id ?x] => destruct (signal_id x); simpl
      | |- context [py_gt ?f ?x ?y] => destruct (py_gt f x y); simpl
      | |- context [feed_live_fixture_update ?x ?y] =>
          destruct (feed_live_fixture_update x y); simpl
      end; lia.
Qed.

Lemma replay_counts (log : list dispatch) (w : UnifiedTradingEngine) :
  let w' := replay UnifiedTradingEngine [on_goal_event_callback] log w in
  goals_processed w' = goals_processed w + Z.of_nat (List.length log)
  /\ signals_generated w <= signals_generated w'
     <= signals_generated w + Z.of_nat (List.length log).
Proof.
  revert w. induction log as [|d log IH]; intros w.
  - simpl. lia.
  - change (List.length (d :: log)) with (S (List.length log)).
    rewrite Nat2Z.inj_succ.
    pose proof (on_goal_event_counts (fst d) w) as [Hg Hs].
    specialize (IH (fst (_on_goal_event (fst d) w))).
    cbv zeta in *.
    change (replay UnifiedTradingEngine [on_goal_event_callback] (d :: log) w)
      with (replay UnifiedTradingEngine [on_goal_event_callback] log
              (fst (_on_goal_event (fst d) w))).
    destruct IH as [IHg IHs]. split; lia.
Qed.

Lemma replay_nil (W : Type) (log : list dispatch) (w : W) :
  replay W [] log w = w.
Proof. unfold replay. induction log as [|d log IH]; simpl; auto. Qed.

(** X19. The engine counts every goal it is told of.  For a listener that
    holds the engine's callback and no other, after [_run_websocket] on any
    sessions and after any number of cycles of [_health_monitor],
    [goals_processed] has grown by exactly the number of events the
    listener fanned out, also when a strategy raised in some of the calls,
    and [signals_generated] has grown by at most as much and has not
    dropped. *)
Theorem engine_counts_every_delivery :
  forall (self : HybridGoalListener UnifiedTradingEngine)
         (w : UnifiedTradingEngine),
    goal_callbacks _ (ws_listener _ self) = [on_goal_event_callback] ->
    hy_goal_callbacks _ self = [on_goal_event_callback] ->
    (forall trace,
        let rn := snd (_run_websocket py_repr json_loads _ self w trace) in
        let n := Z.of_nat (List.length (run_log _ rn)) in
        goals_processed (run_world _ rn) = goals_processed w + n
        /\ signals_generated w <= signals_generated (run_world _ rn)
           <= signals_generated w + n)
    /\ (forall cycles,
          let out := _health_monitor py_list_gt _ self w cycles in
          let n := Z.of_nat (List.length (snd (fst out))) in
          goals_processed (snd (fst (fst out))) = goals_processed w + n
          /\ signals_generated w <= signals_generated (snd (fst (fst out)))
             <= signals_generated w + n).
Proof.
  intros self w Hws Hhy. split.
  - intros trace.
    assert (Hrn : snd (_run_websocket py_repr json_loads _ self w trace)
                  = start py_repr json_loads _ (ws_listener _ self) w trace).
    { unfold _run_websocket.
      now destruct (run_status _ (start py_repr json_loads _
                                    (ws_listener _ self) w trace)). }
    rewrite Hrn.
    destruct (start_loop_faithful py_repr json_loads _ trace
                (with_running _ (ws_listener _ self) true) w) as [Hw _].
    simpl goal_callbacks in Hw. rewrite Hws in Hw.
    unfold start. cbv zeta. rewrite Hw at 1 2 3. apply replay_counts.
  - intros cycles.
    destruct (health_monitor_faithful py_list_gt _ cycles self w) as [Hw _].
    rewrite Hhy in Hw. cbv zeta. rewrite Hw at 1 2 3. apply replay_counts.
Qed.

(** X20. A goal without a numeric minute never reaches Alpha Two.  When
    the minute of the event is not a number (null, or a string such as
    ["45+2"]; the listener copies what the provider sent), the comparison
    [goal.minute > 45] raises: the goal has been counted and Alpha One has
    seen it, but Alpha Two is not fed and, if it is enabled, the callback
    ends with an exception. *)
Theorem non_numeric_minute_skips_alpha_two :
  forall (goal : GoalEventWS) (self : UnifiedTradingEngine),
    num (minute goal) = None ->
    let out := _on_goal_event goal self in
    alpha_two (fst out) = alpha_two self
    /\ goals_processed (fst out) = goals_processed self + 1
    /\ (alpha_two self <> None -> is_ok (snd out) = false).
Proof.
  intros goal self Hnum out.
  assert (Hgt : py_gt py_list_gt (minute goal) (PInt 45) = Raise TypeError).
  { unfold py_gt. rewrite Hnum. now destruct (minute goal). }
  split; [|split; [apply on_goal_event_counts|]]; unfold out;
    unfold _on_goal_event, process_with_alpha_one, feed_alpha_two;
    rewrite Hgt; destruct self as [[a1|] [a2|] g s]; simpl;
    repeat match goal with
      | |- context [alpha_one_on_goal_event ?x ?y] =>
          destruct (alpha_one_on_goal_event x y) as [? [?|?]]; simpl
      | |- context [signal_truthy ?x] => destruct (signal_truthy x); simpl
      | |- context [signal_id ?x] => destruct (signal_id x); simpl
      end; try reflexivity; try congruence.
Qed.

(** X21. Without Alpha One the engine hears of no goal.  [start] registers
    the callback only if Alpha One is enabled, and the callback is what
    feeds Alpha Two: with Alpha One disabled, a listener without callbacks
    is left without callbacks, and nothing it receives on the stream or by
    polling changes the engine, Alpha Two included, whether or not Alpha
    Two is enabled. *)
Theorem goal_events_need_alpha_one :
  forall (self : UnifiedTradingEngine)
         (l : HybridGoalListener UnifiedTradingEngine),
    alpha_one self = None ->
    goal_callbacks _ (ws_listener _ l) = [] ->
    hy_goal_callbacks _ l = [] ->
    start_registration self (Some l) = Some l
    /\ (forall w trace,
          run_world _ (snd (_run_websocket py_repr json_loads _ l w trace)) = w)
    /\ (forall w cycles,
          snd (fst (fst (_health_monitor py_list_gt _ l w cycles))) = w).
Proof.
  intros self l Hnone Hws Hhy. split; [|split].
  - unfold start_registration. now rewrite Hnone.
  - intros w trace.
    assert (Hrn : snd (_run_websocket py_repr json_loads _ l w trace)
                  = start py_repr json_loads _ (ws_listener _ l) w trace).
    { unfold _run_websocket.
      now destruct (run_status _ (start py_repr json_loads _
                                    (ws_listener _ l) w trace)). }
    rewrite Hrn.
    destruct (start_loop_faithful py_repr json_loads _ trace
                (with_running _ (ws_listener _ l) true) w) as [Hw _].
    simpl goal_callbacks in Hw. rewrite Hws in Hw.
    unfold start. rewrite Hw. apply replay_nil.
  - intros w cycles.
    destruct (health_monitor_faithful py_list_gt _ cycles l w) as [Hw _].
    rewrite Hhy in Hw. rewrite Hw. apply replay_nil.
Qed.

End Engine.

(** ** Two implementations of the set

    A set whose iteration order is given by where a new key is placed among
    the keys already held. *)

Section Placement.

Variable place : string -> list string -> list string.
Hypothesis place_perm : forall k l, Permutation (k :: l) (place k l).

Definition placed : Type := { l : list string | NoDup l }.

Definition placed_empty : placed := exist _ [] (NoDup_nil string).

Lemma place_NoDup (k : string) (l : list string) :
  NoDup l -> ~ In k l -> NoDup (place k l).
Proof.
  intros Hl Hk. apply (Permutation_NoDup (place_perm k l)).
  now constructor.
Qed.

Lemma not_mem_not_In (k : string) (l : list string) :
  existsb (String.eqb k) l = false -> ~ In k l.
Proof.
  intros H Hin. assert (E : existsb (String.eqb k) l = true).
  { apply existsb_exists. exists k. split; [assumption | apply String.eqb_refl]. }
  congruence.
Qed.

Definition placed_add (s : placed) (k : string) : placed :=
  (if existsb (String.eqb k) (proj1_sig s) as b
      return (existsb (String.eqb k) (proj1_sig s) = b -> placed)
   then fun _ => s
   else fun H =>
     exist _ (place k (proj1_sig s))
       (place_NoDup k _ (proj2_sig s) (not_mem_not_In k _ H))) eq_refl.

Definition placed_of_list (l : list string) : placed :=
  fold_left placed_add l placed_empty.

Lemma placed_add_spec (s : placed) (k x : string) :
  In x (proj1_sig (placed_add s k)) <-> x = k \/ In x (proj1_sig s).
Proof.
  unfold placed_add.
  generalize (@eq_refl bool (existsb (String.eqb k) (proj1_sig s))).
  generalize (not_mem_not_In k (proj1_sig s)).
  destruct (existsb (String.eqb k) (proj1_sig s)) eqn:E; intros Hn He.
  - apply existsb_exists in E. destruct E as [y [Hy Hky]].
    apply String.eqb_eq in Hky. subst y.
    split; [now right | intros [->|H]; assumption].
  - simpl. split.
    + intros H. apply (Permutation_in _ (Permutation_sym (place_perm k _))) in H.
      destruct H as [->|H]; [now left | now right].
    + intros H. apply (Permutation_in _ (place_perm k _)).
      destruct H as [->|H]; [now left | now right].
Qed.

Lemma placed_fold_spec (l : list string) (s : placed) (x : string) :
  In x (proj1_sig (fold_left placed_add l s)) <-> In x l \/ In x (proj1_sig s).
Proof.
  revert s. induction l as [|k rest IH]; intros s; simpl.
  - tauto.
  - rewrite IH, placed_add_spec. intuition congruence.
Qed.

Lemma placed_of_list_spec (l : list string) (x : string) :
  In x (proj1_sig (placed_of_list l)) <-> In x l.
Proof. unfold placed_of_list. rewrite placed_fold_spec. simpl. tauto. Qed.

Definition placement_set : PySet :=
  {| pyset := placed;
     set_empty := placed_empty;
     set_add := placed_add;
     set_of_list := placed_of_list;
     set_to_list := @proj1_sig _ _;
     set_to_list_NoDup := @proj2_sig _ _;
     set_empty_spec := eq_refl;
     set_add_spec := placed_add_spec;
     set_of_list_spec := placed_of_list_spec |}.

End Placement.

(** A set iterated in insertion order (the order the clean-up of
    [seen_goals] hopes for). *)
Definition place_last (k : string) (l : list string) : list string := l ++ [k].

Lemma place_last_perm (k : string) (l : list string) :
  Permutation (k :: l) (place_last k l).
Proof. apply Permutation_cons_append. Qed.

Definition insertion_set : PySet := placement_set place_last place_last_perm.

(** A set iterated in an order fixed by the keys themselves, as a hash
    table does: here the keys in increasing order. *)
Fixpoint place_by_key (k : string) (l : list string) : list string :=
  match l with
  | [] => [k]
  | x :: rest => if String.leb k x then k :: l else x :: place_by_key k rest
  end.

Lemma place_by_key_perm (k : string) (l : list string) :
  Permutation (k :: l) (place_by_key k l).
Proof.
  induction l as [|x rest IH]; simpl.
  - apply Permutation_refl.
  - destruct (String.leb k x); [apply Permutation_refl|].
    apply perm_trans with (x :: k :: rest); [apply perm_swap|].
    now apply perm_skip.
Qed.

Definition keyed_set : PySet := placement_set place_by_key place_by_key_perm.

(** ** Concrete runs *)

Module Scenario.

(** [repr] is never reached below: every formatted value is an integer or
    a string. *)
Definition repr (_ : pyval) : string := "?".

Definition list_gt (_ _ : list pyval) : result bool := Ok false.

(** The consumers count the calls that returned. *)
Definition world : Type := nat.

Definition counting : callback world :=
  {| cb_name := "on_goal"; cb_call := fun _ n => (S n, Ok tt) |}.

Definition failing : callback world :=
  {| cb_name := "broken"; cb_call := fun _ n => (n, Raise (ExceptionOf "RuntimeError")) |}.

(** A goal message of the Premier League (id 39) or of another league. *)
Definition goal_payload (league fixture minute : Z) (player : string)
  (home away : Z) : pyval :=
  PDict [("type", PStr "goal");
         ("fixture", PDict [("id", PInt fixture)]);
         ("league", PDict [("id", PInt league)]);
         ("goal", PDict [("team", PStr "Arsenal"); ("player", PStr player);
                         ("minute", PInt minute)]);
         ("score", PDict [("home", PInt home); ("away", PInt away)])].

(** A goal message that names no player. *)
Definition anonymous_goal (fixture minute : Z) (scorer : string) (home away : Z)
  : pyval :=
  PDict [("type", PStr "goal");
         ("fixture", PDict [("id", PInt fixture)]);
         ("league", PDict [("id", PInt 39)]);
         ("goal", PDict [("team", PStr scorer); ("minute", PInt minute)]);
         ("score", PDict [("home", PInt home); ("away", PInt away)])].

(** [json.loads] on the three texts used below. *)
Definition loads (message : string) : result pyval :=
  if String.eqb message "goal in league 39" then Ok (goal_payload 39 7 12 "Saka" 1 0)
  else if String.eqb message "goal in league 999" then Ok (goal_payload 999 7 12 "Saka" 1 0)
  else if String.eqb message "goal without details" then
    Ok (PDict [("type", PStr "goal"); ("fixture", PDict [("id", PInt 8)]);
               ("league", PDict [("id", PInt 140)])])
  else Raise JSONDecodeError.

(** A listener with the two callbacks registered, the failing one first. *)
Definition listener (PS : PySet) : WebSocketGoalListener world :=
  register_goal_callback world
    (register_goal_callback world (ws_init world) failing) counting.

(** A thousand goals in fixtures [first], [first + step], ... *)
Definition many_goals (first step : Z) : list pyval :=
  map (fun i => goal_payload 39 (first + step * Z.of_nat i) 10 "Kane" 1 0)
      (seq 0 1000).

(** A fixture of a live snapshot. *)
Definition live_payload (fixture league : Z) (home away : pyval) (elapsed : Z)
  : pyval :=
  PDict [("fixture", PDict [("id", PInt fixture);
                            ("status", PDict [("long", PStr "Second Half");
                                              ("elapsed", PInt elapsed)])]);
         ("league", PDict [("id", PInt league); ("name", PStr "Premier League")]);
         ("teams", PDict [("home", PDict [("name", PStr "Arsenal")]);
                          ("away", PDict [("name", PStr "Chelsea")])]);
         ("goals", PDict [("home", home); ("away", away)])].

Definition live (fixture league : Z) (home away : option Z) (elapsed : Z)
  : live_fixture :=
  {| lf_id := fixture;
     lf_league_id := league;
     lf_league_name := PStr "Premier League";
     lf_home_name := PStr "Arsenal";
     lf_away_name := PStr "Chelsea";
     lf_goals_home := home;
     lf_goals_away := away;
     lf_status := [("long", PStr "Second Half"); ("elapsed", PInt elapsed)] |}.

(** A hybrid listener with both callbacks registered, which last saw
    fixture 100 at 1-0. *)
Definition hybrid (PS : PySet) : HybridGoalListener world :=
  with_previous_scores world
    (hybrid_register_goal_callback world
       (hybrid_register_goal_callback world (hybrid_init world) failing)
       counting)
    [(PInt 100, (PInt 1, PInt 0))].

Definition eleven_failures : list (session * Q) :=
  repeat (ConnectFails ConnectionClosed, 1 # 2) 11.

Definition minute_in_range (ev : GoalEventWS) : Prop :=
  exists m, minute ev = PInt m /\ 0 <= m <= 130.

Definition scores_non_negative (ev : GoalEventWS) : Prop :=
  exists h a, home_score ev = PInt h /\ away_score ev = PInt a /\ 0 <= h /\ 0 <= a.

Definition kane_key (fixture : Z) : string := (str_of_Z fixture ++ "_10_Kane")%string.



(** 1001 goals at minute 10 that name no player, in fixtures 1 to 1001,
    for one side and the score it gives, and their keys. *)
Definition anonymous_goals (scorer : string) (home away : Z) : list pyval :=
  map (fun i => anonymous_goal (Z.of_nat i) 10 scorer home away) (seq 1 1001).

Definition anonymous_keys : list string :=
  map (fun i => (str_of_Z (Z.of_nat i) ++ "_10_unknown")%string) (seq 1 1001).

Fixpoint nodupb (l : list string) : bool :=
  match l with
  | [] => true
  | x :: rest => negb (existsb (String.eqb x) rest) && nodupb rest
  end.

End Scenario.

Import Scenario.

Lemma nodupb_NoDup (l : list string) : nodupb l = true -> NoDup l.
Proof.
  induction l as [|x rest IH]; simpl; intros H; [constructor|].
  apply andb_prop in H. destruct H as [Hx Hrest].
  constructor; [|now apply IH].
  intros Hin. apply negb_true_iff in Hx.
  assert (E : existsb (String.eqb x) rest = true).
  { apply existsb_exists. exists x. split; [assumption | apply String.eqb_refl]. }
  congruence.
Qed.

Lemma Forall2_map_same {A B C : Type} (R : B -> C -> Prop) (f : A -> B)
  (g : A -> C) (l : list A) :
  (forall a, R (f a) (g a)) -> Forall2 R (map f l) (map g l).
Proof. intros H. induction l; simpl; constructor; auto. Qed.


Lemma anonymous_goal_admissible (fixture minute : Z) (scorer : string)
  (home away : Z) :
  admissible repr (anonymous_goal fixture minute scorer home away)
    (str_of_Z fixture ++ "_" ++ str_of_Z minute ++ "_unknown")%string.
Proof.
  split; [reflexivity|]. eexists _, _. split; reflexivity.
Qed.

(** *** C1: eleven connection failures from a fresh hybrid listener *)

Lemma exhaustion_leaves_fallback_off_witness :
  let self1 :=
    fst (_run_websocket repr loads world (PS := insertion_set)
           (hybrid_init world) 0%nat (eleven_failures ++ [])) in
  let rn :=
    snd (_run_websocket repr loads world (PS := insertion_set)
           (hybrid_init world) 0%nat (eleven_failures ++ [])) in
  run_status world rn = Ok Returned
  /\ running world (run_listener world rn) = false
  /\ reconnect_attempts world (run_listener world rn) = 11
  /\ List.length (run_sleeps world rn) = 10%nat
  /\ use_polling_fallback world self1 = false
  /\ forall w' cycles,
       _health_monitor list_gt world self1 w' cycles = (self1, w', [], 0%nat).
Proof.
  apply (exhaustion_leaves_fallback_off repr list_gt loads world
           (hybrid_init world) 0%nat eleven_failures []).
  - unfold eleven_failures. simpl.
    repeat constructor; exists ConnectionClosed; reflexivity.
  - reflexivity.
  - reflexivity.
  - reflexivity.
Defined.

(** *** C2: the third attempt, with a draw of one half *)

Lemma reconnect_delay_within_bounds_witness :
  exists jitter : Q,
    _handle_reconnection world (PS := insertion_set)
      (with_reconnect_attempts world (ws_init world) 2) (1 # 2)
    = (with_reconnect_attempts world
         (with_reconnect_attempts world (ws_init world) 2) 3,
       Some (inject_Z 8 + jitter)%Q)
    /\ (jitter == 1)%Q
    /\ (0 <= jitter <= (1 # 4) * inject_Z 8)%Q
    /\ (inject_Z 8 <= inject_Z 8 + jitter <= (5 # 4) * inject_Z 8)%Q.
Proof.
  destruct (reconnect_delay_within_bounds world (PS := insertion_set)
              (with_reconnect_attempts world (ws_init world) 2) 3 (1 # 2))
    as [jitter [H1 [H0 [H2 [H3 _]]]]].
  - unfold max_reconnect_attempts. lia.
  - split; unfold Qle; simpl; lia.
  - reflexivity.
  - exists jitter. split; [exact H1|].
    split; [refine (Qeq_trans _ _ _ H0 _); reflexivity|].
    split; [exact H2|].
    apply H3. vm_compute. discriminate.
Defined.

(** *** C3 *)


(** The same goal message before and after a thousand others, on a set
    that keeps its five hundred newest keys: both are fanned out. *)
Lemma evicted_key_is_admitted_again :
  let d := goal_payload 39 1 10 "Kane" 1 0 in
  let logs :=
    snd (handle_goal_events repr world (PS := insertion_set)
           (listener insertion_set) 0%nat (d :: many_goals 2 1 ++ [d])) in
  goal_key repr d = Some "1_10_Kane"
  /\ map fst (List.concat (map snd (nth 0 logs []))) = ["broken"; "on_goal"]
  /\ map fst (List.concat (map snd (nth 1001 logs []))) = ["broken"; "on_goal"].
Proof. vm_compute. repeat split; reflexivity. Qed.


(** *** C4 *)

(** C4, on a failing input: 1001 goals, in fixtures 2000 down to 1000, on a
    set iterated in key order.  The clean-up leaves 500 keys, the 500
    oldest; each of the 501 newest keys is lost, the one just added
    included. *)
Lemma clean_up_drops_most_recent_keys :
  let datas := many_goals 2000 (-1) ++ [goal_payload 39 1000 10 "Kane" 1 0] in
  let seen :=
    seen_goals world
      (fst (fst (handle_goal_events repr world (PS := keyed_set)
                   (listener keyed_set) 0%nat datas))) in
  List.length datas = 1001%nat
  /\ goal_key repr (nth 1000 datas PNone) = Some (kane_key 1000)
  /\ set_len seen = 500
  /\ set_mem (kane_key 1000) seen = false
  /\ forallb (fun i => negb (set_mem (kane_key (1000 + Z.of_nat i)) seen))
       (seq 0 501) = true
  /\ forallb (fun i => set_mem (kane_key (1501 + Z.of_nat i)) seen)
       (seq 0 500) = true.
Proof. vm_compute. repeat split; reflexivity. Qed.

(** The same 1001 goals on a set iterated in insertion order: there the
    clean-up does keep the 500 newest keys.  What the clean-up keeps is
    decided by the iteration order of the set. *)
Lemma clean_up_keeps_newest_on_ordered_set :
  let datas := many_goals 2000 (-1) ++ [goal_payload 39 1000 10 "Kane" 1 0] in
  let seen :=
    seen_goals world
      (fst (fst (handle_goal_events repr world (PS := insertion_set)
                   (listener insertion_set) 0%nat datas))) in
  set_len seen = 500
  /\ forallb (fun i => set_mem (kane_key (1000 + Z.of_nat i)) seen)
       (seq 0 500) = true.
Proof. vm_compute. split; reflexivity. Qed.

(** *** C5: fixture 100 goes from 1-0 to 3-0; fixture 200 is new *)


(** *** C7: a goal of league 999 *)

Lemma unsupported_league_is_dropped_witness :
  _process_message repr loads world (PS := insertion_set)
    (listener insertion_set) 0%nat "goal in league 999"
  = (listener insertion_set, 0%nat, [], Ok tt)
  /\ _handle_goal_event repr world (PS := insertion_set)
       (listener insertion_set) 0%nat (goal_payload 999 7 12 "Saka" 1 0)
     = (listener insertion_set, 0%nat, [], Ok tt).
Proof.
  apply (unsupported_league_is_dropped repr loads world
           (listener insertion_set) 0%nat "goal in league 999"
           (goal_payload 999 7 12 "Saka" 1 0)).
  - reflexivity.
  - reflexivity.
  - reflexivity.
Defined.

(** *** C8: a goal message with neither goal nor score part *)


(** *** C9 *)

(** Two goals of the same fixture, the first at minute 999 with the score
    at 2-0, the second with the score at -1-0: both are fanned out as they
    are. *)
Lemma out_of_range_event_is_delivered :
  let logs :=
    snd (handle_goal_events repr world (PS := insertion_set)
           (listener insertion_set) 0%nat
           [goal_payload 39 7 999 "Saka" 2 0;
            goal_payload 39 7 1000 "Saka" (-1) 0]) in
  exists ev1 ev2,
    map (map fst) logs = [[ev1]; [ev2]]
    /\ map (fun log => map fst (List.concat (map snd log))) logs
       = [["broken"; "on_goal"]; ["broken"; "on_goal"]]
    /\ fixture_id ev1 = fixture_id ev2
    /\ ~ minute_in_range ev1
    /\ ~ scores_non_negative ev2
    /\ home_score ev1 = PInt 2
    /\ home_score ev2 = PInt (-1).
Proof.
  vm_compute. do 2 eexists. split; [reflexivity|].
  split; [reflexivity|]. split; [reflexivity|].
  split; [|split; [|split; reflexivity]].
  - intros [m [Hm Hr]]. injection Hm as <-. apply Hr. reflexivity.
  - intros [h [a [Hh [_ [Hneg _]]]]]. injection Hh as <-. apply Hneg. reflexivity.
Qed.

Lemma delivered_event_copies_payload_witness :
  exists dkvs gkvs skvs,
    goal_payload 39 7 999 "Saka" 2 0 = PDict dkvs
    /\ get_or dkvs "goal" (PDict []) = PDict gkvs
    /\ get_or dkvs "score" (PDict []) = PDict skvs
    /\ PInt 999 = get_or gkvs "minute" (PInt 0)
    /\ PInt 2 = get_or skvs "home" (PInt 0)
    /\ PInt 0 = get_or skvs "away" (PInt 0).
Proof.
  apply (proj1 (delivered_event_copies_payload repr list_gt world
                  (PS := insertion_set)
                  {| fixture_id := PInt 7; league_id := PInt 39;
                     league_name := PStr "Unknown";
                     home_team := PStr "Unknown"; away_team := PStr "Unknown";
                     team := PStr "Arsenal"; player := PStr "Saka";
                     minute := PInt 999; home_score := PInt 2;
                     away_score := PInt 0; goal_type := PStr "Normal" |}
                  [("broken", Raise (ExceptionOf "RuntimeError"));
                   ("on_goal", Ok tt)]
                  0%nat)
           (listener insertion_set) (goal_payload 39 7 999 "Saka" 2 0)).
  vm_compute. left. reflexivity.
Defined.

(** *** C10 *)

Lemma same_fixture_minute_player_suppressed_witness :
  goal_key repr (anonymous_goal 7 55 "Arsenal" 1 0)
  = goal_key repr (anonymous_goal 7 55 "Chelsea" 1 1)
  /\ exists self1 w1 log1 self2 w2 logs,
       _handle_goal_event repr world (PS := insertion_set)
         (listener insertion_set) 0%nat (anonymous_goal 7 55 "Arsenal" 1 0)
       = (self1, w1, log1, Ok tt)
       /\ handle_goal_events repr world self1 w1 [] = (self2, w2, logs)
       /\ _handle_goal_event repr world self2 w2
            (anonymous_goal 7 55 "Chelsea" 1 1)
          = (self2, w2, [], Ok tt).
Proof.
  eapply (same_fixture_minute_player_suppressed repr world
            (PS := insertion_set) (listener insertion_set) 0%nat
            (anonymous_goal 7 55 "Arsenal" 1 0)
            (anonymous_goal 7 55 "Chelsea" 1 1) []).
  - reflexivity.
  - reflexivity.
  - reflexivity.
  - reflexivity.
  - reflexivity.
  - reflexivity.
  - reflexivity.
  - reflexivity.
  - reflexivity.
  - vm_compute. discriminate.
Defined.

(** Two goals of fixture 1 at minute 10 that name no player, one for each
    side, with a thousand other goals between them, on a set that keeps its
    five hundred newest keys: they have the same key and both are fanned
    out. *)
Lemma anonymous_goal_is_admitted_again :
  let d1 := anonymous_goal 1 10 "Arsenal" 1 0 in
  let d2 := anonymous_goal 1 10 "Chelsea" 1 1 in
  let logs :=
    snd (handle_goal_events repr world (PS := insertion_set)
           (listener insertion_set) 0%nat (d1 :: many_goals 2 1 ++ [d2])) in
  goal_key repr d1 = Some "1_10_unknown"
  /\ goal_key repr d2 = Some "1_10_unknown"
  /\ map fst (List.concat (map snd (nth 0 logs []))) = ["broken"; "on_goal"]
  /\ map fst (List.concat (map snd (nth 1001 logs []))) = ["broken"; "on_goal"].
Proof. vm_compute. repeat split; reflexivity. Qed.

(** On no set, whatever its iteration order, are 1001 player-less goals for
    the away side all suppressed by the 1001 player-less goals for the home
    side that came before them in the same fixtures at the same minute. *)
Lemma no_set_suppresses_every_anonymous_goal :
  ~ exists PS : PySet,
      let after :=
        fst (handle_goal_events repr world (PS := PS) (listener PS) 0%nat
               (anonymous_goals "Arsenal" 1 0)) in
      Forall (fun log => log = [])
        (snd (handle_goal_events repr world (fst after) (snd after)
                (anonymous_goals "Chelsea" 1 1))).
Proof.
  intros [PS H]. revert H.
  apply bounded_set_readmits with (keys := anonymous_keys).
  - apply Forall2_map_same. intros i. apply anonymous_goal_admissible.
  - apply Forall2_map_same. intros i. apply anonymous_goal_admissible.
  - apply nodupb_NoDup. vm_compute. reflexivity.
  - reflexivity.
  - apply set_empty_spec.
Qed.

(** *** C6: a consumer that always raises, registered before one that
    counts its calls *)

Example failing_consumer_does_not_block (ev : GoalEventWS) :
  _notify_goal_callbacks world [failing; counting] ev 0%nat
  = (1%nat,
     [("broken", Raise (ExceptionOf "RuntimeError")); ("on_goal", Ok tt)],
     Ok tt).
Proof. reflexivity. Qed.

(** ** The delay under rounding

    The source computes the jitter in binary floating point.  The draw
    times 0.25 is exact; the product with the delay and the final sum are
    rounded.  For any rounding that is monotone and leaves the multiples of
    a quarter up to 2^53 quarters as they are (as binary64 does), the bounds
    of the rational model still hold. *)

Section Rounding.

Variable rnd : Q -> Q.
Hypothesis rnd_mono : forall x y : Q, (x <= y)%Q -> (rnd x <= rnd y)%Q.
Hypothesis rnd_quarters :
  forall z : Z, Z.abs z <= 2 ^ 53 -> (rnd (z # 4) == z # 4)%Q.

Definition rounded_reconnect_delay (attempts : Z) (r : Q) : Q :=
  let delay :=
    Z.min (base_reconnect_delay * 2 ^ (attempts - 1)) max_reconnect_delay in
  let jitter := rnd (inject_Z delay * uniform 0 (1 # 4) r) in
  rnd (inject_Z delay + jitter).

Lemma rnd_le_quarter (x : Q) (z : Z) :
  Z.abs z <= 2 ^ 53 -> (x <= z # 4)%Q -> (rnd x <= z # 4)%Q.
Proof. intros Hz H. rewrite <- (rnd_quarters z Hz). now apply rnd_mono. Qed.

Lemma rnd_ge_quarter (x : Q) (z : Z) :
  Z.abs z <= 2 ^ 53 -> (z # 4 <= x)%Q -> (z # 4 <= rnd x)%Q.
Proof. intros Hz H. rewrite <- (rnd_quarters z Hz). now apply rnd_mono. Qed.

Lemma rounded_reconnect_delay_bounds (n : Z) (r : Q) :
  1 <= n -> (0 <= r <= 1)%Q ->
  let delay := Z.min (base_reconnect_delay * 2 ^ (n - 1)) max_reconnect_delay in
  (inject_Z delay <= rounded_reconnect_delay n r <= (5 # 4) * inject_Z delay)%Q.
Proof.
  intros Hn Hr delay. unfold rounded_reconnect_delay. fold delay.
  assert (Hd : 0 < delay <= 60).
  { pose proof (uncapped_delay_pos n Hn).
    unfold delay, max_reconnect_delay. lia. }
  assert (Hsmall : forall c, 0 <= c <= 5 -> Z.abs (c * delay) <= 2 ^ 53).
  { intros c Hc. change (2 ^ 53) with 9007199254740992. nia. }
  assert (HdQ : (0 < inject_Z delay)%Q)
    by (change 0%Q with (inject_Z 0); rewrite <- Zlt_Qlt; lia).
  assert (E1 : (inject_Z delay == 4 * delay # 4)%Q)
    by (unfold Qeq, inject_Z; cbn [Qnum Qden]; lia).
  assert (E5 : ((5 # 4) * inject_Z delay == 5 * delay # 4)%Q)
    by (unfold Qeq, Qmult, inject_Z; cbn [Qnum Qden]; lia).
  assert (E4 : (1 * delay # 4 == (1 # 4) * inject_Z delay)%Q)
    by (unfold Qeq, Qmult, inject_Z; cbn [Qnum Qden]; lia).
  assert (E0 : (0 * delay # 4 == 0)%Q) by reflexivity.
  assert (Hj : (0 * delay # 4 <= rnd (inject_Z delay * uniform 0 (1 # 4) r)
                <= 1 * delay # 4)%Q).
  { split.
    - apply rnd_ge_quarter; [apply Hsmall; lia|]. unfold uniform.
      rewrite E0. apply Qmult_le_0_compat; lra.
    - apply rnd_le_quarter; [apply Hsmall; lia|]. unfold uniform.
      rewrite E4.
      setoid_replace ((1 # 4) * inject_Z delay)%Q
        with (inject_Z delay * (1 # 4))%Q by ring.
      apply Qmult_le_l; lra. }
  split.
  - rewrite E1 at 1. apply rnd_ge_quarter; [apply Hsmall; lia|].
    rewrite <- E1. lra.
  - rewrite E5. apply rnd_le_quarter; [apply Hsmall; lia|].
    rewrite <- E5. lra.
Qed.

End Rounding.

(** Exact arithmetic is such a rounding; the third attempt with a draw of
    one half then sleeps between 8 and 10 seconds. *)
Lemma exact_reconnect_delay_bounds :
  (inject_Z 8 <= rounded_reconnect_delay (fun q => q) 3 (1 # 2)
   <= (5 # 4) * inject_Z 8)%Q.
Proof.
  apply (rounded_reconnect_delay_bounds (fun q => q) (fun x y H => H)
           (fun z _ => Qeq_refl (z # 4)) 3 (1 # 2)).
  - lia.
  - split; unfold Qle; simpl; lia.
Qed.

(** ** Further scenarios: fixture updates, sessions, polls and the engine *)

Module Desk.

(** A fixture update, and one that names no fixture. *)
Definition update_payload (fixture : Z) (status : string) : pyval :=
  PDict [("type", PStr "fixture_update");
         ("fixture", PDict [("id", PInt fixture)]);
         ("status", PStr status)].

Definition update_without_id : pyval :=
  PDict [("type", PStr "fixture_update"); ("status", PStr "NS")].

(** A goal message whose score is null. *)
Definition goal_with_null_score : pyval :=
  PDict [("type", PStr "goal");
         ("fixture", PDict [("id", PInt 7)]);
         ("league", PDict [("id", PInt 39)]);
         ("goal", PDict [("team", PStr "Arsenal"); ("player", PStr "Saka");
                         ("minute", PInt 12)]);
         ("score", PNone)].

(** [json.loads] on the texts used below. *)
Definition decode (message : string) : result pyval :=
  if String.eqb message "fixture 7 at half time" then Ok (update_payload 7 "HT")
  else if String.eqb message "update without id" then Ok update_without_id
  else if String.eqb message "goal by Saka" then
    Ok (goal_payload 39 7 12 "Saka" 1 0)
  else if String.eqb message "goal by Rice" then
    Ok (goal_payload 39 7 30 "Rice" 2 0)
  else Raise JSONDecodeError.

Definition two_failures : list (session * Q) :=
  [(ConnectFails ConnectionClosed, 1 # 2); (ConnectFails ConnectionClosed, 1 # 4)].

(** A snapshot of three fixtures: fixture 100, known at 1-0, now at 3-0;
    fixture 200, not seen before; fixture 300, of a league that is not
    supported. *)
Definition snapshot : list pyval :=
  [live_payload 100 39 (PInt 3) (PInt 0) 67;
   live_payload 200 39 (PInt 2) PNone 30;
   live_payload 300 999 (PInt 5) (PInt 5) 10].

Definition fixtures : list live_fixture :=
  [live 100 39 (Some 3) (Some 0) 67;
   live 200 39 (Some 2) None 30;
   live 300 999 (Some 5) (Some 5) 10].

Definition response (vs : list pyval) : pyval := PDict [("response", PList vs)].

(** An engine whose Alpha One counts the goals it sees and signals on
    every second one, and whose Alpha Two keeps what it is fed. *)
Definition engine : Type := UnifiedTradingEngine nat (list pyval).

Definition alpha_one_sees (_ : GoalEventWS) (n : nat) : nat * result bool :=
  (S n, Ok (Nat.even n)).

Definition alpha_two_keeps (update : pyval) (fed : list pyval)
  : list pyval * result unit :=
  (update :: fed, Ok tt).

Definition on_goal : callback engine :=
  on_goal_event_callback repr list_gt nat (list pyval) bool alpha_one_sees
    (fun signal => signal) (fun _ => Ok (PStr "signal")) alpha_two_keeps.

Definition both_enabled : engine :=
  {| alpha_one := Some 0%nat; alpha_two := Some [];
     goals_processed := 0; signals_generated := 0 |}.

Definition alpha_two_only : engine :=
  {| alpha_one := None; alpha_two := Some [];
     goals_processed := 0; signals_generated := 0 |}.

(** A polled goal whose fixture has no elapsed minute. *)
Definition goal_without_minute : GoalEventWS :=
  {| fixture_id := PInt 100; league_id := PInt 39;
     league_name := PStr "Premier League";
     home_team := PStr "Arsenal"; away_team := PStr "Chelsea";
     team := PStr "Arsenal"; player := PStr "Unknown (from polling)";
     minute := PNone; home_score := PInt 1; away_score := PInt 0;
     goal_type := PStr "Normal" |}.

End Desk.

Import Desk.

Lemma snapshot_describes : Forall2 describes snapshot fixtures.
Proof.
  repeat constructor; unfold describes; do 6 eexists;
    repeat split; reflexivity.
Qed.

Lemma hybrid_int_scores (PS : PySet) :
  int_scores (previous_scores world (hybrid PS)).
Proof. repeat constructor. exists 100, 1, 0. reflexivity. Qed.

(** *** X1: a session with two goals *)

Lemma seen_goals_stay_bounded_witness :
  set_len
    (seen_goals world
       (run_listener world
          (start repr decode world (PS := insertion_set)
             (listener insertion_set) 0%nat
             [(Connected ["goal by Saka"; "goal by Rice"] Ends, 1 # 2)])))
  <= 1000.
Proof.
  apply (seen_goals_stay_bounded repr decode world (PS := insertion_set)
           [(Connected ["goal by Saka"; "goal by Rice"] Ends, 1 # 2)]
           (listener insertion_set) 0%nat).
  vm_compute. discriminate.
Defined.

(** *** X2 to X4: fixture updates *)

Lemma fixture_update_is_cached_witness :
  exists self',
    _process_message repr decode world (PS := insertion_set)
      (listener insertion_set) 0%nat "fixture 7 at half time"
    = (self', 0%nat, [], Ok tt)
    /\ dict_get (active_fixtures world self') (PInt 7)
       = Some (update_payload 7 "HT").
Proof.
  destruct (fixture_update_is_cached repr decode world (PS := insertion_set)
              (listener insertion_set) 0%nat "fixture 7 at half time"
              (update_payload 7 "HT") 7 eq_refl eq_refl eq_refl)
    as [self' [H1 [H2 _]]].
  - discriminate.
  - exists self'. split; [exact H1 | exact H2].
Defined.

Lemma fixture_update_without_id_is_ignored_witness :
  _process_message repr decode world (PS := insertion_set)
    (listener insertion_set) 0%nat "update without id"
  = (listener insertion_set, 0%nat, [], Ok tt).
Proof.
  apply (fixture_update_without_id_is_ignored repr decode world
           (PS := insertion_set) (listener insertion_set) 0%nat
           "update without id" update_without_id PNone eq_refl eq_refl eq_refl).
  left. reflexivity.
Defined.

Lemma active_fixtures_one_per_fixture_witness :
  get_active_fixtures world
    (fst (_handle_fixture_update world (PS := insertion_set)
            (listener insertion_set) (update_payload 7 "HT")))
  = get_active_fixtures world (listener insertion_set)
    ++ [update_payload 7 "HT"].
Proof.
  apply (active_fixtures_one_per_fixture world (PS := insertion_set)
           (listener insertion_set) (update_payload 7 "HT") 7
           eq_refl eq_refl).
  discriminate.
Defined.

(** *** X6 and X7: registration *)

Lemma registries_stay_equal_witness :
  registries_agree world
    (fst (_run_websocket repr decode world (PS := insertion_set)
            (hybrid insertion_set) 0%nat eleven_failures)).
Proof.
  destruct (registries_stay_equal repr list_gt decode world
              (PS := insertion_set)) as [_ H].
  destruct (H (hybrid insertion_set) eq_refl) as [_ [Hrun _]].
  apply Hrun.
Defined.


(** *** X8 and X10: reconnection *)

Lemma connection_resets_attempts_witness :
  let rn :=
    start repr decode world (PS := insertion_set) (listener insertion_set)
      0%nat
      (two_failures
       ++ [(Connected ["goal by Saka"] (Drops ConnectionClosed), 1 # 2)]) in
  run_status world rn = Ok Listening
  /\ running world (run_listener world rn) = true
  /\ reconnect_attempts world (run_listener world rn) = 1
  /\ List.length (run_sleeps world rn) = 3%nat.
Proof.
  apply (connection_resets_attempts repr decode world (PS := insertion_set)
           (listener insertion_set) 0%nat two_failures ["goal by Saka"]
           (Drops ConnectionClosed) (1 # 2)).
  - repeat constructor; exists ConnectionClosed; reflexivity.
  - simpl. lia.
  - reflexivity.
  - discriminate.
Defined.

Lemma exhaustion_wait_bounds_witness :
  let rn :=
    start repr decode world (PS := insertion_set) (listener insertion_set)
      0%nat (eleven_failures ++ []) in
  run_sleeps world rn
  = backoff_sleeps 0 (firstn 10 (map snd eleven_failures))
  /\ (362 <= total (run_sleeps world rn) <= 905 # 2)%Q.
Proof.
  apply (exhaustion_wait_bounds repr decode world (PS := insertion_set)
           (listener insertion_set) 0%nat eleven_failures []).
  - apply Forall_forall. intros x Hx. apply repeat_spec in Hx. subst x.
    split; [exists ConnectionClosed; reflexivity|].
    split; unfold Qle; simpl; lia.
  - reflexivity.
  - reflexivity.
Defined.

(** *** X11 to X15: poll cycles *)

Lemma failed_poll_changes_nothing_witness :
  _poll_for_goals list_gt world (PS := insertion_set) (hybrid insertion_set)
    0%nat (HttpResponse 503 (Ok (response snapshot)))
  = (hybrid insertion_set, 0%nat, [], Ok tt)
  /\ _poll_for_goals list_gt world (PS := insertion_set)
       (hybrid insertion_set) 0%nat (HttpResponse 200 (Ok (PList snapshot)))
     = (hybrid insertion_set, 0%nat, [], Ok tt).
Proof.
  destruct (failed_poll_changes_nothing list_gt world (PS := insertion_set)
              (hybrid insertion_set) 0%nat) as [_ [Hstatus [_ [Hbody _]]]].
  split.
  - apply Hstatus. discriminate.
  - apply Hbody. left. intros kvs. discriminate.
Defined.


Lemma polling_skips_unsupported_league_witness :
  exists self' w' log,
    _poll_for_goals list_gt world (PS := insertion_set) (hybrid insertion_set)
      0%nat (HttpResponse 200 (Ok (response snapshot)))
    = (self', w', log, Ok tt)
    /\ filter (about 300) (map fst log) = []
    /\ dict_get (previous_scores world self') (PInt 300) = None.
Proof.
  apply (polling_skips_unsupported_league list_gt world (PS := insertion_set)
           (hybrid insertion_set) 0%nat (response snapshot) snapshot
           [live 100 39 (Some 3) (Some 0) 67; live 200 39 (Some 2) None 30]
           [] (live 300 999 (Some 5) (Some 5) 10)).
  - reflexivity.
  - exact snapshot_describes.
  - apply hybrid_int_scores.
  - simpl. lia.
  - simpl. tauto.
  - simpl. lia.
Defined.

Lemma failing_fixture_ends_cycle_witness :
  exists self2 w2 log,
    _poll_for_goals list_gt world (PS := insertion_set) (hybrid insertion_set)
      0%nat
      (HttpResponse 200
         (Ok (response [live_payload 100 39 (PInt 3) (PInt 0) 67;
                        PStr "not a fixture";
                        live_payload 200 39 (PInt 2) PNone 30])))
    = (self2, w2, log, Ok tt)
    /\ previous_scores world self2 = [(PInt 100, (PInt 3, PInt 0))].
Proof.
  destruct (failing_fixture_ends_cycle list_gt world (PS := insertion_set)
              (hybrid insertion_set) 0%nat
              (response [live_payload 100 39 (PInt 3) (PInt 0) 67;
                         PStr "not a fixture";
                         live_payload 200 39 (PInt 2) PNone 30])
              [live_payload 100 39 (PInt 3) (PInt 0) 67]
              (PStr "not a fixture")
              [live_payload 200 39 (PInt 2) PNone 30]
              _ _ _ eq_refl eq_refl eq_refl)
    as [self2 [w2 [log2 [_ [H1 H2]]]]].
  eexists self2, w2, _. split; [exact H1 | exact H2].
Defined.


(** *** X16 and X17: dedup keys *)

Lemma unbuildable_goal_burns_its_key_witness :
  exists self1,
    _handle_goal_event repr world (PS := insertion_set)
      (listener insertion_set) 0%nat goal_with_null_score
    = (self1, 0%nat, [], Ok tt)
    /\ set_mem "7_12_Saka" (seen_goals world self1) = true
    /\ _handle_goal_event repr world self1 0%nat
         (goal_payload 39 7 12 "Saka" 1 0)
       = (self1, 0%nat, [], Ok tt).
Proof.
  destruct (unbuildable_goal_burns_its_key repr world (PS := insertion_set)
              (listener insertion_set) 0%nat goal_with_null_score "7_12_Saka"
              _ eq_refl eq_refl)
    as [self1 [H1 [H2 H3]]].
  - intros skvs. discriminate.
  - reflexivity.
  - reflexivity.
  - exists self1. split; [exact H1|]. split; [exact H2|].
    apply H3. reflexivity.
Defined.

Lemma dedup_key_tells_goals_apart_witness :
  7 = 7 /\ 12 = 12 /\ "van_Dijk" = "van_Dijk".
Proof.
  apply (dedup_key_tells_goals_apart repr 7 7 12 12 "van_Dijk" "van_Dijk"
           (PDict [("player", PStr "van_Dijk"); ("minute", PInt 12)])
           (PDict [("minute", PInt 12); ("player", PStr "van_Dijk")])
           "7_12_van_Dijk"); reflexivity.
Defined.

(** *** X19 to X21: the engine on the listener *)

Lemma engine_counts_every_delivery_witness :
  let rn :=
    snd (_run_websocket repr decode engine (PS := insertion_set)
           (hybrid_register_goal_callback engine (hybrid_init engine) on_goal)
           both_enabled
           [(Connected ["goal by Saka"; "goal by Saka"; "goal by Rice"] Ends,
             1 # 2)]) in
  let n := Z.of_nat (List.length (run_log engine rn)) in
  goals_processed nat (list pyval) (run_world engine rn) = 0 + n
  /\ 0 <= signals_generated nat (list pyval) (run_world engine rn) <= 0 + n.
Proof.
  destruct (engine_counts_every_delivery repr list_gt decode
              (PS := insertion_set) nat (list pyval) bool alpha_one_sees
              (fun signal => signal) (fun _ => Ok (PStr "signal"))
              alpha_two_keeps
              (hybrid_register_goal_callback engine (hybrid_init engine)
                 on_goal)
              both_enabled eq_refl eq_refl) as [H _].
  apply H.
Defined.

Lemma non_numeric_minute_skips_alpha_two_witness :
  let out := cb_call engine on_goal goal_without_minute both_enabled in
  alpha_two nat (list pyval) (fst out) = Some []
  /\ goals_processed nat (list pyval) (fst out) = 0 + 1
  /\ is_ok (snd out) = false.
Proof.
  destruct (non_numeric_minute_skips_alpha_two repr list_gt nat (list pyval)
              bool alpha_one_sees (fun signal => signal)
              (fun _ => Ok (PStr "signal")) alpha_two_keeps
              goal_without_minute both_enabled eq_refl) as [H1 [H2 H3]].
  split; [exact H1|]. split; [exact H2|]. apply H3. discriminate.
Defined.

Lemma goal_events_need_alpha_one_witness :
  start_registration repr list_gt nat (list pyval) bool alpha_one_sees
    (fun signal => signal) (fun _ => Ok (PStr "signal")) alpha_two_keeps
    alpha_two_only (Some (hybrid_init engine (PS := insertion_set)))
  = Some (hybrid_init engine)
  /\ run_world engine
       (snd (_run_websocket repr decode engine (PS := insertion_set)
               (hybrid_init engine) alpha_two_only
               [(Connected ["goal by Saka"] Ends, 1 # 2)]))
     = alpha_two_only.
Proof.
  destruct (goal_events_need_alpha_one repr list_gt decode
              (PS := insertion_set) nat (list pyval) bool alpha_one_sees
              (fun signal => signal) (fun _ => Ok (PStr "signal"))
              alpha_two_keeps alpha_two_only (hybrid_init engine)
              eq_refl eq_refl eq_refl) as [H1 [H2 _]].
  split; [exact H1 | apply H2].
Defined.

(** *** C5: cycles in which a rise of a score is not reported once *)


(** *** C6: a consumer that raises, registered first *)

